(** * COSTS: sliding-window scale separation (pydmd/costs.py)

    A shallow embedding of the [COSTS] class of [pydmd/costs.py]: window
    planning, the eigenvalue seed, the per-window fit loop, the clustering
    of the fitted eigenvalues into frequency bands, the normalisation of the
    overlap-add reconstruction and the xarray round trip.

    Conventions.
    - Python integers are [Z]; [np.floor]/[int] are [Qfloor]/[Qtrunc].  The
      one place where float64 rounding decides an integer, the product
      [window_length * (n / window_length)] of [_build_windows], is taken
      from the float arithmetic of the environment ([product_below]); the
      machine's own answer is [binary64_below].
    - A float64 is an [xfloat]: a real number or one of [inf], [-inf],
      [nan].  Rounding, overflow and signed zeros are not modelled.  Window
      weights are reals; [np.exp] underflows to zero as in float64
      ([np_exp]).
    - An exception is a value of [exn]; a method of the object is a function
      [COSTS -> result A * COSTS], the object after the call being returned
      also when the call raises.
    - The solver ([BOPDMD], [compute_rank], [compute_svd]) and the clustering
      class are outside this file: they are records of functions. *)

From Stdlib Require Import ZArith QArith Qround Reals Lra Lia Ascii String List.
From Stdlib Require Floats Uint63.
From stdpp Require Import base list strings sorting gmap.

Local Open Scope string_scope.
Local Open Scope list_scope.
Local Open Scope Z_scope.

(** ** Exceptions and the object monad *)

Inductive exn : Type :=
| ValueError (msg : string)
| TypeError (msg : string)
| AttributeError (msg : string)
| IndexError (msg : string)
| KeyError (msg : string)
| ZeroDivisionError
| SolverFailure (msg : string).

Inductive result (A : Type) : Type :=
| Ok (a : A)
| Raise (e : exn).
Arguments Ok {A} a.
Arguments Raise {A} e.

Definition is_ok {A} (r : result A) : bool :=
  match r with Ok _ => true | Raise _ => false end.

#[global] Instance result_ret : MRet result := fun A a => Ok a.
#[global] Instance result_bind : MBind result := fun A B f r =>
  match r with Ok a => f a | Raise e => Raise e end.
#[global] Instance result_fmap : FMap result := fun A B f r =>
  match r with Ok a => Ok (f a) | Raise e => Raise e end.

(** [None] where a number is needed: the arithmetic raises [TypeError]. *)
Definition the {A} (what : string) (o : option A) : result A :=
  match o with
  | Some a => Ok a
  | None => Raise (TypeError ("unsupported operand: NoneType for " +:+ what))
  end.

(** [o is not None] *)
Definition is_not_None {A} (o : option A) : bool :=
  match o with Some _ => true | None => false end.

(** [None.attr]: the attribute access raises [AttributeError]. *)
Definition the_object {A} (attr : string) (o : option A) : result A :=
  match o with
  | Some a => Ok a
  | None => Raise (AttributeError ("'NoneType' object has no attribute " +:+ attr))
  end.

(** Monadic map over a list, left to right. *)
Fixpoint mapR {A B} (f : A -> result B) (l : list A) : result (list B) :=
  match l with
  | [] => Ok []
  | a :: l' => b ← f a; bs ← mapR f l'; Ok (b :: bs)
  end.

(** ** Floats and complex numbers *)

Inductive xfloat : Type :=
| Fin (x : R)
| PInf
| NInf
| NaN.

Record xcomplex : Type := Cx { re : xfloat; im : xfloat }.

Definition fzero : xfloat := Fin 0%R.
Definition czero : xcomplex := Cx fzero fzero.

(** [np.isfinite] *)
Definition isfinite (a : xfloat) : bool :=
  match a with Fin _ => true | _ => false end.

Definition Rsign (x : R) : comparison :=
  match total_order_T x 0%R with
  | inleft (left _) => Lt
  | inleft (right _) => Eq
  | inright _ => Gt
  end.

Definition Rleb (x y : R) : bool := if Rle_dec x y then true else false.

Definition xf_neg (a : xfloat) : xfloat :=
  match a with
  | Fin x => Fin (- x)%R
  | PInf => NInf
  | NInf => PInf
  | NaN => NaN
  end.

Definition xf_abs (a : xfloat) : xfloat :=
  match a with
  | Fin x => Fin (Rabs x)
  | PInf | NInf => PInf
  | NaN => NaN
  end.

Definition xf_add (a b : xfloat) : xfloat :=
  match a, b with
  | NaN, _ | _, NaN => NaN
  | PInf, NInf | NInf, PInf => NaN
  | PInf, _ | _, PInf => PInf
  | NInf, _ | _, NInf => NInf
  | Fin x, Fin y => Fin (x + y)%R
  end.

Definition xf_sub (a b : xfloat) : xfloat := xf_add a (xf_neg b).

(** An infinity with the sign of a comparison; [nan] for [Eq] (inf * 0). *)
Definition inf_of_sign (s : comparison) : xfloat :=
  match s with Gt => PInf | Lt => NInf | Eq => NaN end.

Definition xf_sign (a : xfloat) : option comparison :=
  match a with
  | Fin x => Some (Rsign x)
  | PInf => Some Gt
  | NInf => Some Lt
  | NaN => None
  end.

Definition sign_mul (s t : comparison) : comparison :=
  match s, t with
  | Eq, _ | _, Eq => Eq
  | Gt, Gt | Lt, Lt => Gt
  | _, _ => Lt
  end.

Definition xf_mul (a b : xfloat) : xfloat :=
  match a, b with
  | Fin x, Fin y => Fin (x * y)%R
  | _, _ =>
      match xf_sign a, xf_sign b with
      | Some s, Some t => inf_of_sign (sign_mul s t)
      | _, _ => NaN
      end
  end.

(** numpy division: a zero divisor gives an infinity or [nan], no exception. *)
Definition xf_div (a b : xfloat) : xfloat :=
  match a, b with
  | NaN, _ | _, NaN => NaN
  | Fin x, Fin y =>
      match Rsign y with
      | Eq => inf_of_sign (Rsign x)
      | _ => Fin (x / y)%R
      end
  | Fin _, _ => fzero
  | _, Fin y =>
      match xf_sign a with
      | Some s => inf_of_sign (sign_mul s (match Rsign y with Lt => Lt | _ => Gt end))
      | None => NaN
      end
  | _, _ => NaN
  end.

(** [np.sqrt] on a real array: [nan] below zero. *)
Definition xf_sqrt (a : xfloat) : xfloat :=
  match a with
  | Fin x => match Rsign x with Lt => NaN | _ => Fin (sqrt x) end
  | PInf => PInf
  | NInf | NaN => NaN
  end.

(** [np.log10]: [-inf] at zero, [nan] below zero. *)
Definition xf_log10 (a : xfloat) : xfloat :=
  match a with
  | Fin x =>
      match Rsign x with
      | Gt => Fin (ln x / ln 10)%R
      | Eq => NInf
      | Lt => NaN
      end
  | PInf => PInf
  | NInf | NaN => NaN
  end.

Definition xc_mul (a b : xcomplex) : xcomplex :=
  Cx (xf_sub (xf_mul (re a) (re b)) (xf_mul (im a) (im b)))
     (xf_add (xf_mul (re a) (im b)) (xf_mul (im a) (re b))).

Definition xc_of_float (a : xfloat) : xcomplex := Cx a fzero.
Definition xc_of_Z (z : Z) : xcomplex := Cx (Fin (IZR z)) fzero.
Definition xc_j : xcomplex := Cx fzero (Fin 1%R).

(** The order [np.argsort] sorts by: [nan] after every number. *)
Definition xf_leb (a b : xfloat) : bool :=
  match a, b with
  | _, NaN => true
  | NaN, _ => false
  | NInf, _ => true
  | _, NInf => false
  | _, PInf => true
  | PInf, _ => false
  | Fin x, Fin y => Rleb x y
  end.

(** ** Python values held in option dictionaries and dataset attributes *)

Inductive pyval : Type :=
| VNone
| VBool (b : bool)
| VInt (z : Z)
| VFloat (x : xfloat)
| VStr (s : string)
| VList (l : list string)
| VSet (s : gset string)
| VCallable (name : string)
| VArray (a : list (list xfloat)).

(** A [dict] keeps insertion order: an association list with distinct keys. *)
Definition pydict : Type := list (string * pyval).

Fixpoint dict_get (d : pydict) (k : string) : option pyval :=
  match d with
  | [] => None
  | (k', v) :: d' => if String.eqb k' k then Some v else dict_get d' k
  end.

(** [d[k] = v]: replace in place, or append a new key. *)
Fixpoint dict_set (d : pydict) (k : string) (v : pyval) : pydict :=
  match d with
  | [] => [(k, v)]
  | (k', v') :: d' =>
      if String.eqb k' k then (k', v) :: d' else (k', v') :: dict_set d' k v
  end.

(** [d.get(k, default)] *)
Definition dict_get_default (d : pydict) (k : string) (default : pyval) : pyval :=
  match dict_get d k with Some v => v | None => default end.

(** ** The COSTS object *)

(** An array of rank 2 is the list of its rows, all of one length. *)
Abbreviation array1 A := (list A) (only parsing).
Abbreviation array2 A := (list (list A)) (only parsing).
Abbreviation array3 A := (list (list (list A))) (only parsing).

Record COSTS : Type := mkCOSTS {
  _hist_kwargs : option (list (string * Z));
  _omega_label : option string;
  _step_size : option Z;
  _window_length : option Z;
  _n_components : option Z;
  _svd_rank : option Z;
  _global_svd : bool;
  _initialize_artificially : bool;
  _use_last_freq : bool;
  _init_alpha : option (array1 xcomplex);
  _cluster_centroids : option (array1 xfloat);
  _force_even_eigs : bool;
  _max_rank : option Z;
  _reset_alpha_init : bool;
  _relative_filter_length : R;
  _n_data_vars : option Z;
  _n_time_steps : option Z;
  _n_slides : option Z;
  _time_array : option (array2 xfloat);
  _modes_array : option (array3 xcomplex);
  _omega_array : option (array2 xcomplex);
  _amplitudes_array : option (array2 xcomplex);
  _omega_classes : option (array2 Z);
  _transform_method : option string;
  _window_means_array : option (array2 xfloat);
  _non_integer_n_slide : option bool;
  _svd_rank_pre_allocate : option Z;
  _kern_method : string;
  _pydmd_kwargs : pydict
}.

(** A method of the object. *)
Definition method (A : Type) : Type := COSTS -> result A * COSTS.

Definition method_ret {A} (a : A) : method A := fun self => (Ok a, self).
Definition method_bind {A B} (m : method A) (f : A -> method B) : method B :=
  fun self =>
    match m self with
    | (Ok a, self') => f a self'
    | (Raise e, self') => (Raise e, self')
    end.

Notation "'let*' x ':=' m 'in' k" := (method_bind m (fun x => k))
  (at level 10, x name, m at level 100, k at level 200, only parsing).

Definition raise {A} (e : exn) : method A := fun self => (Raise e, self).
Definition lift {A} (r : result A) : method A := fun self => (r, self).
Definition read {A} (field : COSTS -> A) : method A := fun self => (Ok (field self), self).
Definition update (f : COSTS -> COSTS) : method unit := fun self => (Ok tt, f self).
Definition call {A} (f : COSTS -> result A) : method A := fun self => (f self, self).

(** A loop [for b in l] that carries a value from one iteration to the next. *)
Fixpoint for_each {A B} (body : A -> B -> method A) (a : A) (l : list B) : method A :=
  match l with
  | [] => method_ret a
  | b :: l' => let* a' := body a b in for_each body a' l'
  end.

(** Field assignments [self._x = v]: every other field is kept. *)
Definition set_hist_kwargs v (c : COSTS) : COSTS :=
  mkCOSTS v (_omega_label c) (_step_size c) (_window_length c)
    (_n_components c) (_svd_rank c) (_global_svd c)
    (_initialize_artificially c) (_use_last_freq c) (_init_alpha c)
    (_cluster_centroids c) (_force_even_eigs c) (_max_rank c)
    (_reset_alpha_init c) (_relative_filter_length c) (_n_data_vars c)
    (_n_time_steps c) (_n_slides c) (_time_array c) (_modes_array c)
    (_omega_array c) (_amplitudes_array c) (_omega_classes c)
    (_transform_method c) (_window_means_array c) (_non_integer_n_slide c)
    (_svd_rank_pre_allocate c) (_kern_method c) (_pydmd_kwargs c).
Definition set_omega_label v (c : COSTS) : COSTS :=
  mkCOSTS (_hist_kwargs c) v (_step_size c) (_window_length c)
    (_n_components c) (_svd_rank c) (_global_svd c)
    (_initialize_artificially c) (_use_last_freq c) (_init_alpha c)
    (_cluster_centroids c) (_force_even_eigs c) (_max_rank c)
    (_reset_alpha_init c) (_relative_filter_length c) (_n_data_vars c)
    (_n_time_steps c) (_n_slides c) (_time_array c) (_modes_array c)
    (_omega_array c) (_amplitudes_array c) (_omega_classes c)
    (_transform_method c) (_window_means_array c) (_non_integer_n_slide c)
    (_svd_rank_pre_allocate c) (_kern_method c) (_pydmd_kwargs c).
Definition set_step_size v (c : COSTS) : COSTS :=
  mkCOSTS (_hist_kwargs c) (_omega_label c) v (_window_length c)
    (_n_components c) (_svd_rank c) (_global_svd c)
    (_initialize_artificially c) (_use_last_freq c) (_init_alpha c)
    (_cluster_centroids c) (_force_even_eigs c) (_max_rank c)
    (_reset_alpha_init c) (_relative_filter_length c) (_n_data_vars c)
    (_n_time_steps c) (_n_slides c) (_time_array c) (_modes_array c)
    (_omega_array c) (_amplitudes_array c) (_omega_classes c)
    (_transform_method c) (_window_means_array c) (_non_integer_n_slide c)
    (_svd_rank_pre_allocate c) (_kern_method c) (_pydmd_kwargs c).
Definition set_window_length v (c : COSTS) : COSTS :=
  mkCOSTS (_hist_kwargs c) (_omega_label c) (_step_size c) v (_n_components c)
    (_svd_rank c) (_global_svd c) (_initialize_artificially c)
    (_use_last_freq c) (_init_alpha c) (_cluster_centroids c)
    (_force_even_eigs c) (_max_rank c) (_reset_alpha_init c)
    (_relative_filter_length c) (_n_data_vars c) (_n_time_steps c)
    (_n_slides c) (_time_array c) (_modes_array c) (_omega_array c)
    (_amplitudes_array c) (_omega_classes c) (_transform_method c)
    (_window_means_array c) (_non_integer_n_slide c)
    (_svd_rank_pre_allocate c) (_kern_method c) (_pydmd_kwargs c).
Definition set_n_components v (c : COSTS) : COSTS :=
  mkCOSTS (_hist_kwargs c) (_omega_label c) (_step_size c) (_window_length c)
    v (_svd_rank c) (_global_svd c) (_initialize_artificially c)
    (_use_last_freq c) (_init_alpha c) (_cluster_centroids c)
    (_force_even_eigs c) (_max_rank c) (_reset_alpha_init c)
    (_relative_filter_length c) (_n_data_vars c) (_n_time_steps c)
    (_n_slides c) (_time_array c) (_modes_array c) (_omega_array c)
    (_amplitudes_array c) (_omega_classes c) (_transform_method c)
    (_window_means_array c) (_non_integer_n_slide c)
    (_svd_rank_pre_allocate c) (_kern_method c) (_pydmd_kwargs c).
Definition set_svd_rank v (c : COSTS) : COSTS :=
  mkCOSTS (_hist_kwargs c) (_omega_label c) (_step_size c) (_window_length c)
    (_n_components c) v (_global_svd c) (_initialize_artificially c)
    (_use_last_freq c) (_init_alpha c) (_cluster_centroids c)
    (_force_even_eigs c) (_max_rank c) (_reset_alpha_init c)
    (_relative_filter_length c) (_n_data_vars c) (_n_time_steps c)
    (_n_slides c) (_time_array c) (_modes_array c) (_omega_array c)
    (_amplitudes_array c) (_omega_classes c) (_transform_method c)
    (_window_means_array c) (_non_integer_n_slide c)
    (_svd_rank_pre_allocate c) (_kern_method c) (_pydmd_kwargs c).
Definition set_global_svd v (c : COSTS) : COSTS :=
  mkCOSTS (_hist_kwargs c) (_omega_label c) (_step_size c) (_window_length c)
    (_n_components c) (_svd_rank c) v (_initialize_artificially c)
    (_use_last_freq c) (_init_alpha c) (_cluster_centroids c)
    (_force_even_eigs c) (_max_rank c) (_reset_alpha_init c)
    (_relative_filter_length c) (_n_data_vars c) (_n_time_steps c)
    (_n_slides c) (_time_array c) (_modes_array c) (_omega_array c)
    (_amplitudes_array c) (_omega_classes c) (_transform_method c)
    (_window_means_array c) (_non_integer_n_slide c)
    (_svd_rank_pre_allocate c) (_kern_method c) (_pydmd_kwargs c).
Definition set_init_alpha v (c : COSTS) : COSTS :=
  mkCOSTS (_hist_kwargs c) (_omega_label c) (_step_size c) (_window_length c)
    (_n_components c) (_svd_rank c) (_global_svd c)
    (_initialize_artificially c) (_use_last_freq c) v (_cluster_centroids c)
    (_force_even_eigs c) (_max_rank c) (_reset_alpha_init c)
    (_relative_filter_length c) (_n_data_vars c) (_n_time_steps c)
    (_n_slides c) (_time_array c) (_modes_array c) (_omega_array c)
    (_amplitudes_array c) (_omega_classes c) (_transform_method c)
    (_window_means_array c) (_non_integer_n_slide c)
    (_svd_rank_pre_allocate c) (_kern_method c) (_pydmd_kwargs c).
Definition set_cluster_centroids v (c : COSTS) : COSTS :=
  mkCOSTS (_hist_kwargs c) (_omega_label c) (_step_size c) (_window_length c)
    (_n_components c) (_svd_rank c) (_global_svd c)
    (_initialize_artificially c) (_use_last_freq c) (_init_alpha c) v
    (_force_even_eigs c) (_max_rank c) (_reset_alpha_init c)
    (_relative_filter_length c) (_n_data_vars c) (_n_time_steps c)
    (_n_slides c) (_time_array c) (_modes_array c) (_omega_array c)
    (_amplitudes_array c) (_omega_classes c) (_transform_method c)
    (_window_means_array c) (_non_integer_n_slide c)
    (_svd_rank_pre_allocate c) (_kern_method c) (_pydmd_kwargs c).
Definition set_relative_filter_length v (c : COSTS) : COSTS :=
  mkCOSTS (_hist_kwargs c) (_omega_label c) (_step_size c) (_window_length c)
    (_n_components c) (_svd_rank c) (_global_svd c)
    (_initialize_artificially c) (_use_last_freq c) (_init_alpha c)
    (_cluster_centroids c) (_force_even_eigs c) (_max_rank c)
    (_reset_alpha_init c) v (_n_data_vars c) (_n_time_steps c) (_n_slides c)
    (_time_array c) (_modes_array c) (_omega_array c) (_amplitudes_array c)
    (_omega_classes c) (_transform_method c) (_window_means_array c)
    (_non_integer_n_slide c) (_svd_rank_pre_allocate c) (_kern_method c)
    (_pydmd_kwargs c).
Definition set_n_data_vars v (c : COSTS) : COSTS :=
  mkCOSTS (_hist_kwargs c) (_omega_label c) (_step_size c) (_window_length c)
    (_n_components c) (_svd_rank c) (_global_svd c)
    (_initialize_artificially c) (_use_last_freq c) (_init_alpha c)
    (_cluster_centroids c) (_force_even_eigs c) (_max_rank c)
    (_reset_alpha_init c) (_relative_filter_length c) v (_n_time_steps c)
    (_n_slides c) (_time_array c) (_modes_array c) (_omega_array c)
    (_amplitudes_array c) (_omega_classes c) (_transform_method c)
    (_window_means_array c) (_non_integer_n_slide c)
    (_svd_rank_pre_allocate c) (_kern_method c) (_pydmd_kwargs c).
Definition set_n_time_steps v (c : COSTS) : COSTS :=
  mkCOSTS (_hist_kwargs c) (_omega_label c) (_step_size c) (_window_length c)
    (_n_components c) (_svd_rank c) (_global_svd c)
    (_initialize_artificially c) (_use_last_freq c) (_init_alpha c)
    (_cluster_centroids c) (_force_even_eigs c) (_max_rank c)
    (_reset_alpha_init c) (_relative_filter_length c) (_n_data_vars c) v
    (_n_slides c) (_time_array c) (_modes_array c) (_omega_array c)
    (_amplitudes_array c) (_omega_classes c) (_transform_method c)
    (_window_means_array c) (_non_integer_n_slide c)
    (_svd_rank_pre_allocate c) (_kern_method c) (_pydmd_kwargs c).
Definition set_n_slides v (c : COSTS) : COSTS :=
  mkCOSTS (_hist_kwargs c) (_omega_label c) (_step_size c) (_window_length c)
    (_n_components c) (_svd_rank c) (_global_svd c)
    (_initialize_artificially c) (_use_last_freq c) (_init_alpha c)
    (_cluster_centroids c) (_force_even_eigs c) (_max_rank c)
    (_reset_alpha_init c) (_relative_filter_length c) (_n_data_vars c)
    (_n_time_steps c) v (_time_array c) (_modes_array c) (_omega_array c)
    (_amplitudes_array c) (_omega_classes c) (_transform_method c)
    (_window_means_array c) (_non_integer_n_slide c)
    (_svd_rank_pre_allocate c) (_kern_method c) (_pydmd_kwargs c).
Definition set_time_array v (c : COSTS) : COSTS :=
  mkCOSTS (_hist_kwargs c) (_omega_label c) (_step_size c) (_window_length c)
    (_n_components c) (_svd_rank c) (_global_svd c)
    (_initialize_artificially c) (_use_last_freq c) (_init_alpha c)
    (_cluster_centroids c) (_force_even_eigs c) (_max_rank c)
    (_reset_alpha_init c) (_relative_filter_length c) (_n_data_vars c)
    (_n_time_steps c) (_n_slides c) v (_modes_array c) (_omega_array c)
    (_amplitudes_array c) (_omega_classes c) (_transform_method c)
    (_window_means_array c) (_non_integer_n_slide c)
    (_svd_rank_pre_allocate c) (_kern_method c) (_pydmd_kwargs c).
Definition set_modes_array v (c : COSTS) : COSTS :=
  mkCOSTS (_hist_kwargs c) (_omega_label c) (_step_size c) (_window_length c)
    (_n_components c) (_svd_rank c) (_global_svd c)
    (_initialize_artificially c) (_use_last_freq c) (_init_alpha c)
    (_cluster_centroids c) (_force_even_eigs c) (_max_rank c)
    (_reset_alpha_init c) (_relative_filter_length c) (_n_data_vars c)
    (_n_time_steps c) (_n_slides c) (_time_array c) v (_omega_array c)
    (_amplitudes_array c) (_omega_classes c) (_transform_method c)
    (_window_means_array c) (_non_integer_n_slide c)
    (_svd_rank_pre_allocate c) (_kern_method c) (_pydmd_kwargs c).
Definition set_omega_array v (c : COSTS) : COSTS :=
  mkCOSTS (_hist_kwargs c) (_omega_label c) (_step_size c) (_window_length c)
    (_n_components c) (_svd_rank c) (_global_svd c)
    (_initialize_artificially c) (_use_last_freq c) (_init_alpha c)
    (_cluster_centroids c) (_force_even_eigs c) (_max_rank c)
    (_reset_alpha_init c) (_relative_filter_length c) (_n_data_vars c)
    (_n_time_steps c) (_n_slides c) (_time_array c) (_modes_array c) v
    (_amplitudes_array c) (_omega_classes c) (_transform_method c)
    (_window_means_array c) (_non_integer_n_slide c)
    (_svd_rank_pre_allocate c) (_kern_method c) (_pydmd_kwargs c).
Definition set_amplitudes_array v (c : COSTS) : COSTS :=
  mkCOSTS (_hist_kwargs c) (_omega_label c) (_step_size c) (_window_length c)
    (_n_components c) (_svd_rank c) (_global_svd c)
    (_initialize_artificially c) (_use_last_freq c) (_init_alpha c)
    (_cluster_centroids c) (_force_even_eigs c) (_max_rank c)
    (_reset_alpha_init c) (_relative_filter_length c) (_n_data_vars c)
    (_n_time_steps c) (_n_slides c) (_time_array c) (_modes_array c)
    (_omega_array c) v (_omega_classes c) (_transform_method c)
    (_window_means_array c) (_non_integer_n_slide c)
    (_svd_rank_pre_allocate c) (_kern_method c) (_pydmd_kwargs c).
Definition set_omega_classes v (c : COSTS) : COSTS :=
  mkCOSTS (_hist_kwargs c) (_omega_label c) (_step_size c) (_window_length c)
    (_n_components c) (_svd_rank c) (_global_svd c)
    (_initialize_artificially c) (_use_last_freq c) (_init_alpha c)
    (_cluster_centroids c) (_force_even_eigs c) (_max_rank c)
    (_reset_alpha_init c) (_relative_filter_length c) (_n_data_vars c)
    (_n_time_steps c) (_n_slides c) (_time_array c) (_modes_array c)
    (_omega_array c) (_amplitudes_array c) v (_transform_method c)
    (_window_means_array c) (_non_integer_n_slide c)
    (_svd_rank_pre_allocate c) (_kern_method c) (_pydmd_kwargs c).
Definition set_transform_method v (c : COSTS) : COSTS :=
  mkCOSTS (_hist_kwargs c) (_omega_label c) (_step_size c) (_window_length c)
    (_n_components c) (_svd_rank c) (_global_svd c)
    (_initialize_artificially c) (_use_last_freq c) (_init_alpha c)
    (_cluster_centroids c) (_force_even_eigs c) (_max_rank c)
    (_reset_alpha_init c) (_relative_filter_length c) (_n_data_vars c)
    (_n_time_steps c) (_n_slides c) (_time_array c) (_modes_array c)
    (_omega_array c) (_amplitudes_array c) (_omega_classes c) v
    (_window_means_array c) (_non_integer_n_slide c)
    (_svd_rank_pre_allocate c) (_kern_method c) (_pydmd_kwargs c).
Definition set_window_means_array v (c : COSTS) : COSTS :=
  mkCOSTS (_hist_kwargs c) (_omega_label c) (_step_size c) (_window_length c)
    (_n_components c) (_svd_rank c) (_global_svd c)
    (_initialize_artificially c) (_use_last_freq c) (_init_alpha c)
    (_cluster_centroids c) (_force_even_eigs c) (_max_rank c)
    (_reset_alpha_init c) (_relative_filter_length c) (_n_data_vars c)
    (_n_time_steps c) (_n_slides c) (_time_array c) (_modes_array c)
    (_omega_array c) (_amplitudes_array c) (_omega_classes c)
    (_transform_method c) v (_non_integer_n_slide c)
    (_svd_rank_pre_allocate c) (_kern_method c) (_pydmd_kwargs c).
Definition set_non_integer_n_slide v (c : COSTS) : COSTS :=
  mkCOSTS (_hist_kwargs c) (_omega_label c) (_step_size c) (_window_length c)
    (_n_components c) (_svd_rank c) (_global_svd c)
    (_initialize_artificially c) (_use_last_freq c) (_init_alpha c)
    (_cluster_centroids c) (_force_even_eigs c) (_max_rank c)
    (_reset_alpha_init c) (_relative_filter_length c) (_n_data_vars c)
    (_n_time_steps c) (_n_slides c) (_time_array c) (_modes_array c)
    (_omega_array c) (_amplitudes_array c) (_omega_classes c)
    (_transform_method c) (_window_means_array c) v (_svd_rank_pre_allocate c)
    (_kern_method c) (_pydmd_kwargs c).
Definition set_svd_rank_pre_allocate v (c : COSTS) : COSTS :=
  mkCOSTS (_hist_kwargs c) (_omega_label c) (_step_size c) (_window_length c)
    (_n_components c) (_svd_rank c) (_global_svd c)
    (_initialize_artificially c) (_use_last_freq c) (_init_alpha c)
    (_cluster_centroids c) (_force_even_eigs c) (_max_rank c)
    (_reset_alpha_init c) (_relative_filter_length c) (_n_data_vars c)
    (_n_time_steps c) (_n_slides c) (_time_array c) (_modes_array c)
    (_omega_array c) (_amplitudes_array c) (_omega_classes c)
    (_transform_method c) (_window_means_array c) (_non_integer_n_slide c) v
    (_kern_method c) (_pydmd_kwargs c).
Definition set_kern_method v (c : COSTS) : COSTS :=
  mkCOSTS (_hist_kwargs c) (_omega_label c) (_step_size c) (_window_length c)
    (_n_components c) (_svd_rank c) (_global_svd c)
    (_initialize_artificially c) (_use_last_freq c) (_init_alpha c)
    (_cluster_centroids c) (_force_even_eigs c) (_max_rank c)
    (_reset_alpha_init c) (_relative_filter_length c) (_n_data_vars c)
    (_n_time_steps c) (_n_slides c) (_time_array c) (_modes_array c)
    (_omega_array c) (_amplitudes_array c) (_omega_classes c)
    (_transform_method c) (_window_means_array c) (_non_integer_n_slide c)
    (_svd_rank_pre_allocate c) v (_pydmd_kwargs c).
Definition set_pydmd_kwargs v (c : COSTS) : COSTS :=
  mkCOSTS (_hist_kwargs c) (_omega_label c) (_step_size c) (_window_length c)
    (_n_components c) (_svd_rank c) (_global_svd c)
    (_initialize_artificially c) (_use_last_freq c) (_init_alpha c)
    (_cluster_centroids c) (_force_even_eigs c) (_max_rank c)
    (_reset_alpha_init c) (_relative_filter_length c) (_n_data_vars c)
    (_n_time_steps c) (_n_slides c) (_time_array c) (_modes_array c)
    (_omega_array c) (_amplitudes_array c) (_omega_classes c)
    (_transform_method c) (_window_means_array c) (_non_integer_n_slide c)
    (_svd_rank_pre_allocate c) (_kern_method c) v.

(** [COSTS.__init__].  The keyword [cluster_centroids] is stored and then
    cleared by the block that initialises the fit variables. *)
Definition __init__
    (svd_rank : option Z) (global_svd initialize_artificially use_last_freq : bool)
    (init_alpha : option (array1 xcomplex)) (pydmd_kwargs : option pydict)
    (cluster_centroids : option (array1 xfloat))
    (reset_alpha_init force_even_eigs : bool) (max_rank n_components : option Z)
    (kern_method : option string) (relative_filter_length : R) : COSTS :=
  let self :=
    {| _hist_kwargs := None;
       _omega_label := None;
       _step_size := None;
       _window_length := None;
       _n_components := n_components;
       _svd_rank := svd_rank;
       _global_svd := global_svd;
       _initialize_artificially := initialize_artificially;
       _use_last_freq := use_last_freq;
       _init_alpha := init_alpha;
       _cluster_centroids := cluster_centroids;
       _force_even_eigs := force_even_eigs;
       _max_rank := max_rank;
       _reset_alpha_init := reset_alpha_init;
       _relative_filter_length := relative_filter_length;
       _n_data_vars := None;
       _n_time_steps := None;
       _n_slides := None;
       _time_array := None;
       _modes_array := None;
       _omega_array := None;
       _amplitudes_array := None;
       _omega_classes := None;
       _transform_method := None;
       _window_means_array := None;
       _non_integer_n_slide := None;
       _svd_rank_pre_allocate := None;
       _kern_method := "";
       _pydmd_kwargs := [] |} in
  (* Initialize variables that are defined in fitting. *)
  let self := set_cluster_centroids None self in
  (* Specify how the data windows are constructed before fitting. *)
  let self :=
    match kern_method with
    | None => set_kern_method "kern" self
    | Some m => set_kern_method m self
    end in
  (* Specify default keywords to hand to BOPDMD. *)
  match pydmd_kwargs with
  | None =>
      set_pydmd_kwargs
        [("eig_sort", VStr "imag"); ("proj_basis", VNone); ("use_proj", VBool false)]
        self
  | Some kw =>
      let kw := dict_set kw "eig_sort" (dict_get_default kw "eig_sort" (VStr "imag")) in
      let kw := dict_set kw "proj_basis" (dict_get_default kw "proj_basis" VNone) in
      let kw := dict_set kw "use_proj" (dict_get_default kw "use_proj" (VBool false)) in
      set_pydmd_kwargs kw self
  end.

(** ** Slices and broadcasting *)

Record slice : Type := Slice { start : option Z; stop : option Z }.

(** A bound of a slice on a sequence of length [n], as [slice.indices]:
    a negative bound counts from the end, and bounds are clipped. *)
Definition clip_bound (n i : Z) : Z :=
  if i <? 0 then Z.max (i + n) 0 else Z.min i n.

Definition slice_bounds (s : slice) (n : Z) : Z * Z :=
  (match start s with Some i => clip_bound n i | None => 0 end,
   match stop s with Some i => clip_bound n i | None => n end).

(** [l[s]] *)
Definition apply_slice {A} (s : slice) (l : list A) : list A :=
  let '(a, b) := slice_bounds s (Z.of_nat (length l)) in
  take (Z.to_nat (b - a)) (drop (Z.to_nat a) l).

(** [l[s] = new], the lengths having been matched by broadcasting. *)
Definition replace_slice {A} (s : slice) (l : list A) (new : list A) : list A :=
  let '(a, b) := slice_bounds s (Z.of_nat (length l)) in
  take (Z.to_nat a) l ++ new ++ drop (Z.to_nat a + Z.to_nat (b - a)) l.

(** numpy broadcasting of two vectors: equal lengths, or one of length 1. *)
Definition broadcast_with {A B C} (f : A -> B -> C) (a : list A) (b : list B)
  : result (list C) :=
  if (length a =? length b)%nat then Ok (zip_with f a b)
  else match a, b with
       | [x], _ => Ok (map (f x) b)
       | _, [y] => Ok (map (fun x => f x y) a)
       | _, _ => Raise (ValueError "operands could not be broadcast together")
       end.

(** Broadcasting a source vector into a target of [n] cells. *)
Definition broadcast_to {A} (n : nat) (src : list A) : result (list A) :=
  if (length src =? n)%nat then Ok src
  else match src with
       | [x] => Ok (replicate n x)
       | _ => Raise (ValueError "could not broadcast input array into shape")
       end.

(** [np.zeros(n)] and [np.ones(n)]: a negative size raises. *)
Definition np_full {A} (value : A) (n : Z) : result (list A) :=
  if n <? 0 then Raise (ValueError "negative dimensions are not allowed")
  else Ok (replicate (Z.to_nat n) value).

(** [np.arange(n)] *)
Definition arange (n : Z) : list Z := seqZ 0 n.

(** Second extent of an array of rank 2. *)
Definition shape1 {A} (a : array2 A) : Z :=
  match a with [] => 0 | row :: _ => Z.of_nat (length row) end.

(** ** Window planning *)

(** [int(q)]: towards zero. *)
Definition Qtrunc (q : Q) : Z :=
  if 0 <=? Qnum q then Qfloor q else Qceiling q.

(** The integers below 2^53 as float64 values. *)
Definition float_of_Z (z : Z) : PrimFloat.float :=
  if z <? 0 then PrimFloat.opp (PrimFloat.of_uint63 (Uint63.of_Z (- z)))
  else PrimFloat.of_uint63 (Uint63.of_Z z).

(** Whether [window_length * (n / window_length)], computed in float64,
    falls below [n]: the answer of the machine. *)
Definition binary64_below (n window_length : Z) : bool :=
  PrimFloat.ltb
    (PrimFloat.mul (float_of_Z window_length)
       (PrimFloat.div (float_of_Z n) (float_of_Z window_length)))
    (float_of_Z n).

(** [int(window_length * (n / window_length))].  The quotient and the
    product are each rounded to nearest, which leaves the product within
    one unit in the last place of [n]; for the extents of an array (below
    2^51) the truncation is therefore [n], or [n - 1] when the product fell
    below [n].  [below] is the float arithmetic of the environment: it
    tells which of the two happened. *)
Definition int_of_product (below : Z -> Z -> bool) (n window_length : Z) : Z :=
  if below n window_length then n - 1 else n.

(** [COSTS._build_windows], [data.shape[1]] being [n_time_steps].  The
    quotients that are floored are of integers below 2^53, where the floor
    of the float64 quotient is the floor of the exact one. *)
Definition _build_windows (below : Z -> Z -> bool)
    (n_time_steps window_length step_size : Z) (integer_windows : bool) : result Z :=
  if window_length =? 0 then Raise ZeroDivisionError else
  let n_steps :=
    if integer_windows then
      let n_split := Qfloor (inject_Z n_time_steps / inject_Z window_length) in
      Qtrunc (inject_Z window_length * inject_Z n_split)
    else
      (* n_split = data.shape[1] / window_length, a float *)
      int_of_product below n_time_steps window_length in
  (* Number of sliding-window iterations *)
  if step_size =? 0 then Raise ZeroDivisionError else
  let n_slides := Qfloor (inject_Z (n_steps - window_length) / inject_Z step_size) in
  Ok (n_slides + 1).

(** [COSTS.get_window_indices] *)
Definition get_window_indices (k : Z) (self : COSTS) : result slice :=
  step_size ← the "*" (_step_size self);
  let sample_start := step_size * k in
  n_slides ← the "-" (_n_slides self);
  if (k =? n_slides - 1) && default false (_non_integer_n_slide self) then
    window_length ← the "unary -" (_window_length self);
    Ok (Slice (Some (- window_length)) None)
  else
    window_length ← the "+" (_window_length self);
    Ok (Slice (Some sample_start) (Some (sample_start + window_length))).

(** The window-planning block of [COSTS.fit]: from the assignment of
    [_window_length] to the decision on the extra last window. *)
Definition fit_plan_windows (below : Z -> Z -> bool)
    (n_time_steps n_data_vars time_size : Z)
    (window_length step_size : Z) : method unit :=
  (* Prepare window and data properties. *)
  let* _ := update (set_window_length (Some window_length)) in
  let* _ := update (set_step_size (Some step_size)) in
  let* _ := update (set_n_time_steps (Some n_time_steps)) in
  let* _ := update (set_n_data_vars (Some n_data_vars)) in
  if negb (n_time_steps =? time_size) then
    raise (ValueError "Data and time dimensions do not align.")
  else
  let* n_slides :=
    lift (_build_windows below n_time_steps window_length step_size false) in
  let* _ := update (set_n_slides (Some n_slides)) in
  if n_time_steps <? window_length then
    raise (ValueError "Window length is larger than the time dimension")
  else
  let n_slide_last_window :=
    n_time_steps - (step_size * (n_slides - 1) + window_length) in
  if 0 <? n_slide_last_window then
    let* _ := update (set_n_slides (Some (n_slides + 1))) in
    update (set_non_integer_n_slide (Some true))
  else
    update (set_non_integer_n_slide (Some false)).

(** ** Kernels *)

(** [COSTS.calculate_lv_kern]: the taper applied to a window before it is
    fitted. *)
Definition calculate_lv_kern (window_length : Z) (corner_sharpness : option R)
    (kern_method : string) : result (list R) :=
  let corner_sharpness := default 16%R corner_sharpness in
  if String.eqb kern_method "kern" then
    Ok (map (fun i =>
               tanh (corner_sharpness * IZR i / IZR window_length)
               - tanh (corner_sharpness * (IZR i - IZR window_length + 1)
                       / IZR window_length)
               - 1)%R
            (arange window_length))
  else if String.eqb kern_method "flat" then
    np_full 1%R window_length
  else
    Raise (ValueError "Unrecognized argument for `kern_method` provided").

(** [np.exp] in float64: a value that rounding to nearest cannot tell from
    zero, that is, at most half the least subnormal number [2^-1074],
    underflows to zero.  The rounding of the other values is not modelled. *)
Definition np_exp (x : R) : R :=
  if Rle_dec (exp x) (/ 2 ^ 1075) then 0%R else exp x.

(** [COSTS.build_kern]: the weight of a window in the reconstruction. *)
Definition build_kern (window_length : Z) (relative_filter_length : R)
    (direction : option string) : result (list R) :=
  if Req_dec_T relative_filter_length 0%R then Raise ZeroDivisionError else
  let recon_filter_sd := (IZR window_length / relative_filter_length)%R in
  let recon_filter :=
    map (fun i =>
           np_exp (- ((IZR i - (IZR window_length - 1) / 2) ^ 2)
                   / recon_filter_sd ^ 2))%R
        (arange window_length) in
  match direction with
  | None => Ok recon_filter
  | Some d =>
      if String.eqb d "forward" then
        let s := Slice (Some (window_length `div` 2)) None in
        Ok (replace_slice s recon_filter
              (replicate (length (apply_slice s recon_filter)) 1%R))
      else if String.eqb d "backward" then
        let s := Slice None (Some (window_length `div` 2)) in
        Ok (replace_slice s recon_filter
              (replicate (length (apply_slice s recon_filter)) 1%R))
      else
        Raise (ValueError "Unrecognized option for `direction` provided.")
  end.

(** ** The eigenvalue seed *)

(** [np.repeat(a, n)] and [np.tile(a, n)] *)
Definition np_repeat {A} (a : list A) (n : Z) : result (list A) :=
  if n <? 0 then Raise (ValueError "repeats may not contain negative values.")
  else Ok (flat_map (replicate (Z.to_nat n)) a).

Definition np_tile {A} (a : list A) (n : Z) : result (list A) :=
  if n <? 0 then Raise (ValueError "negative dimensions are not allowed")
  else Ok (concat (replicate (Z.to_nat n) a)).

(** [int(a / b)] on integers *)
Definition int_div (a b : Z) : result Z :=
  if b =? 0 then Raise ZeroDivisionError
  else Ok (Qtrunc (inject_Z a / inject_Z b)).

(** [COSTS._build_initialization] *)
Definition _build_initialization (self : COSTS) : result (option (array1 xcomplex)) :=
  (* User provided initial eigenvalues. *)
  if _initialize_artificially self && is_not_None (_init_alpha self) then
    Ok (_init_alpha self)
  (* Initial eigenvalue guesses from kmeans clustering. *)
  else if _initialize_artificially self
          && negb (is_not_None (_init_alpha self))
          && is_not_None (_cluster_centroids self) then
    let centroids := default [] (_cluster_centroids self) in
    svd_rank ← the "/" (_svd_rank self);
    n_components ← the "/" (_n_components self);
    n ← int_div svd_rank n_components;
    init_alpha ← np_repeat
      (map (fun c => xc_mul (xc_of_float (xf_sqrt c)) xc_j) centroids) n;
    n' ← int_div svd_rank n_components;
    signs ← np_tile [xc_of_Z 1; xc_of_Z (-1)] n';
    init_alpha ← broadcast_with xc_mul init_alpha signs;
    Ok (Some init_alpha)
  (* The user accidentally provided both methods of initializing the
     eigenvalues. *)
  else if _initialize_artificially self
          && is_not_None (_init_alpha self)
          && is_not_None (_cluster_centroids self) then
    Raise (ValueError "Only one of `init_alpha` and `cluster_centroids` can be provided")
  (* In all other cases we return None and let the first iteration of
     BOPDMD searches for the initial values. *)
  else Ok None.

(** ** The solver *)

(** The fields of a [BOPDMD] object that [COSTS.fit] reads and writes. *)
Record BOPDMD : Type := mkBOPDMD {
  svd_rank : option Z;
  init_alpha : option (array1 xcomplex);
  proj_basis : pyval;
  modes : array2 xcomplex;
  eigs : array1 xcomplex;
  amplitudes : array1 xcomplex;
  options : pydict
}.

Definition set_svd_rank' v (o : BOPDMD) : BOPDMD :=
  mkBOPDMD v (init_alpha o) (proj_basis o) (modes o) (eigs o) (amplitudes o) (options o).
Definition set_init_alpha' v (o : BOPDMD) : BOPDMD :=
  mkBOPDMD (svd_rank o) v (proj_basis o) (modes o) (eigs o) (amplitudes o) (options o).
Definition set_proj_basis' v (o : BOPDMD) : BOPDMD :=
  mkBOPDMD (svd_rank o) (init_alpha o) v (modes o) (eigs o) (amplitudes o) (options o).

(** What [fit] takes from its environment: the float arithmetic behind the
    slide count, and what [pydmd.bopdmd] and [pydmd.utils] provide.
    [bopdmd_fit] returns the solver object after
    [optdmd.fit(data_window, time_window)], with its [modes], [eigs] and
    [amplitudes], or the exception it raised. *)
Record Solver : Type := {
  product_below : Z -> Z -> bool;
  compute_rank : array2 xfloat -> option Z -> result Z;
  compute_svd : array2 xfloat -> option Z -> result (array2 xfloat);
  bopdmd_new : option Z -> option (array1 xcomplex) -> pydict -> result BOPDMD;
  bopdmd_fit : BOPDMD -> array2 xfloat -> array1 xfloat -> result BOPDMD
}.

(** ** Fitting *)

(** [a[k]] for [0 <= k] *)
Definition row_at {A} (a : list A) (k : Z) : result A :=
  match a !! Z.to_nat k with
  | Some r => Ok r
  | None => Raise (IndexError "index is out of bounds for axis 0")
  end.

(** [row[:width] = src] *)
Definition assign_prefix {A} (row : list A) (width : Z) (src : list A)
  : result (list A) :=
  let s := Slice None (Some width) in
  new ← broadcast_to (length (apply_slice s row)) src;
  Ok (replace_slice s row new).

(** [block[:, :width] = src] *)
Definition assign_block {A} (block : array2 A) (width : Z) (src : array2 A)
  : result (array2 A) :=
  rows ← broadcast_to (length block) src;
  mapR (fun '(row, srow) => assign_prefix row width srow) (zip block rows).

(** [np.mean] of a vector *)
Definition np_mean (l : list xfloat) : xfloat :=
  xf_div (foldl xf_add fzero l) (Fin (INR (length l))).

(** [COSTS._build_proj_basis] *)
Definition _build_proj_basis (sv : Solver) (data : array2 xfloat)
    (svd_rank : option Z) : method (array2 xfloat) :=
  let* r := lift (compute_rank sv data svd_rank) in
  let* _ := update (set_svd_rank (Some r)) in
  (* Recover the first r modes of the global svd *)
  lift (compute_svd sv data svd_rank).

(** The rank block of [COSTS.fit]: the projection basis and the width of
    the pre-allocated arrays. *)
Definition fit_rank_policy (sv : Solver) (data : array2 xfloat) : method unit :=
  let* global_svd := read _global_svd in
  (* Build the projection basis if using a global svd. *)
  if global_svd then
    let* svd_rank0 := read _svd_rank in
    let* u := _build_proj_basis sv data svd_rank0 in
    let* _ := update (fun self =>
          set_pydmd_kwargs (dict_set (_pydmd_kwargs self) "proj_basis" (VArray u)) self) in
    let* _ := update (fun self =>
          set_pydmd_kwargs
            (dict_set (_pydmd_kwargs self) "use_proj"
               (dict_get_default (_pydmd_kwargs self) "use_proj" (VBool false)))
            self) in
    let* svd_rank1 := read _svd_rank in
    let* r := lift (compute_rank sv data svd_rank1) in
    let* _ := update (set_svd_rank (Some r)) in
    update (set_svd_rank_pre_allocate (Some r))
  else
    let* svd_rank := call (fun self => the ">" (_svd_rank self)) in
    if 0 <? svd_rank then
      let* force_even_eigs := read _force_even_eigs in
      if force_even_eigs && negb (svd_rank `mod` 2 =? 0) then
        raise (ValueError "svd_rank is odd, but force_even_eigs is True.")
      else
      let* n_data_vars := call (fun self => the ">" (_n_data_vars self)) in
      if n_data_vars <? svd_rank then
        raise (ValueError "Rank is larger than the data spatial dimension.")
      else
      let* r := lift (compute_rank sv data (Some svd_rank)) in
      update (set_svd_rank_pre_allocate (Some r))
    else
      (* If not using a global svd or a specified svd_rank, local u from
         each window is used instead. *)
      let* max_rank := read _max_rank in
      match max_rank with
      | Some m => update (set_svd_rank_pre_allocate (Some m))
      | None =>
          let* n_data_vars := read _n_data_vars in
          update (set_svd_rank_pre_allocate n_data_vars)
      end.

(** Pre-allocate all elements for the sliding window DMD. *)
Definition fit_preallocate : method unit :=
  let* n_slides := call (fun self => the "shape" (_n_slides self)) in
  let* window_length := call (fun self => the "shape" (_window_length self)) in
  let* n_data_vars := call (fun self => the "shape" (_n_data_vars self)) in
  let* time_row := lift (np_full fzero window_length) in
  let* time_array := lift (np_full time_row n_slides) in
  let* _ := update (set_time_array (Some time_array)) in
  let* capacity := call (fun self => the "shape" (_svd_rank_pre_allocate self)) in
  let* modes_row := lift (np_full czero capacity) in
  let* modes_block := lift (np_full modes_row n_data_vars) in
  let* modes_array := lift (np_full modes_block n_slides) in
  let* _ := update (set_modes_array (Some modes_array)) in
  let* omega_row := lift (np_full czero capacity) in
  let* omega_array := lift (np_full omega_row n_slides) in
  let* _ := update (set_omega_array (Some omega_array)) in
  let* amplitudes_array := lift (np_full omega_row n_slides) in
  let* _ := update (set_amplitudes_array (Some amplitudes_array)) in
  let* means_row := lift (np_full fzero n_data_vars) in
  let* window_means_array := lift (np_full means_row n_slides) in
  update (set_window_means_array (Some window_means_array)).

(** The first half of an iteration of the loop of [COSTS.fit]: the window
    [k] is cut out, centred, tapered and handed to the solver.  The result
    is the solver object after its [fit], the window mean [c] and the
    absolute times of the window.  [time] is the only row of the
    [(1, n_time_steps)] time array. *)
Definition fit_window_solve (sv : Solver) (data : array2 xfloat) (time : array1 xfloat)
    (lv_kern : list R) (optdmd : BOPDMD) (k : Z)
  : method (BOPDMD * array1 xfloat * array1 xfloat) :=
  let* sample_slice := call (get_window_indices k) in
  let data_window := map (apply_slice sample_slice) data in
  let original_time_window := apply_slice sample_slice time in
  (* All windows are fit with the time array reset to start at t=0. *)
  let* t_start := lift (match original_time_window with
                        | t0 :: _ => Ok t0
                        | [] => Raise (IndexError "index 0 is out of bounds for axis 1")
                        end) in
  let time_window := map (fun t => xf_sub t t_start) original_time_window in
  (* Subtract off the time mean before rounding corners. *)
  let c := map np_mean data_window in
  let data_window := zip_with (fun row ci => map (fun x => xf_sub x ci) row) data_window c in
  (* Round the corners of the window. *)
  let* data_window :=
    lift (mapR (fun row => broadcast_with xf_mul row (map Fin lv_kern)) data_window) in
  (* Reset optdmd between iterations *)
  let* global_svd := read _global_svd in
  let* optdmd :=
    if negb global_svd then
      (* Get the svd rank for this window. *)
      let* svd_rank := read _svd_rank in
      let* _svd_rank := lift (compute_rank sv data_window svd_rank) in
      (* Force svd rank to be even to allow for conjugate pairs. *)
      let* force_even_eigs := read _force_even_eigs in
      let _svd_rank :=
        if force_even_eigs && negb (_svd_rank `mod` 2 =? 0)
        then _svd_rank + 1 else _svd_rank in
      (* Force svd rank to not exceed a user specified amount. *)
      let* max_rank := read _max_rank in
      let optdmd :=
        match max_rank with
        | Some m => set_svd_rank' (Some (Z.min _svd_rank m)) optdmd
        | None => set_svd_rank' (Some _svd_rank) optdmd
        end in
      let* basis := call (fun self =>
        match dict_get (_pydmd_kwargs self) "proj_basis" with
        | Some v => Ok v
        | None => Raise (KeyError "proj_basis")
        end) in
      method_ret (set_proj_basis' basis optdmd)
    else method_ret optdmd in
  (* Fit the window using the optDMD. *)
  let* optdmd := lift (bopdmd_fit sv optdmd data_window time_window) in
  method_ret (optdmd, c, original_time_window).

(** Assign the results from this window. *)
Definition fit_window_assign (k : Z) (optdmd : BOPDMD) (c : array1 xfloat)
    (original_time_window : array1 xfloat) : method unit :=
  let* modes_array := call (fun self => the "[]" (_modes_array self)) in
  let* block := lift (row_at modes_array k) in
  let* block := lift (assign_block block (shape1 (modes optdmd)) (modes optdmd)) in
  let* _ := update (set_modes_array (Some (<[Z.to_nat k := block]> modes_array))) in
  let* omega_array := call (fun self => the "[]" (_omega_array self)) in
  let* row := lift (row_at omega_array k) in
  let* row := lift (assign_prefix row (Z.of_nat (length (eigs optdmd))) (eigs optdmd)) in
  let* _ := update (set_omega_array (Some (<[Z.to_nat k := row]> omega_array))) in
  let* amplitudes_array := call (fun self => the "[]" (_amplitudes_array self)) in
  let* row := lift (row_at amplitudes_array k) in
  let* row := lift (assign_prefix row (Z.of_nat (length (eigs optdmd)))
                      (amplitudes optdmd)) in
  let* _ := update (set_amplitudes_array (Some (<[Z.to_nat k := row]> amplitudes_array))) in
  let* window_means_array := call (fun self => the "[]" (_window_means_array self)) in
  let* row := lift (row_at window_means_array k) in
  let* row := lift (broadcast_to (length row) c) in
  let* _ := update (set_window_means_array
                      (Some (<[Z.to_nat k := row]> window_means_array))) in
  let* time_array := call (fun self => the "[]" (_time_array self)) in
  let* row := lift (row_at time_array k) in
  let* row := lift (broadcast_to (length row) original_time_window) in
  update (set_time_array (Some (<[Z.to_nat k := row]> time_array))).

(** The end of an iteration: the seed of the next window. *)
Definition fit_window_reseed (optdmd : BOPDMD) : method BOPDMD :=
  let* global_svd := read _global_svd in
  (* Reset optdmd between iterations *)
  if negb global_svd then
    let* use_last_freq := read _use_last_freq in
    let* reset_alpha_init := read _reset_alpha_init in
    (* The default behavior is to reset the optdmd object to use the
       initial value from the first window. *)
    if negb use_last_freq && negb reset_alpha_init then
      let* init := read _init_alpha in
      method_ret (set_init_alpha' init optdmd)
    (* Use the eigenvalues from this window to seed the next window. *)
    else if use_last_freq then
      method_ret (set_init_alpha' (Some (eigs optdmd)) optdmd)
    (* Remove the initial guess for the eigenvalues entirely. *)
    else if reset_alpha_init then
      method_ret (set_init_alpha' None optdmd)
    else method_ret optdmd
  else method_ret optdmd.

(** One iteration of the sliding-window loop of [COSTS.fit], for window
    [k]; the solver object is carried to the next iteration. *)
Definition fit_window (sv : Solver) (data : array2 xfloat) (time : array1 xfloat)
    (lv_kern : list R) (optdmd : BOPDMD) (k : Z) : method BOPDMD :=
  let* solved := fit_window_solve sv data time lv_kern optdmd k in
  let* _ := fit_window_assign k (fst (fst solved)) (snd (fst solved)) (snd solved) in
  fit_window_reseed (fst (fst solved)).

(** The seed, the solver object and the taper of [COSTS.fit]. *)
Definition fit_solver_setup (sv : Solver) (corner_sharpness : option R)
  : method (BOPDMD * list R) :=
  (* Get initial values for the eigenvalues. *)
  let* init := call _build_initialization in
  let* _ := update (set_init_alpha init) in
  (* Initialize the BOPDMD object. *)
  let* optdmd := call (fun self =>
    bopdmd_new sv (_svd_rank self) (_init_alpha self) (_pydmd_kwargs self)) in
  (* Round the corners of the windowed data towards zero. *)
  let* lv_kern := call (fun self =>
    window_length ← the "arange" (_window_length self);
    calculate_lv_kern window_length corner_sharpness (_kern_method self)) in
  method_ret (optdmd, lv_kern).

(** The loop of [COSTS.fit] over the windows [0 .. n_slides - 1]. *)
Definition fit_loop (sv : Solver) (data : array2 xfloat) (time : array1 xfloat)
    (lv_kern : list R) (optdmd : BOPDMD) : method BOPDMD :=
  let* n_slides := call (fun self => the "range" (_n_slides self)) in
  for_each (fit_window sv data time lv_kern) optdmd (arange n_slides).

(** [COSTS.fit] ([verbose] only prints). *)
Definition fit (sv : Solver) (data : array2 xfloat) (time : array1 xfloat)
    (window_length step_size : Z) (corner_sharpness : option R) : method unit :=
  let* _ := fit_plan_windows (product_below sv) (shape1 data) (Z.of_nat (length data))
              (Z.of_nat (length time)) window_length step_size in
  let* _ := fit_rank_policy sv data in
  let* _ := fit_preallocate in
  let* setup := fit_solver_setup sv corner_sharpness in
  (* Perform the sliding window DMD fitting. *)
  let* _ := fit_loop sv data time (snd setup) (fst setup) in
  method_ret tt.

(** ** Clustering the eigenvalues into frequency bands *)

(** [np.min] of a vector: [nan] wins, an empty vector raises. *)
Definition xf_min2 (a b : xfloat) : xfloat :=
  match a, b with
  | NaN, _ | _, NaN => NaN
  | _, _ => if xf_leb a b then a else b
  end.

Definition np_min (l : list xfloat) : result xfloat :=
  match l with
  | [] => Raise (ValueError
            "zero-size array to reduction operation minimum which has no identity")
  | x :: l' => Ok (foldl xf_min2 x l')
  end.

(** [COSTS.transform_omega] *)
Definition transform_omega (omega_array : array1 xcomplex)
    (transform_method : option string) : method (array1 xfloat) :=
  let is_method name :=
    match transform_method with Some m => String.eqb m name | None => false end in
  (* Apply a transformation to omega to improve frequency band separation *)
  if is_method "absolute" then
    let omega_transform := map (fun w => xf_abs (im w)) omega_array in
    let* _ := update (set_omega_label (Some "$|\omega|$")) in
    let* _ := update (set_hist_kwargs (Some [("bins", 64)])) in
    method_ret omega_transform
  else if is_method "square_frequencies" then
    let omega_transform := map (fun w => xf_mul (im w) (im w)) omega_array in
    let* _ := update (set_omega_label (Some "$|\omega|^{2}$")) in
    let* _ := update (set_hist_kwargs (Some [("bins", 64)])) in
    method_ret omega_transform
  else if is_method "log10" then
    let omega_transform := map (fun w => xf_log10 (xf_abs (im w))) omega_array in
    (* Impute log10(0) with the smallest non-zero values in log10(omega). *)
    let* zero_imputer := lift (np_min (filter (fun x => isfinite x = true) omega_transform)) in
    let omega_transform :=
      map (fun x => if isfinite x then x else zero_imputer) omega_transform in
    let* _ := update (set_omega_label (Some "$log_{10}(|\omega|)$")) in
    let* _ := update (set_hist_kwargs (Some [("bins", 64)])) in
    method_ret omega_transform
  else if is_method "period" then
    let omega_transform := map (fun w => xf_div (Fin 1%R) (xf_abs (im w))) omega_array in
    let* _ := update (set_omega_label (Some "Period")) in
    let* _ := update (set_hist_kwargs (Some [("bins", 64)])) in
    method_ret omega_transform
  else
    raise (ValueError "Transform method not supported.").

(** A clustering object, as built by [method(n_clusters=..., **kwargs)]:
    [fit_predict] returns the labels and the value that [cluster_centers_]
    has after the call. *)
Record Clusterer : Type := {
  fit_predict : array2 xfloat -> result (array1 Z * array2 xfloat)
}.

(** A clustering class: the attributes it has (with whether each is
    callable) and its constructor. *)
Record ClusterMethod : Type := {
  attributes : list (string * bool);
  new_clusterer : Z -> pydict -> result Clusterer
}.

Fixpoint attribute (attrs : list (string * bool)) (name : string) : option bool :=
  match attrs with
  | [] => None
  | (a, c) :: attrs' => if String.eqb a name then Some c else attribute attrs' name
  end.

(** [hasattr(m, name)] and [callable(getattr(m, name))] *)
Definition hasattr (m : ClusterMethod) (name : string) : bool :=
  is_not_None (attribute (attributes m) name).

Definition callable_getattr (m : ClusterMethod) (name : string) : result bool :=
  match attribute (attributes m) name with
  | Some c => Ok c
  | None => Raise (AttributeError ("type object has no attribute " +:+ name))
  end.

(** [a.reshape(n)] of an array of rank 2, and [l.reshape(n, m)] of a
    vector; [-1] stands for the extent that fits. *)
Definition reshape_flat {A} (a : array2 A) (n : Z) : result (array1 A) :=
  let flat := concat a in
  if (n =? -1) || (Z.of_nat (length flat) =? n) then Ok flat
  else Raise (ValueError "cannot reshape array").

Fixpoint chunks {A} (rows cols : nat) (l : list A) : array2 A :=
  match rows with
  | O => []
  | S rows' => take cols l :: chunks rows' cols (drop cols l)
  end.

Definition reshape2 {A} (l : list A) (n m : Z) : result (array2 A) :=
  let size := Z.of_nat (length l) in
  if (0 <=? n) && (0 <=? m) then
    if size =? n * m then Ok (chunks (Z.to_nat n) (Z.to_nat m) l)
    else Raise (ValueError "cannot reshape array")
  else if (n =? -1) && (0 <? m) && (size `mod` m =? 0) then
    Ok (chunks (Z.to_nat (size `div` m)) (Z.to_nat m) l)
  else if (m =? -1) && (0 <? n) && (size `mod` n =? 0) then
    Ok (chunks (Z.to_nat n) (Z.to_nat (size `div` n)) l)
  else Raise (ValueError "cannot reshape array").

(** [np.argsort]: the indices in the order of their values, equal values
    in the order of their indices. *)
Definition by_value : relation (nat * xfloat) :=
  fun p q => Is_true (xf_leb (snd p) (snd q)).

#[global] Instance by_value_dec p q : Decision (by_value p q).
Proof. unfold by_value. apply _. Defined.

Definition argsort (a : array1 xfloat) : list nat :=
  map fst (merge_sort by_value (imap pair a)).

(** [lut[idx] = values]: the assignments are made in the order of [idx]. *)
Definition scatter {A} (lut : list A) (idx : list nat) (values : list A) : list A :=
  foldl (fun lut iv => <[fst iv := snd iv]> lut) lut (zip idx values).

(** [lut[i]] for an integer [i]: a negative index counts from the end. *)
Definition index_wrap {A} (lut : list A) (i : Z) : result A :=
  let n := Z.of_nat (length lut) in
  let j := if i <? 0 then i + n else i in
  if (0 <=? j) && (j <? n) then row_at lut j
  else Raise (IndexError "index is out of bounds for axis 0").

(** The lookup table of [COSTS._cluster]: raw cluster id to rank of its
    centroid. *)
Definition build_lut (cluster_centroids : array1 xfloat) (n_components : Z)
  : result (list Z) :=
  let idx := argsort cluster_centroids in
  let lut := replicate (length idx) 0 in
  values ← broadcast_to (length idx) (arange n_components);
  Ok (scatter lut idx values).

(** [COSTS._cluster] *)
Definition _cluster (n_components : Z) (kmeans_kwargs : option pydict)
    (transform_method : option string) (m : ClusterMethod)
  : method (array1 xfloat * array2 Z) :=
  let kmeans_kwargs :=
    match kmeans_kwargs with
    | None => dict_set [] "random_state" (dict_get_default [] "random_state" (VInt 0))
    | Some kw => kw
    end in
  let* _ := lift (
    if negb (hasattr m "fit_predict") then
      c ← callable_getattr m "fit_predict";
      if c : bool then
        Raise (ValueError "Clustering method must have `fit_predict()` method.")
      else Ok tt
    else Ok tt) in
  let* clustering := lift (new_clusterer m n_components kmeans_kwargs) in
  (* Reshape the omega array into a 1d array *)
  let* omega_rshp := call (fun self =>
    omega_array ← the_object "reshape" (_omega_array self);
    n_slides ← the "*" (_n_slides self);
    capacity ← the "*" (_svd_rank_pre_allocate self);
    reshape_flat omega_array (n_slides * capacity)) in
  let* omega_transform := transform_omega omega_rshp transform_method in
  let* fitted := lift (fit_predict clustering (map (fun x => [x]) omega_transform)) in
  let* omega_classes := call (fun self =>
    n_slides ← the "reshape" (_n_slides self);
    capacity ← the "reshape" (_svd_rank_pre_allocate self);
    reshape2 (fst fitted) n_slides capacity) in
  let cluster_centroids := concat (snd fitted) in
  (* Sort the clusters by the centroid magnitude. *)
  let idx := argsort cluster_centroids in
  let* lut := lift (build_lut cluster_centroids n_components) in
  let* omega_classes := lift (mapR (mapR (index_wrap lut)) omega_classes) in
  let cluster_centroids := omap (fun i => cluster_centroids !! i) idx in
  method_ret (cluster_centroids, omega_classes).

(** [COSTS.cluster_omega] *)
Definition cluster_omega (n_components : Z) (kmeans_kwargs : option pydict)
    (transform_method : option string) (m : ClusterMethod) : method unit :=
  let* clustered := _cluster n_components kmeans_kwargs transform_method m in
  (* Assign the results to the object. *)
  let* _ := update (set_cluster_centroids (Some (fst clustered))) in
  let* _ := update (set_omega_classes (Some (snd clustered))) in
  let* _ := update (set_transform_method transform_method) in
  update (set_n_components (Some n_components)).

(** [np.argmax]: the first index of a greatest value ([nan] counts as
    greatest); an empty vector raises. *)
Fixpoint argmax_from (best_i : nat) (best : xfloat) (i : nat) (l : list xfloat) : nat :=
  match l with
  | [] => best_i
  | x :: l' =>
      if xf_leb x best then argmax_from best_i best (S i) l'
      else argmax_from i x (S i) l'
  end.

Definition np_argmax (l : list xfloat) : result nat :=
  match l with
  | [] => Raise (ValueError "attempt to get argmax of an empty sequence")
  | x :: l' => Ok (argmax_from 0 x 1 l')
  end.

(** [COSTS.cluster_hyperparameter_sweep]; [silhouette_score] is
    [sklearn.metrics.silhouette_score]. *)
Definition cluster_hyperparameter_sweep
    (silhouette_score : array2 xfloat -> array2 Z -> result xfloat)
    (n_components_range : option (list Z)) (transform_method : option string)
    (m : ClusterMethod) (clustering_kwargs : option pydict) : method Z :=
  let* n_components_range :=
    match n_components_range with
    | Some r => method_ret r
    | None =>
        let* svd_rank := call (fun self => the "//" (_svd_rank self)) in
        let lo := Z.max (svd_rank `div` 4) 2 in
        method_ret (seqZ lo (svd_rank `div` 2 + 1 - lo))
    end in
  (* Reshape the omega array into a 1d array. *)
  let* omega_rshp := call (fun self =>
    omega_array ← the_object "reshape" (_omega_array self);
    n_slides ← the "*" (_n_slides self);
    capacity ← the "*" (_svd_rank_pre_allocate self);
    reshape_flat omega_array (n_slides * capacity)) in
  (* Apply the transformation *)
  let* omega_transform := transform_omega omega_rshp transform_method in
  let* score := for_each (fun (score : list xfloat) n =>
      let* clustered := _cluster n clustering_kwargs transform_method m in
      let* classes_reshape := call (fun self =>
        n_slides ← the "*" (_n_slides self);
        capacity ← the "*" (_svd_rank_pre_allocate self);
        reshape_flat (snd clustered) (n_slides * capacity)) in
      let* s := lift (silhouette_score (map (fun x => [x]) omega_transform)
                        (map (fun x => [x]) classes_reshape)) in
      method_ret (score ++ [s]))
    [] n_components_range in
  let* best := lift (np_argmax score) in
  lift (row_at n_components_range (Z.of_nat best)).

(** ** The normalisation of the reconstruction *)






(** ** The xarray round trip *)

(** [needle in s] on strings *)
Fixpoint contains (s needle : string) : bool :=
  String.prefix needle s
  || match s with
     | EmptyString => false
     | String _ s' => contains s' needle
     end.

(** [s.replace(old, new)] for a non-empty [old]: the occurrences are taken
    from the left and do not overlap; [skip] counts the characters of the
    current occurrence that are still to be dropped. *)
Fixpoint str_replace_from (old new : string) (skip : nat) (s : string) : string :=
  match s with
  | EmptyString => EmptyString
  | String c s' =>
      match skip with
      | S skip' => str_replace_from old new skip' s'
      | O =>
          if String.prefix old s
          then new +:+ str_replace_from old new (String.length old - 1) s'
          else String c (str_replace_from old new 0 s')
      end
  end.

Definition str_replace (s old new : string) : string :=
  str_replace_from old new 0 s.

(** [COSTS._xarray_sanitize] *)
Definition _xarray_sanitize (value : pyval) : pyval :=
  match value with
  | VNone => VStr "None"
  | VSet s => VList (elements s)
  | VCallable name => VStr ("Custom function " +:+ name)
  | _ => value
  end.

(** [COSTS._xarray_unsanitize]: only an array has a [shape]; comparing any
    other value with a string does not raise. *)
Definition _xarray_unsanitize (value : pyval) : pyval :=
  match value with
  | VArray _ => value
  | VStr s => if String.eqb s "None" then VNone else value
  | _ => value
  end.

(** [set(value)] *)
Definition py_set (value : pyval) : result pyval :=
  match value with
  | VList l => Ok (VSet (list_to_set l))
  | VSet s => Ok (VSet s)
  | VStr s => Ok (VSet (list_to_set
                         (map (fun c => String c EmptyString) (list_ascii_of_string s))))
  | VArray [] => Ok (VSet ∅)
  | VArray _ => Raise (TypeError "unhashable type: 'numpy.ndarray'")
  | _ => Raise (TypeError "object is not iterable")
  end.

(** The dataset built by [to_xarray]: data variables, coordinates and
    attributes. *)
Record Dataset : Type := {
  ds_omega : array2 xcomplex;
  ds_omega_classes : array2 Z;
  ds_amplitudes : array2 xcomplex;
  ds_modes : array3 xcomplex;
  ds_window_means : array2 xfloat;
  ds_cluster_centroids : array1 xfloat;
  ds_window_time_means : array1 xfloat;
  ds_slide : array1 Z;
  ds_svd_rank : array1 Z;
  ds_space : array1 Z;
  ds_frequency_band : array1 Z;
  ds_window_index : array1 Z;
  ds_time : array2 xfloat;
  ds_attrs : pydict
}.

Definition set_attrs (attrs : pydict) (ds : Dataset) : Dataset :=
  {| ds_omega := ds_omega ds; ds_omega_classes := ds_omega_classes ds;
     ds_amplitudes := ds_amplitudes ds; ds_modes := ds_modes ds;
     ds_window_means := ds_window_means ds;
     ds_cluster_centroids := ds_cluster_centroids ds;
     ds_window_time_means := ds_window_time_means ds; ds_slide := ds_slide ds;
     ds_svd_rank := ds_svd_rank ds; ds_space := ds_space ds;
     ds_frequency_band := ds_frequency_band ds;
     ds_window_index := ds_window_index ds; ds_time := ds_time ds;
     ds_attrs := attrs |}.

(** The fields of the object are typed; an attribute is a Python value. *)
Definition of_int (o : option Z) : pyval :=
  match o with Some z => VInt z | None => VNone end.
Definition of_bool (o : option bool) : pyval :=
  match o with Some b => VBool b | None => VNone end.
Definition of_str (o : option string) : pyval :=
  match o with Some s => VStr s | None => VNone end.

(** Reading an attribute into a typed field: a value of another type is
    outside the model. *)
Definition to_int (v : pyval) : result (option Z) :=
  match v with
  | VInt z => Ok (Some z)
  | VNone => Ok None
  | _ => Raise (TypeError "attribute is not an integer")
  end.
Definition to_bool (v : pyval) : result (option bool) :=
  match v with
  | VBool b => Ok (Some b)
  | VNone => Ok None
  | _ => Raise (TypeError "attribute is not a boolean")
  end.
Definition to_str (v : pyval) : result (option string) :=
  match v with
  | VStr s => Ok (Some s)
  | VNone => Ok None
  | _ => Raise (TypeError "attribute is not a string")
  end.
Definition to_bool_strict (v : pyval) : result bool :=
  match v with
  | VBool b => Ok b
  | _ => Raise (TypeError "attribute is not a boolean")
  end.
Definition to_str_strict (v : pyval) : result string :=
  match v with
  | VStr s => Ok s
  | _ => Raise (TypeError "attribute is not a string")
  end.
Definition to_real (v : pyval) : result R :=
  match v with
  | VFloat (Fin x) => Ok x
  | _ => Raise (TypeError "attribute is not a finite number")
  end.

(** [ds.attrs[name]] *)
Definition attr (ds : Dataset) (name : string) : result pyval :=
  match dict_get (ds_attrs ds) name with
  | Some v => Ok v
  | None => Raise (KeyError name)
  end.

(** A data variable that is still [None] cannot be put in a dataset. *)
Definition the_array {A} (o : option A) : result A :=
  match o with
  | Some a => Ok a
  | None => Raise (ValueError "cannot build a variable from None")
  end.

(** The [attrs] dictionary that [COSTS.to_xarray] hands to [xr.Dataset]. *)
Definition dataset_attrs (self : COSTS) : pydict :=
  [("svd_rank", of_int (_svd_rank self));
   ("svd_rank_pre_allocate", of_int (_svd_rank_pre_allocate self));
   ("omega_transformation", _xarray_sanitize (of_str (_transform_method self)));
   ("n_slides", of_int (_n_slides self));
   ("window_length", of_int (_window_length self));
   ("num_frequency_bands", of_int (_n_components self));
   ("n_data_vars", of_int (_n_data_vars self));
   ("n_time_steps", of_int (_n_time_steps self));
   ("step_size", of_int (_step_size self));
   ("non_integer_n_slide", of_bool (_non_integer_n_slide self));
   ("global_svd", VBool (_global_svd self));
   ("relative_filter_length", VFloat (Fin (_relative_filter_length self)));
   ("kern_method", VStr (_kern_method self))].

(** The extents of an array of rank 2 or 3, as the list of its rows has
    them; an array with no row has no width here. *)
Definition has_shape2 {A} (a : array2 A) (n m : nat) : bool :=
  bool_decide (map length a = replicate n m).

Definition has_shape3 {A} (a : array3 A) (n m k : nat) : bool :=
  bool_decide (map (map length) a = replicate n (replicate m k)).

(** [COSTS.to_xarray].  [xr.Dataset] raises [ValueError] when two of its
    variables or coordinates disagree on the size of a dimension they
    share; the five dimensions take their sizes from the coordinates
    [slide], [svd_rank], [space], [frequency_band] and [window_index]. *)
Definition to_xarray (self : COSTS) : result Dataset :=
  omega ← the_array (_omega_array self);
  omega_classes ← the_array (_omega_classes self);
  amplitudes ← the_array (_amplitudes_array self);
  modes ← the_array (_modes_array self);
  window_means ← the_array (_window_means_array self);
  cluster_centroids ← the_array (_cluster_centroids self);
  time_array ← the_array (_time_array self);
  n_slides ← the "arange" (_n_slides self);
  svd_rank ← the "arange" (_svd_rank self);
  n_data_vars ← the "arange" (_n_data_vars self);
  n_components ← the "arange" (_n_components self);
  window_length ← the "arange" (_window_length self);
  let slides := length (arange n_slides) in
  let rank := length (arange svd_rank) in
  let space := length (arange n_data_vars) in
  let bands := length (arange n_components) in
  let window := length (arange window_length) in
  if negb (has_shape2 omega slides rank && has_shape2 omega_classes slides rank
           && has_shape2 amplitudes slides rank && has_shape3 modes slides space rank
           && has_shape2 window_means slides space
           && bool_decide (length cluster_centroids = bands)
           && has_shape2 time_array slides window)
  then Raise (ValueError "conflicting sizes for dimension") else
  let ds :=
    {| ds_omega := omega;
       ds_omega_classes := omega_classes;
       ds_amplitudes := amplitudes;
       ds_modes := modes;
       ds_window_means := window_means;
       ds_cluster_centroids := cluster_centroids;
       ds_window_time_means := map np_mean time_array;
       ds_slide := arange n_slides;
       ds_svd_rank := arange svd_rank;
       ds_space := arange n_data_vars;
       ds_frequency_band := arange n_components;
       ds_window_index := arange window_length;
       ds_time := time_array;
       ds_attrs := dataset_attrs self |} in
  Ok (foldl (fun ds kv =>
               set_attrs (dict_set (ds_attrs ds) ("pydmd_kwargs__" +:+ fst kv)
                            (_xarray_sanitize (snd kv))) ds)
        ds (_pydmd_kwargs self)).

(** The body of the loop [for attr in ds.attrs] of [COSTS.from_xarray]. *)
Definition from_xarray_attr (ds : Dataset) (_ : unit) (name : string) : method unit :=
  if contains name "pydmd_kwargs" then
    let new_attr_name := str_replace name "pydmd_kwargs__" "" in
    let* v := lift (attr ds name) in
    let* _ := update (fun self =>
      set_pydmd_kwargs
        (dict_set (_pydmd_kwargs self) new_attr_name (_xarray_unsanitize v)) self) in
    if String.eqb new_attr_name "eig_constraints" then
      let* s := call (fun self =>
        match dict_get (_pydmd_kwargs self) new_attr_name with
        | Some v' => py_set v'
        | None => Raise (KeyError new_attr_name)
        end) in
      update (fun self =>
        set_pydmd_kwargs (dict_set (_pydmd_kwargs self) new_attr_name s) self)
    else method_ret tt
  else if contains name "omega_transformation" then
    let* v := lift (attr ds name) in
    let* tm := lift (to_str (_xarray_unsanitize v)) in
    update (set_transform_method tm)
  else method_ret tt.

(** [COSTS.from_xarray] *)
Definition from_xarray (ds : Dataset) : method unit :=
  let* _ := update (set_omega_array (Some (ds_omega ds))) in
  let* _ := update (set_omega_classes (Some (ds_omega_classes ds))) in
  let* _ := update (set_amplitudes_array (Some (ds_amplitudes ds))) in
  let* _ := update (set_modes_array (Some (ds_modes ds))) in
  let* _ := update (set_window_means_array (Some (ds_window_means ds))) in
  let* _ := update (set_cluster_centroids (Some (ds_cluster_centroids ds))) in
  let* _ := update (set_time_array (Some (ds_time ds))) in
  let* v := lift (attr ds "n_slides" ≫= to_int) in
  let* _ := update (set_n_slides v) in
  let* v := lift (attr ds "svd_rank" ≫= to_int) in
  let* _ := update (set_svd_rank v) in
  let* v := lift (attr ds "n_data_vars" ≫= to_int) in
  let* _ := update (set_n_data_vars v) in
  let* v := lift (attr ds "n_time_steps" ≫= to_int) in
  let* _ := update (set_n_time_steps v) in
  let* v := lift (attr ds "num_frequency_bands" ≫= to_int) in
  let* _ := update (set_n_components v) in
  let* v := lift (attr ds "non_integer_n_slide" ≫= to_bool) in
  let* _ := update (set_non_integer_n_slide v) in
  let* v := lift (attr ds "step_size" ≫= to_int) in
  let* _ := update (set_step_size v) in
  let* v := lift (attr ds "window_length" ≫= to_int) in
  let* _ := update (set_window_length v) in
  let* v := lift (attr ds "global_svd" ≫= to_bool_strict) in
  let* _ := update (set_global_svd v) in
  let* v := lift (attr ds "relative_filter_length" ≫= to_real) in
  let* _ := update (set_relative_filter_length v) in
  let* v := lift (attr ds "kern_method" ≫= to_str_strict) in
  let* _ := update (set_kern_method v) in
  let* v := lift (attr ds "svd_rank_pre_allocate" ≫= to_int) in
  let* _ := update (set_svd_rank_pre_allocate v) in
  let* _ := update (set_pydmd_kwargs []) in
  for_each (from_xarray_attr ds) tt (map fst (ds_attrs ds)).


(** ** Periods *)

(** [a[mask]] for an array of rank 2 and a boolean mask of the same shape:
    the selected entries, row by row. *)
Definition boolean_mask {A} (a : array2 A) (mask : array2 bool) : result (array1 A) :=
  if decide (map length a = map length mask) then
    Ok (concat (zip_with
                  (fun row mrow => map fst (filter (fun p => snd p = true) (zip row mrow)))
                  a mask))
  else Raise (IndexError "boolean index did not match indexed array").

(** [COSTS.periods] *)
Definition periods (self : COSTS) : result (array1 xfloat) :=
  match _omega_array self with
  | None => Raise (ValueError "The object must be fit first.")
  | Some omega_array =>
      omega_classes ← the ">" (_omega_classes self);
      selected ← boolean_mask omega_array (map (map (fun c => 0 <? c)) omega_classes);
      let frequencies := map (fun w => xf_abs (im w)) selected in
      Ok (map (fun f => xf_div (Fin (2 * PI)) f) frequencies)
  end.

(** * Properties *)

(** ** The eigenvalue seed *)

Lemma build_initialization_user_seed (self : COSTS) (a : array1 xcomplex) :
  _initialize_artificially self = true ->
  _init_alpha self = Some a ->
  _build_initialization self = Ok (Some a).
Proof.
  intros Hart Hseed. unfold _build_initialization.
  rewrite Hart, Hseed. reflexivity.
Qed.

(** The constructor drops the centroids it is given. *)
Lemma init_clears_cluster_centroids svd_rank global_svd art last seed kw centroids
    reset even max_rank n_components kern rfl :
  _cluster_centroids
    (__init__ svd_rank global_svd art last seed kw centroids reset even max_rank
       n_components kern rfl) = None.
Proof. unfold __init__. destruct kern, kw; reflexivity. Qed.

Lemma init_keeps_seed svd_rank global_svd art last seed kw centroids
    reset even max_rank n_components kern rfl :
  let self := __init__ svd_rank global_svd art last seed kw centroids reset even
                max_rank n_components kern rfl in
  _init_alpha self = seed /\ _initialize_artificially self = art.
Proof. unfold __init__. destruct kern, kw; split; reflexivity. Qed.

(** C1 (as the code behaves).  With [initialize_artificially] set and both
    a user seed [init_alpha] and cluster centroids present on the object,
    [_build_initialization] does not fail: it returns the user seed, the
    centroids being ignored.  The [ValueError] that the claim expects is
    placed after a branch that already returns for every such object. *)
Theorem C1_both_seeds_return_user_seed (self : COSTS)
    (a : array1 xcomplex) (c : array1 xfloat) :
  _initialize_artificially self = true ->
  _init_alpha self = Some a ->
  _cluster_centroids self = Some c ->
  _build_initialization self = Ok (Some a)
  /\ _build_initialization self
     <> Raise (ValueError "Only one of `init_alpha` and `cluster_centroids` can be provided").
Proof.
  intros Hart Hseed _.
  rewrite (build_initialization_user_seed self a Hart Hseed).
  split; [reflexivity | discriminate].
Qed.

(** The object of the failing input: built with both seeds, the centroids
    then being those of an earlier [cluster_omega]. *)
Definition both_seeds : COSTS :=
  set_cluster_centroids (Some [Fin 1%R])
    (__init__ (Some 2) false true false (Some [Cx fzero (Fin 1%R); Cx fzero (Fin (-1)%R)])
       None (Some [Fin 1%R]) false true None (Some 1) None 2%R).

Lemma C1_both_seeds_witness :
  _build_initialization both_seeds
  = Ok (Some [Cx fzero (Fin 1%R); Cx fzero (Fin (-1)%R)])
  /\ _build_initialization both_seeds
     <> Raise (ValueError "Only one of `init_alpha` and `cluster_centroids` can be provided").
Proof.
  apply (C1_both_seeds_return_user_seed both_seeds _ [Fin 1%R]); reflexivity.
Defined.

(** ** Window planning *)

Lemma Qtrunc_inject_Z_eq (q : Q) (z : Z) : (q == inject_Z z)%Q -> Qtrunc q = z.
Proof.
  intros H. unfold Qtrunc. destruct (0 <=? Qnum q).
  - rewrite (Qfloor_comp _ _ H). apply Qfloor_Z.
  - rewrite (Qceiling_comp _ _ H). apply Qceiling_Z.
Qed.

Lemma inject_Z_nonzero (z : Z) : z <> 0 -> ~ (inject_Z z == 0)%Q.
Proof. intros Hz H. apply Hz. unfold Qeq, inject_Z in H. simpl in H. lia. Qed.

Lemma int_of_product_range below (T L : Z) : T - 1 <= int_of_product below T L <= T.
Proof. unfold int_of_product. destruct (below T L); lia. Qed.

Lemma build_windows_eq below (T L S : Z) :
  L <> 0 -> S <> 0 ->
  _build_windows below T L S false = Ok ((int_of_product below T L - L) `div` S + 1).
Proof.
  intros HL HS. unfold _build_windows.
  destruct (Z.eqb_spec L 0) as [|_]; [contradiction|].
  destruct (Z.eqb_spec S 0) as [|_]; [contradiction|].
  by rewrite <- Zdiv_Qdiv.
Qed.

(** The slide count in the words of the specification. *)
Definition spec_n_slides (T L S : Z) : Z :=
  let n_split : Q := (inject_Z T / inject_Z L)%Q in
  let n_steps : Q := (inject_Z L * n_split)%Q in
  Qfloor ((n_steps - inject_Z L) / inject_Z S) + 1.

Definition spec_extra_slide (T L S : Z) : bool :=
  0 <? T - (S * (spec_n_slides T L S - 1) + L).

Lemma spec_n_slides_eq (T L S : Z) :
  L <> 0 -> spec_n_slides T L S = (T - L) `div` S + 1.
Proof.
  intros HL. unfold spec_n_slides. f_equal.
  rewrite Zdiv_Qdiv. apply Qfloor_comp.
  rewrite Qmult_div_r by (by apply inject_Z_nonzero).
  unfold Zminus. rewrite inject_Z_plus, inject_Z_opp. reflexivity.
Qed.

Lemma fit_plan_windows_ok below (T nv L S : Z) (self : COSTS) :
  L <> 0 -> S <> 0 -> L <= T ->
  let n := (int_of_product below T L - L) `div` S + 1 in
  let extra := 0 <? T - (S * (n - 1) + L) in
  fit_plan_windows below T nv T L S self
  = (Ok tt,
     set_non_integer_n_slide (Some extra)
       (set_n_slides (Some (if extra then n + 1 else n))
          (set_n_data_vars (Some nv)
             (set_n_time_steps (Some T)
                (set_step_size (Some S) (set_window_length (Some L) self)))))).
Proof.
  intros HL HS HLT n extra.
  unfold fit_plan_windows, method_bind, update, lift, raise.
  rewrite Z.eqb_refl. simpl negb. cbv iota.
  rewrite build_windows_eq by assumption.
  destruct (Z.ltb_spec T L) as [|_]; [lia|].
  fold n. fold extra. destruct extra; reflexivity.
Qed.

Lemma div_bounds (a S : Z) : 0 < S -> S * (a `div` S) <= a < S * (a `div` S) + S.
Proof.
  intros HS. pose proof (Z.div_mod a S ltac:(lia)).
  pose proof (Z.mod_pos_bound a S HS). lia.
Qed.

(** C2 (as the code behaves).  With [T] time steps, a window length
    [0 < L <= T] and a step [0 < S], [_build_windows] returns
    [floor ((n_steps - L) / S) + 1] where [n_steps] is
    [int (L * (T / L))] computed in float64, which is [T], or [T - 1] when
    the product is rounded below [T]; [fit] stores that count plus one extra
    slide, and sets [non_integer_n_slide], exactly when
    [T - (S * (n_slides - 1) + L) > 0].  When the product is not rounded
    below [T] these are the count and the flag of the specification.  When
    it is and the windows tile the series exactly, the count of
    [_build_windows] is one less than specified and the flag is set where
    the specification has it off.  On the machine's floats [T = 200],
    [L = 40], [S = 10] give 17 slides with the flag off, as specified,
    and [T = 61], [L = 7], [S = 1] give a count of 54 and the flag on, where
    the specification has 55 and the flag off. *)
Theorem C2_slide_count below (T nv L S : Z) (self : COSTS) :
  0 < L <= T -> 0 < S ->
  let n := (int_of_product below T L - L) `div` S + 1 in
  let extra := 0 <? T - (S * (n - 1) + L) in
  let self' := snd (fit_plan_windows below T nv T L S self) in
  (_build_windows below T L S false = Ok n
   /\ fst (fit_plan_windows below T nv T L S self) = Ok tt
   /\ _n_slides self' = Some (if extra then n + 1 else n)
   /\ _non_integer_n_slide self' = Some extra)
  /\ (below T L = false ->
      n = spec_n_slides T L S /\ extra = spec_extra_slide T L S)
  /\ (below T L = true -> (T - L) `mod` S = 0 ->
      n = spec_n_slides T L S - 1 /\ extra = true /\ spec_extra_slide T L S = false)
  /\ (let planned := snd (fit_plan_windows binary64_below 200 nv 200 40 10 self) in
      _n_slides planned = Some 17 /\ _non_integer_n_slide planned = Some false)
  /\ (let planned := snd (fit_plan_windows binary64_below 61 nv 61 7 1 self) in
      _build_windows binary64_below 61 7 1 false = Ok 54
      /\ _n_slides planned = Some 55 /\ _non_integer_n_slide planned = Some true
      /\ spec_n_slides 61 7 1 = 55 /\ spec_extra_slide 61 7 1 = false).
Proof.
  intros HL HS n extra self'. split; [|split; [|split; [|split]]].
  - split; [by rewrite build_windows_eq by lia|].
    unfold self'. rewrite fit_plan_windows_ok by lia. simpl. auto.
  - intros Hb. unfold extra, spec_extra_slide, n.
    rewrite spec_n_slides_eq by lia. unfold int_of_product. rewrite Hb. auto.
  - intros Hb Hmod. unfold spec_extra_slide. rewrite spec_n_slides_eq by lia.
    assert (Hn : n = (T - L) `div` S).
    { unfold n, int_of_product. rewrite Hb.
      pose proof (Z.div_mod (T - L) S ltac:(lia)) as Hdm. rewrite Hmod in Hdm.
      pose proof (div_bounds (T - 1 - L) S HS) as Hq.
      assert ((T - 1 - L) `div` S = (T - L) `div` S - 1); [|lia].
      set (q := (T - L) `div` S) in *. set (q' := (T - 1 - L) `div` S) in *.
      nia. }
    pose proof (Z.div_mod (T - L) S ltac:(lia)) as Hdm. rewrite Hmod in Hdm.
    split; [lia|]. split.
    + unfold extra. rewrite Hn. apply Z.ltb_lt. lia.
    + apply Z.ltb_ge. lia.
  - rewrite fit_plan_windows_ok by lia. simpl. auto.
  - rewrite fit_plan_windows_ok by lia. vm_compute. auto 10.
Qed.

Lemma C2_slide_count_witness :
  (0 < 7 <= 61 /\ 0 < 1)
  /\ binary64_below 61 7 = true /\ (61 - 7) `mod` 1 = 0
  /\ _build_windows binary64_below 61 7 1 false = Ok (spec_n_slides 61 7 1 - 1)
  /\ _non_integer_n_slide
       (snd (fit_plan_windows binary64_below 61 1 61 7 1
               (__init__ None true false false None None None false true None None None
                  2%R))) = Some true
  /\ spec_extra_slide 61 7 1 = false.
Proof.
  assert (Hb : binary64_below 61 7 = true) by (vm_compute; reflexivity).
  destruct (C2_slide_count binary64_below 61 1 7 1
              (__init__ None true false false None None None false true None None None
                 2%R)) as ((Hn & _ & _ & Hflag) & _ & Hdiv & _); [lia|lia|].
  destruct (Hdiv Hb eq_refl) as (Hn' & He & Hs).
  split; [lia|]. split; [exact Hb|]. split; [reflexivity|].
  split; [by rewrite Hn, Hn'|]. split; [by rewrite Hflag, He|exact Hs].
Defined.

(** ** Fields that a method leaves alone *)

Definition preserves {X A} (f : COSTS -> X) (m : method A) : Prop :=
  forall self, f (snd (m self)) = f self.

Lemma preserves_ret {X A} (f : COSTS -> X) (a : A) : preserves f (method_ret a).
Proof. intros self. reflexivity. Qed.

Lemma preserves_raise {X A} (f : COSTS -> X) e : preserves f (raise (A:=A) e).
Proof. intros self. reflexivity. Qed.

Lemma preserves_lift {X A} (f : COSTS -> X) (r : result A) : preserves f (lift r).
Proof. intros self. reflexivity. Qed.

Lemma preserves_call {X A} (f : COSTS -> X) (g : COSTS -> result A) :
  preserves f (call g).
Proof. intros self. reflexivity. Qed.

Lemma preserves_read {X A} (f : COSTS -> X) (g : COSTS -> A) : preserves f (read g).
Proof. intros self. reflexivity. Qed.

Lemma preserves_bind {X A B} (f : COSTS -> X) (m : method A) (k : A -> method B) :
  preserves f m -> (forall a, preserves f (k a)) -> preserves f (method_bind m k).
Proof.
  intros Hm Hk self. unfold method_bind.
  specialize (Hm self). destruct (m self) as [[a|e] self1]; simpl in *.
  - rewrite Hk. exact Hm.
  - exact Hm.
Qed.

Lemma preserves_for_each {X A B} (f : COSTS -> X) (body : A -> B -> method A) l :
  (forall a b, preserves f (body a b)) -> forall a, preserves f (for_each body a l).
Proof.
  intros Hbody. induction l as [|b l IH]; intros a; simpl.
  - apply preserves_ret.
  - apply preserves_bind; auto.
Qed.

Create HintDb preserves discriminated.
#[global] Hint Resolve preserves_ret preserves_raise preserves_lift preserves_call
  preserves_read : preserves.

(** One assignment either sets the field looked at or another one. *)
Ltac preserves_update :=
  match goal with
  | |- preserves _ (update _) => intros ?; reflexivity
  end.

Ltac preserves_step :=
  lazymatch goal with
  | |- preserves _ (method_bind _ _) => apply preserves_bind; [|intros ?]
  | |- preserves _ (for_each _ _ _) => apply preserves_for_each; intros ? ?
  | |- preserves _ (update _) => preserves_update
  | |- preserves _ (if ?b then _ else _) => destruct b
  | |- preserves _ (match ?x with _ => _ end) => destruct x
  | |- preserves _ (let _ := _ in _) => cbv zeta
  | |- preserves _ _ => solve [auto with preserves]
  end.

Ltac preserves_auto := repeat preserves_step.

Lemma fit_rank_policy_keeps_window_length sv data :
  preserves _window_length (fit_rank_policy sv data).
Proof. unfold fit_rank_policy, _build_proj_basis. preserves_auto. Qed.
(** ** Stepping through a method *)

Lemma bind_inv {A B} (m : method A) (k : A -> method B) self b self' :
  method_bind m k self = (Ok b, self') ->
  exists a s1, m self = (Ok a, s1) /\ k a s1 = (Ok b, self').
Proof.
  unfold method_bind. destruct (m self) as [[a|e] s1]; intros H.
  - eauto.
  - discriminate.
Qed.

Lemma preserves_eq {X A} (f : COSTS -> X) (m : method A) self r self' :
  preserves f m -> m self = (r, self') -> f self' = f self.
Proof. intros Hm H. specialize (Hm self). by rewrite H in Hm. Qed.

(** ** The window geometry of a fitted object *)

Definition geometry (self : COSTS)
  : option Z * option Z * option Z * option Z * option Z * option bool :=
  (_window_length self, _step_size self, _n_time_steps self, _n_data_vars self,
   _n_slides self, _non_integer_n_slide self).

Lemma fit_rank_policy_geometry sv data : preserves geometry (fit_rank_policy sv data).
Proof. unfold fit_rank_policy, _build_proj_basis. preserves_auto. Qed.

Lemma fit_preallocate_geometry : preserves geometry fit_preallocate.
Proof. unfold fit_preallocate. preserves_auto. Qed.

Lemma fit_solver_setup_geometry sv cs : preserves geometry (fit_solver_setup sv cs).
Proof. unfold fit_solver_setup. preserves_auto. Qed.

Lemma fit_window_geometry sv data time kern o k :
  preserves geometry (fit_window sv data time kern o k).
Proof.
  unfold fit_window, fit_window_solve, fit_window_assign, fit_window_reseed.
  preserves_auto.
Qed.

Lemma fit_loop_geometry sv data time kern o :
  preserves geometry (fit_loop sv data time kern o).
Proof.
  unfold fit_loop. preserves_auto. apply fit_window_geometry.
Qed.

(** A successful [fit] went through its blocks in turn. *)
Lemma fit_inv sv data time L S cs self self' :
  fit sv data time L S cs self = (Ok tt, self') ->
  exists s1 s2 s3 s4 setup o,
    fit_plan_windows (product_below sv) (shape1 data) (Z.of_nat (length data)) (Z.of_nat (length time))
      L S self = (Ok tt, s1)
    /\ fit_rank_policy sv data s1 = (Ok tt, s2)
    /\ fit_preallocate s2 = (Ok tt, s3)
    /\ fit_solver_setup sv cs s3 = (Ok setup, s4)
    /\ fit_loop sv data time (snd setup) (fst setup) s4 = (Ok o, self').
Proof.
  unfold fit. intros H.
  apply bind_inv in H as ([] & s1 & H1 & H).
  apply bind_inv in H as ([] & s2 & H2 & H).
  apply bind_inv in H as ([] & s3 & H3 & H).
  apply bind_inv in H as (setup & s4 & H4 & H).
  apply bind_inv in H as (o & s5 & H5 & H).
  unfold method_ret in H. injection H as <-.
  exists s1, s2, s3, s4, setup, o. auto.
Qed.

Lemma fit_plan_windows_inv below T nv ts L S self s1 :
  fit_plan_windows below T nv ts L S self = (Ok tt, s1) ->
  T = ts /\ L <> 0 /\ S <> 0 /\ L <= T.
Proof.
  unfold fit_plan_windows, method_bind, update, lift, raise, _build_windows. simpl.
  destruct (Z.eqb_spec T ts); simpl; [|discriminate].
  destruct (Z.eqb_spec L 0); simpl; [discriminate|].
  destruct (Z.eqb_spec S 0); simpl; [discriminate|].
  destruct (Z.ltb_spec T L); simpl; [discriminate|].
  auto.
Qed.

(** The geometry of a fitted object is the one planned for the series. *)
Lemma fit_geometry sv data time L S cs self self' :
  fit sv data time L S cs self = (Ok tt, self') ->
  let T := Z.of_nat (length time) in
  let n := (int_of_product (product_below sv) T L - L) `div` S + 1 in
  let extra := 0 <? T - (S * (n - 1) + L) in
  L <> 0 /\ S <> 0 /\ L <= T /\ shape1 data = T
  /\ geometry self'
     = (Some L, Some S, Some T, Some (Z.of_nat (length data)),
        Some (if extra then n + 1 else n), Some extra).
Proof.
  intros H T n extra.
  apply fit_inv in H as (s1 & s2 & s3 & s4 & setup & o & H1 & H2 & H3 & H4 & H5).
  destruct (fit_plan_windows_inv _ _ _ _ _ _ _ _ H1) as (HT & HL & HS & HLT).
  rewrite HT in H1, HLT. rewrite fit_plan_windows_ok in H1 by assumption.
  injection H1 as <-.
  repeat split; try assumption.
  rewrite (preserves_eq _ _ _ _ _ (fit_loop_geometry _ _ _ _ _) H5).
  rewrite (preserves_eq _ _ _ _ _ (fit_solver_setup_geometry _ _) H4).
  rewrite (preserves_eq _ _ _ _ _ fit_preallocate_geometry H3).
  rewrite (preserves_eq _ _ _ _ _ (fit_rank_policy_geometry _ _) H2).
  reflexivity.
Qed.

(** ** Window indices *)

Lemma apply_slice_tail {A} (L : Z) (series : list A) :
  0 < L <= Z.of_nat (length series) ->
  apply_slice (Slice (Some (- L)) None) series
  = drop (length series - Z.to_nat L) series.
Proof.
  intros HL. unfold apply_slice, slice_bounds, clip_bound. simpl.
  destruct (Z.ltb_spec (- L) 0); [|lia].
  rewrite Z.max_l by lia.
  replace (Z.to_nat (- L + Z.of_nat (length series)))
    with (length series - Z.to_nat L)%nat by lia.
  apply take_ge. rewrite length_drop. lia.
Qed.

Lemma apply_slice_range {A} (a b : Z) (series : list A) :
  0 <= a <= b -> b <= Z.of_nat (length series) ->
  apply_slice (Slice (Some a) (Some b)) series
  = take (Z.to_nat (b - a)) (drop (Z.to_nat a) series).
Proof.
  intros Ha Hb. unfold apply_slice, slice_bounds, clip_bound. simpl.
  destruct (Z.ltb_spec a 0); [lia|]. destruct (Z.ltb_spec b 0); [lia|].
  rewrite !Z.min_l by lia. reflexivity.
Qed.

Lemma step_window_fits (Ts T L S k : Z) :
  0 < S -> Ts <= T -> 0 <= k < (Ts - L) `div` S + 1 -> S * k + L <= T.
Proof.
  intros HS HT Hk.
  assert (S * ((Ts - L) `div` S) <= Ts - L) by (apply Z.mul_div_le; lia).
  nia.
Qed.

(** The slide count of a series that holds at least one window. *)
Lemma slide_count_bounds (Ts T L S : Z) :
  0 < S -> L <= T -> T - 1 <= Ts <= T ->
  let n0 := (Ts - L) `div` S + 1 in
  let extra := 0 <? T - (S * (n0 - 1) + L) in
  0 <= n0 /\ 1 <= (if extra then n0 + 1 else n0)
  /\ (extra = false -> Ts = T /\ S * (n0 - 1) + L = T)
  /\ T - S <= S * (n0 - 1) + L <= T.
Proof.
  intros HS HL HT n0 extra.
  pose proof (div_bounds (Ts - L) S HS) as Hq.
  assert (Hn0 : 0 <= n0).
  { unfold n0. assert (-1 <= (Ts - L) `div` S); [|lia].
    apply Z.div_le_lower_bound; lia. }
  split; [exact Hn0|]. unfold extra, n0 in *.
  set (q := (Ts - L) `div` S) in *.
  replace (q + 1 - 1) with q by lia.
  destruct (Z.ltb_spec 0 (T - (S * q + L))) as [He|He].
  - split; [lia|]. split; [discriminate|]. lia.
  - split; [lia|]. split; [intros _; lia|]. lia.
Qed.

Lemma get_window_indices_eq (self : COSTS) (L S n k : Z) (flag : bool) :
  _window_length self = Some L -> _step_size self = Some S ->
  _n_slides self = Some n -> _non_integer_n_slide self = Some flag ->
  get_window_indices k self
  = Ok (if (k =? n - 1) && flag then Slice (Some (- L)) None
        else Slice (Some (S * k)) (Some (S * k + L))).
Proof.
  intros HL HS Hn Hf. unfold get_window_indices.
  rewrite HL, HS, Hn, Hf. simpl. destruct ((k =? n - 1) && flag); reflexivity.
Qed.

(** C3.  After a successful [fit], for every slide index [k] below
    [n_slides], [get_window_indices k] is the slice from [S * k] to
    [S * k + L], which selects the [L] samples starting at [S * k], unless
    [k] is the last slide and [non_integer_n_slide] is set: then it is the
    slice [-L:], which selects the last [L] samples of the series.  With 95
    samples and [L = S = 10] the tenth slide is the flagged one and covers
    samples 85 to 94. *)
Theorem C3_window_indices sv data time L S cs self self' :
  fit sv data time L S cs self = (Ok tt, self') -> 0 < L -> 0 < S ->
  (exists n flag,
     _n_slides self' = Some n /\ _non_integer_n_slide self' = Some flag
     /\ forall k, 0 <= k < n ->
        if (k =? n - 1) && flag then
          get_window_indices k self' = Ok (Slice (Some (- L)) None)
          /\ forall (series : list xfloat), length series = length time ->
             apply_slice (Slice (Some (- L)) None) series
             = drop (length series - Z.to_nat L) series
        else
          get_window_indices k self' = Ok (Slice (Some (S * k)) (Some (S * k + L)))
          /\ forall (series : list xfloat), length series = length time ->
             apply_slice (Slice (Some (S * k)) (Some (S * k + L))) series
             = take (Z.to_nat L) (drop (Z.to_nat (S * k)) series))
  /\ (let planned := snd (fit_plan_windows (product_below sv) 95
                           (Z.of_nat (length data)) 95 10 10 self) in
      _n_slides planned = Some 10 /\ _non_integer_n_slide planned = Some true
      /\ get_window_indices 9 planned = Ok (Slice (Some (- 10)) None)
      /\ slice_bounds (Slice (Some (- 10)) None) 95 = (85, 95)).
Proof.
  intros Hfit HL HS. split.
  - destruct (fit_geometry _ _ _ _ _ _ _ _ Hfit) as (_ & _ & HLT & _ & Hgeo).
    set (T := Z.of_nat (length time)) in *.
    pose proof (int_of_product_range (product_below sv) T L) as HTs.
    set (Ts := int_of_product (product_below sv) T L) in *.
    set (n0 := (Ts - L) `div` S + 1) in *.
    set (extra := 0 <? T - (S * (n0 - 1) + L)) in *.
    unfold geometry in Hgeo. injection Hgeo as HwL HsS _ _ Hn Hflag.
    exists (if extra then n0 + 1 else n0), extra.
    split; [assumption|]. split; [assumption|]. intros k Hk.
    rewrite (get_window_indices_eq self' L S _ k extra HwL HsS Hn Hflag).
    destruct ((k =? _) && extra) eqn:Hlast.
    + split; [reflexivity|]. intros series Hlen.
      apply apply_slice_tail. lia.
    + split; [reflexivity|]. intros series Hlen.
      replace (Z.to_nat L) with (Z.to_nat (S * k + L - S * k)) by (f_equal; lia).
      assert (S * k + L <= T).
      { apply (step_window_fits Ts); [lia|lia|].
        fold n0. destruct extra; [|lia].
        rewrite andb_true_r in Hlast. apply Z.eqb_neq in Hlast. lia. }
      apply apply_slice_range; nia.
  - rewrite fit_plan_windows_ok by lia. unfold int_of_product.
    destruct (product_below sv 95 10); simpl; auto.
Qed.
(** ** Overlap-add weights *)

Lemma slice_bounds_range (s : slice) (n : Z) :
  0 <= n -> 0 <= fst (slice_bounds s n) <= n /\ 0 <= snd (slice_bounds s n) <= n.
Proof.
  intros Hn. unfold slice_bounds, clip_bound. simpl.
  destruct (start s) as [i|], (stop s) as [j|];
    repeat match goal with |- context [?a <? ?b] => destruct (Z.ltb_spec a b) end;
    lia.
Qed.

Lemma replace_slice_length {A} (s : slice) (l new : list A) :
  length new = length (apply_slice s l) ->
  length (replace_slice s l new) = length l.
Proof.
  unfold replace_slice, apply_slice.
  pose proof (slice_bounds_range s (Z.of_nat (length l)) ltac:(lia)) as Hb.
  destruct (slice_bounds s _) as [a b]. simpl in Hb. intros Hnew.
  rewrite !length_app, Hnew, length_take, length_drop, length_take, length_drop.
  lia.
Qed.

Lemma replace_slice_Forall {A} (P : A -> Prop) (s : slice) (l new : list A) :
  Forall P l -> Forall P new -> Forall P (replace_slice s l new).
Proof.
  intros Hl Hnew. unfold replace_slice. destruct (slice_bounds s _) as [a b].
  repeat apply Forall_app_2; auto using Forall_take, Forall_drop.
Qed.

(** *** Underflow of the exponential *)


Lemma np_exp_nonneg (x : R) : (0 <= np_exp x)%R.
Proof.
  unfold np_exp. destruct (Rle_dec _ _); [lra|]. left. apply exp_pos.
Qed.






Lemma build_kern_nonneg (L : Z) (rfl : R) (d : option string) (w : list R) :
  build_kern L rfl d = Ok w -> length w = Z.to_nat L /\ Forall (fun x => (0 <= x)%R) w.
Proof.
  unfold build_kern. destruct (Req_dec_T rfl 0); [done|].
  set (filter := map _ (arange L)).
  assert (Hlen : length filter = Z.to_nat L).
  { unfold filter, arange. by rewrite length_map, length_seqZ. }
  assert (Hpos : Forall (fun x => (0 <= x)%R) filter).
  { unfold filter. apply Forall_map, Forall_forall. intros i _. apply np_exp_nonneg. }
  destruct d as [d|]; [|by intros [= <-]].
  destruct (String.eqb d "forward"); [|destruct (String.eqb d "backward"); [|done]];
    intros [= <-]; (split;
      [rewrite replace_slice_length; [done|]; by rewrite length_replicate
      |apply replace_slice_Forall; [done|]; apply Forall_replicate; lra]).
Qed.











(** ** A small run *)

(** A solver that returns one mode per window whatever the data, with the
    machine's floats. *)
Definition toy_solver : Solver :=
  {| product_below := binary64_below;
     compute_rank := fun _ _ => Ok 2;
     compute_svd := fun _ _ => Ok [[Fin 1%R]];
     bopdmd_new := fun r a kw => Ok (mkBOPDMD r a VNone [] [] [] kw);
     bopdmd_fit := fun o _ _ =>
       Ok (mkBOPDMD (svd_rank o) (init_alpha o) (proj_basis o)
             [[Cx (Fin 1%R) fzero]] [Cx fzero (Fin 1%R)] [Cx (Fin 2%R) fzero]
             (options o)) |}.

(** A clustering class that puts every point in cluster 0. *)
Definition toy_clustering : ClusterMethod :=
  {| attributes := [("fit_predict", true)];
     new_clusterer := fun _ _ =>
       Ok {| fit_predict := fun points => Ok (map (fun _ => 0) points, [[Fin 1%R]]) |} |}.

Definition toy_object : COSTS :=
  __init__ (Some 2) true false false None None None false true None None None 2%R.

Definition toy_data : array2 xfloat := [[Fin 1%R; Fin 2%R; Fin 3%R; Fin 4%R]].
Definition toy_time : array1 xfloat := [Fin 0%R; Fin 1%R; Fin 2%R; Fin 3%R].

Definition toy_fitted : COSTS := snd (fit toy_solver toy_data toy_time 2 1 None toy_object).

Lemma toy_fit_ok :
  fit toy_solver toy_data toy_time 2 1 None toy_object = (Ok tt, toy_fitted).
Proof. vm_compute. reflexivity. Qed.













(** ** The guard on the clustering class *)

(** C9 (as the code behaves).  For a clustering class with no
    [fit_predict] attribute, [_cluster] and [cluster_omega] stop with an
    [AttributeError] and not with the [ValueError] that the guard spells
    out: the guard's second conjunct reads the missing attribute.  The
    object is returned as it was, so no clustering is performed. *)
Theorem C9_missing_fit_predict (m : ClusterMethod) n kw tm (self : COSTS) :
  hasattr m "fit_predict" = false ->
  _cluster n kw tm m self
  = (Raise (AttributeError "type object has no attribute fit_predict"), self)
  /\ cluster_omega n kw tm m self
     = (Raise (AttributeError "type object has no attribute fit_predict"), self).
Proof.
  intros Hno.
  assert (H : _cluster n kw tm m self
              = (Raise (AttributeError "type object has no attribute fit_predict"), self)).
  { unfold _cluster, method_bind, lift, callable_getattr.
    rewrite Hno. unfold hasattr in Hno.
    destruct (attribute (attributes m) "fit_predict"); [discriminate|]. reflexivity. }
  split; [exact H|].
  unfold cluster_omega, method_bind. rewrite H. reflexivity.
Qed.

(** A clustering class without [fit_predict]. *)
Definition no_fit_predict : ClusterMethod :=
  {| attributes := [("fit", true)];
     new_clusterer := fun _ _ => Ok {| fit_predict := fun _ => Ok ([], []) |} |}.

Lemma C9_missing_fit_predict_witness :
  hasattr no_fit_predict "fit_predict" = false
  /\ cluster_omega 2 None (Some "absolute") no_fit_predict toy_fitted
     = (Raise (AttributeError "type object has no attribute fit_predict"), toy_fitted).
Proof.
  split; [reflexivity|].
  apply (C9_missing_fit_predict no_fit_predict 2 None (Some "absolute") toy_fitted).
  reflexivity.
Defined.

(** The guard of [_cluster] never raises its [ValueError]: with the
    attribute present it is skipped, without it [getattr] raises first. *)
Lemma cluster_guard_outcomes (m : ClusterMethod) :
  (if negb (hasattr m "fit_predict") then
     c ← callable_getattr m "fit_predict";
     if c : bool then
       Raise (ValueError "Clustering method must have `fit_predict()` method.")
     else Ok tt
   else Ok tt)
  = if hasattr m "fit_predict" then Ok tt
    else Raise (AttributeError "type object has no attribute fit_predict").
Proof.
  unfold hasattr, callable_getattr.
  destruct (attribute (attributes m) "fit_predict"); reflexivity.
Qed.

(** ** What clustering leaves alone *)

(** The results of the fit and the window geometry. *)
Definition fit_results (self : COSTS) :=
  (_omega_array self, _modes_array self, _amplitudes_array self, _time_array self,
   _window_means_array self, _n_slides self, _window_length self, _step_size self,
   _svd_rank_pre_allocate self).

(** Every field other than the four that [cluster_omega] assigns and the
    two plotting fields that [transform_omega] assigns. *)
Definition outside_clustering (self : COSTS) :=
  (fit_results self, _svd_rank self, _global_svd self, _initialize_artificially self,
   _use_last_freq self, _init_alpha self, _force_even_eigs self, _max_rank self,
   _reset_alpha_init self, _relative_filter_length self, _n_data_vars self,
   _n_time_steps self, _non_integer_n_slide self, _kern_method self,
   _pydmd_kwargs self).

(** The frame as the claim words it: nothing but the centroids, the
    classes, the transform-method name and [n_components] changes. *)
Definition only_clustering_fields_change (before after : COSTS) : Prop :=
  outside_clustering after = outside_clustering before
  /\ _omega_label after = _omega_label before
  /\ _hist_kwargs after = _hist_kwargs before.

Lemma cluster_keeps_outside n kw tm m : preserves outside_clustering (_cluster n kw tm m).
Proof. unfold _cluster, transform_omega. preserves_auto. Qed.

(** C10 (amended).  [cluster_omega] leaves unchanged every field other
    than the centroids, the classes, the transform-method name,
    [n_components], the omega label and the histogram options; the fit
    results and the window geometry are among the unchanged ones.  The
    hyperparameter sweep leaves the same fields unchanged and, besides them,
    the centroids, the classes, the transform-method name and
    [n_components]. *)
Theorem C10_clustering_frame n kw tm m score range ckw (self : COSTS) :
  outside_clustering (snd (cluster_omega n kw tm m self)) = outside_clustering self
  /\ fit_results (snd (cluster_omega n kw tm m self)) = fit_results self
  /\ outside_clustering (snd (cluster_hyperparameter_sweep score range tm m ckw self))
     = outside_clustering self
  /\ (let swept := snd (cluster_hyperparameter_sweep score range tm m ckw self) in
      fit_results swept = fit_results self
      /\ _cluster_centroids swept = _cluster_centroids self
      /\ _omega_classes swept = _omega_classes self
      /\ _transform_method swept = _transform_method self
      /\ _n_components swept = _n_components self).
Proof.
  assert (H1 : preserves (fun s => (outside_clustering s, fit_results s))
                 (cluster_omega n kw tm m)).
  { unfold cluster_omega, _cluster, transform_omega. preserves_auto. }
  assert (H2 : preserves
            (fun s => (outside_clustering s, fit_results s, _cluster_centroids s,
                       _omega_classes s, _transform_method s, _n_components s))
            (cluster_hyperparameter_sweep score range tm m ckw)).
  { unfold cluster_hyperparameter_sweep, _cluster, transform_omega. preserves_auto. }
  specialize (H1 self). specialize (H2 self). cbv beta in H1, H2.
  split; [exact (f_equal fst H1)|]. split; [exact (f_equal snd H1)|].
  split; [exact (f_equal (fun t => fst (fst (fst (fst (fst t))))) H2)|].
  cbv zeta.
  split; [exact (f_equal (fun t => snd (fst (fst (fst (fst t))))) H2)|].
  split; [exact (f_equal (fun t => snd (fst (fst (fst t)))) H2)|].
  split; [exact (f_equal (fun t => snd (fst (fst t))) H2)|].
  split; [exact (f_equal (fun t => snd (fst t)) H2)|].
  exact (f_equal snd H2).
Qed.

(** A fitted object on which clustering changes the plotting label. *)
Lemma C10_label_overwritten :
  ~ only_clustering_fields_change toy_fitted
      (snd (cluster_omega 1 None (Some "absolute") toy_clustering toy_fitted)).
Proof.
  intros (_ & Hlabel & _). vm_compute in Hlabel. discriminate.
Qed.
(** ** The order on floats *)

Lemma Rsign_Gt (x : R) : (0 < x)%R -> Rsign x = Gt.
Proof.
  intros Hx. unfold Rsign. destruct (total_order_T x 0) as [[H|H]|H]; [lra|lra|done].
Qed.

Lemma Rleb_true (x y : R) : Rleb x y = true <-> (x <= y)%R.
Proof. unfold Rleb. destruct (Rle_dec x y); split; (done || lra). Qed.

Lemma Rleb_false (x y : R) : Rleb x y = false <-> (y < x)%R.
Proof. unfold Rleb. destruct (Rle_dec x y); split; (done || lra). Qed.

Lemma xf_leb_total (a b : xfloat) : xf_leb a b = true \/ xf_leb b a = true.
Proof.
  destruct a as [x| | |], b as [y| | |]; simpl; auto.
  rewrite !Rleb_true. lra.
Qed.

Lemma xf_leb_trans (a b c : xfloat) :
  xf_leb a b = true -> xf_leb b c = true -> xf_leb a c = true.
Proof.
  destruct a as [x| | |], b as [y| | |], c as [z| | |]; simpl; try done.
  rewrite !Rleb_true. lra.
Qed.

Lemma xf_leb_refl (a : xfloat) : xf_leb a a = true.
Proof. destruct (xf_leb_total a a); done. Qed.

(** ** The logarithmic transform *)

Lemma xf_min2_finite (a b : xfloat) :
  isfinite a = true -> isfinite b = true ->
  isfinite (xf_min2 a b) = true
  /\ (xf_min2 a b = a \/ xf_min2 a b = b)
  /\ xf_leb (xf_min2 a b) a = true /\ xf_leb (xf_min2 a b) b = true.
Proof.
  destruct a as [x| | |], b as [y| | |]; try done. intros _ _.
  unfold xf_min2. destruct (xf_leb (Fin x) (Fin y)) eqn:Hxy.
  - repeat split; auto using xf_leb_refl.
  - repeat split; auto using xf_leb_refl.
    simpl in *. apply Rleb_false in Hxy. apply Rleb_true. lra.
Qed.

(** On finite values [np.min] returns a least element. *)
Lemma np_min_finite (l : list xfloat) :
  l <> [] -> Forall (fun x => isfinite x = true) l ->
  exists m, np_min l = Ok m /\ isfinite m = true /\ m ∈ l
            /\ forall y, y ∈ l -> xf_leb m y = true.
Proof.
  destruct l as [|x l]; [done|]. intros _ Hfin. simpl.
  eexists. split; [reflexivity|].
  apply Forall_cons in Hfin as [Hx Hl].
  revert x Hx. induction Hl as [|y l Hy Hl IH]; intros x Hx; simpl.
  - split; [done|]. split; [apply list_elem_of_here|].
    intros z Hz. apply list_elem_of_singleton in Hz as ->. apply xf_leb_refl.
  - destruct (xf_min2_finite x y Hx Hy) as (Hm & Hor & Hmx & Hmy).
    destruct (IH _ Hm) as (Hf & Hin & Hle).
    split; [done|]. split.
    + apply elem_of_cons in Hin as [->|Hin].
      * destruct Hor as [->| ->]; [apply list_elem_of_here|].
        apply list_elem_of_further, list_elem_of_here.
      * by do 2 apply list_elem_of_further.
    + intros z Hz.
      assert (Hm' : xf_leb (foldl xf_min2 (xf_min2 x y) l) (xf_min2 x y) = true)
        by apply Hle, list_elem_of_here.
      apply elem_of_cons in Hz as [->|Hz]; [eauto using xf_leb_trans|].
      apply elem_of_cons in Hz as [->|Hz]; [eauto using xf_leb_trans|].
      by apply Hle, list_elem_of_further.
Qed.

Lemma log10_abs_finite (x : R) :
  x <> 0%R -> isfinite (xf_log10 (xf_abs (Fin x))) = true.
Proof.
  intros Hx. simpl. rewrite Rsign_Gt; [done|]. by apply Rabs_pos_lt.
Qed.

(** The transform before imputation. *)
Definition log10_abs_imag (omega : array1 xcomplex) : array1 xfloat :=
  map (fun w => xf_log10 (xf_abs (im w))) omega.

Definition has_finite_nonzero_imag (omega : array1 xcomplex) : Prop :=
  exists w x, w ∈ omega /\ im w = Fin x /\ x <> 0%R.

Lemma transform_omega_log10 (omega : array1 xcomplex) (self : COSTS) :
  fst (transform_omega omega (Some "log10") self)
  = (m ← np_min (filter (fun x => isfinite x = true) (log10_abs_imag omega));
     Ok (map (fun x => if isfinite x then x else m) (log10_abs_imag omega))).
Proof.
  unfold transform_omega, method_bind, lift, log10_abs_imag.
  change (String.eqb "log10" "absolute") with false.
  change (String.eqb "log10" "square_frequencies") with false.
  change (String.eqb "log10" "log10") with true. cbv iota.
  destruct (np_min _); reflexivity.
Qed.

(** C8 (amended).  For an omega array with at least one entry whose
    imaginary part is finite and nonzero, [transform_omega] with the method
    [log10] returns the base-10 logarithm of the absolute imaginary part in
    which every non-finite value is replaced by [m], the least finite value
    of the transform; every entry of the result is finite. *)
Theorem C8_log10_finite (omega : array1 xcomplex) (self : COSTS) :
  has_finite_nonzero_imag omega ->
  exists out m,
    fst (transform_omega omega (Some "log10") self) = Ok out
    /\ isfinite m = true
    /\ m ∈ log10_abs_imag omega
    /\ (forall y, y ∈ log10_abs_imag omega -> isfinite y = true -> xf_leb m y = true)
    /\ out = map (fun x => if isfinite x then x else m) (log10_abs_imag omega)
    /\ Forall (fun x => isfinite x = true) out.
Proof.
  intros (w & x & Hw & Him & Hx).
  set (raw := log10_abs_imag omega).
  set (fin := filter (fun x => isfinite x = true) raw).
  assert (Hne : fin <> []).
  { assert (Hin : xf_log10 (xf_abs (im w)) ∈ fin).
    { apply list_elem_of_filter. split.
      - rewrite Him. by apply log10_abs_finite.
      - unfold raw, log10_abs_imag. apply list_elem_of_fmap. eauto. }
    intros Hnil. rewrite Hnil in Hin. by apply not_elem_of_nil in Hin. }
  assert (Hfin : Forall (fun x => isfinite x = true) fin).
  { apply Forall_forall. intros y Hy. by apply list_elem_of_filter in Hy as [? _]. }
  destruct (np_min_finite fin Hne Hfin) as (m & Hmin & Hm & Hmin_in & Hleast).
  exists (map (fun x => if isfinite x then x else m) raw), m.
  split; [|split; [exact Hm|split; [|split; [|split; [reflexivity|]]]]].
  - rewrite transform_omega_log10. fold raw. fold fin. rewrite Hmin. reflexivity.
  - by apply list_elem_of_filter in Hmin_in as [_ ?].
  - intros y Hy Hyf. apply Hleast, list_elem_of_filter. auto.
  - apply Forall_map, Forall_forall. intros y _. simpl.
    destruct (isfinite y) eqn:Hy; done.
Qed.

Lemma C8_log10_finite_witness :
  has_finite_nonzero_imag [Cx fzero fzero; Cx fzero (Fin 1%R)]
  /\ exists out m,
       fst (transform_omega [Cx fzero fzero; Cx fzero (Fin 1%R)] (Some "log10") toy_object)
       = Ok out
       /\ isfinite m = true
       /\ Forall (fun x => isfinite x = true) out.
Proof.
  assert (H : has_finite_nonzero_imag [Cx fzero fzero; Cx fzero (Fin 1%R)]).
  { exists (Cx fzero (Fin 1%R)), 1%R. split; [|split; [reflexivity|lra]].
    apply list_elem_of_further, list_elem_of_here. }
  split; [exact H|].
  destruct (C8_log10_finite _ toy_object H) as (out & m & H1 & H2 & _ & _ & _ & H3).
  exists out, m. auto.
Defined.

(** The claim as it is worded: a nonzero imaginary part is enough. *)
Definition log10_total_on_nonzero (omega : array1 xcomplex) : Prop :=
  (exists w, w ∈ omega /\ im w <> fzero) ->
  forall self, exists out,
    fst (transform_omega omega (Some "log10") self) = Ok out
    /\ Forall (fun x => isfinite x = true) out.

(** An eigenvalue with an infinite imaginary part: no transformed value is
    finite, and the minimum of nothing raises. *)
Lemma C8_infinite_imag_raises :
  ~ log10_total_on_nonzero [Cx fzero PInf]
  /\ fst (transform_omega [Cx fzero PInf] (Some "log10") toy_object)
     = Raise (ValueError
         "zero-size array to reduction operation minimum which has no identity").
Proof.
  assert (Hraises :
    fst (transform_omega [Cx fzero PInf] (Some "log10") toy_object)
    = Raise (ValueError
        "zero-size array to reduction operation minimum which has no identity")).
  { vm_compute. reflexivity. }
  split; [|exact Hraises].
  intros H.
  assert (Hnonzero : exists w, w ∈ [Cx fzero PInf] /\ im w <> fzero).
  { exists (Cx fzero PInf). split; [apply list_elem_of_here|].
    simpl. intros Heq. discriminate Heq. }
  destruct (H Hnonzero toy_object) as (out & Hout & _).
  rewrite Hraises in Hout. discriminate Hout.
Qed.
(** ** Sorting the centroids *)

Definition xf_le (a b : xfloat) : Prop := Is_true (xf_leb a b).

#[local] Instance by_value_total : Total by_value.
Proof.
  intros p q. unfold by_value.
  destruct (xf_leb_total (snd p) (snd q)) as [H|H]; rewrite H; simpl; auto.
Qed.

#[local] Instance by_value_trans : Transitive by_value.
Proof.
  intros p q r. unfold by_value. intros H1 H2.
  apply Is_true_true in H1, H2. apply Is_true_true. eauto using xf_leb_trans.
Qed.

#[local] Instance xf_le_trans : Transitive xf_le.
Proof.
  intros a b c H1 H2. apply Is_true_true in H1, H2. apply Is_true_true.
  eauto using xf_leb_trans.
Qed.

Lemma fst_imap_pair {A} (a : list A) : map fst (imap pair a) = seq 0 (length a).
Proof.
  apply list_eq. intros i.
  rewrite list_lookup_fmap, list_lookup_imap.
  destruct (a !! i) as [x|] eqn:Hx; simpl.
  - symmetry. apply lookup_seq. split; [done|]. eauto using lookup_lt_Some.
  - symmetry. apply lookup_ge_None. rewrite length_seq.
    by apply lookup_ge_None in Hx.
Qed.

Lemma snd_imap_pair {A} (a : list A) : map snd (imap pair a) = a.
Proof.
  apply list_eq. intros i.
  rewrite list_lookup_fmap, list_lookup_imap. by destruct (a !! i).
Qed.

Lemma imap_pair_lookup {A} (a : list A) :
  Forall (fun p => a !! fst p = Some (snd p)) (imap pair a).
Proof.
  apply Forall_forall. intros [i x] Hin.
  apply list_elem_of_lookup in Hin as [j Hj].
  rewrite list_lookup_imap in Hj.
  destruct (a !! j) eqn:Ha; simpl in Hj; [|done].
  injection Hj as <- <-. exact Ha.
Qed.

Lemma omap_lookup_fst {A} (a : list A) (l : list (nat * A)) :
  Forall (fun p => a !! fst p = Some (snd p)) l ->
  omap (fun i => a !! i) (map fst l) = map snd l.
Proof.
  induction 1 as [|p l Hp _ IH]; [done|]. simpl. rewrite Hp. simpl. by f_equal.
Qed.

(** [argsort] is a permutation of the indices. *)
Lemma argsort_Permutation (a : array1 xfloat) : argsort a ≡ₚ seq 0 (length a).
Proof.
  unfold argsort. rewrite merge_sort_Permutation. by rewrite fst_imap_pair.
Qed.

(** The centroids taken in the order of [argsort] are sorted, and are the
    same centroids. *)
Lemma argsort_sorted (a : array1 xfloat) :
  let sorted := omap (fun i => a !! i) (argsort a) in
  StronglySorted xf_le sorted /\ sorted ≡ₚ a.
Proof.
  unfold argsort.
  set (pairs := merge_sort by_value (imap pair a)).
  assert (Hperm : pairs ≡ₚ imap pair a) by apply merge_sort_Permutation.
  rewrite omap_lookup_fst.
  - split.
    + apply StronglySorted_fmap with (R1 := by_value).
      * intros p q H. exact H.
      * apply StronglySorted_merge_sort; apply _.
    + change (map snd pairs) with (snd <$> pairs). rewrite Hperm.
      apply reflexive_eq, snd_imap_pair.
  - rewrite Hperm. apply imap_pair_lookup.
Qed.

(** ** The lookup table *)

Lemma scatter_length {A} (lut : list A) idx values :
  length (scatter lut idx values) = length lut.
Proof.
  unfold scatter. revert lut values.
  induction idx as [|i idx IH]; intros lut [|v values]; simpl; try done.
  rewrite IH. apply length_insert.
Qed.

Lemma scatter_lookup_notin {A} (lut : list A) idx values (i : nat) :
  i ∉ idx -> scatter lut idx values !! i = lut !! i.
Proof.
  unfold scatter. revert lut values.
  induction idx as [|i0 idx IH]; intros lut [|v values] Hnotin; simpl; try done.
  apply not_elem_of_cons in Hnotin as [Hne Hnotin].
  rewrite IH by done. by apply list_lookup_insert_ne.
Qed.

Lemma scatter_lookup {A} (lut : list A) idx values (j i : nat) (v : A) :
  NoDup idx -> (forall i, i ∈ idx -> (i < length lut)%nat) ->
  idx !! j = Some i -> values !! j = Some v ->
  scatter lut idx values !! i = Some v.
Proof.
  unfold scatter. revert lut values j.
  induction idx as [|i0 idx IH]; intros lut values j Hnd Hlt Hi Hv; [done|].
  destruct values as [|v0 values]; [done|]. simpl.
  apply NoDup_cons in Hnd as [Hnotin Hnd].
  destruct j as [|j]; simpl in Hi, Hv.
  - injection Hi as ->. injection Hv as ->.
    fold (scatter (<[i:=v]> lut) idx values).
    rewrite scatter_lookup_notin by done.
    apply list_lookup_insert_eq, Hlt, list_elem_of_here.
  - apply (IH _ _ j); try done.
    intros i' Hi'. rewrite length_insert. by apply Hlt, list_elem_of_further.
Qed.

(** [lut] maps the raw ids [0 .. n - 1] one-to-one onto the band ids
    [0 .. n - 1]. *)
Definition bijection_on (n : nat) (lut : list Z) : Prop :=
  length lut = n
  /\ (forall r, (r < n)%nat -> exists c, (c < n)%nat /\ lut !! r = Some (Z.of_nat c))
  /\ (forall c, (c < n)%nat -> exists r, (r < n)%nat /\ lut !! r = Some (Z.of_nat c))
  /\ (forall r r' c, lut !! r = Some c -> lut !! r' = Some c -> r = r').

Lemma build_lut_spec (centroids : array1 xfloat) (n : Z) :
  Z.of_nat (length centroids) = n ->
  exists lut,
    build_lut centroids n = Ok lut
    /\ length lut = length centroids
    /\ forall r c, (r < length centroids)%nat ->
         (lut !! r = Some (Z.of_nat c) <-> argsort centroids !! c = Some r).
Proof.
  intros Hn. unfold build_lut.
  pose proof (argsort_Permutation centroids) as Hperm.
  set (idx := argsort centroids) in *.
  assert (Hlen : length idx = length centroids).
  { rewrite Hperm. apply length_seq. }
  assert (Hnd : NoDup idx) by (rewrite Hperm; apply NoDup_seq).
  assert (Hin : forall i, i ∈ idx <-> (i < length centroids)%nat).
  { intros i. rewrite Hperm, elem_of_seq. lia. }
  unfold broadcast_to, arange.
  rewrite length_seqZ, Hlen, <- Hn, Nat2Z.id, Nat.eqb_refl. simpl.
  eexists. split; [reflexivity|]. split.
  { by rewrite scatter_length, length_replicate. }
  assert (Hfwd : forall c r, idx !! c = Some r ->
            scatter (replicate (length centroids) 0) idx (seqZ 0 (Z.of_nat (length centroids)))
              !! r = Some (Z.of_nat c)).
  { intros c r Hc. apply (scatter_lookup _ _ _ c); try done.
    - intros i Hi. rewrite length_replicate. by apply Hin.
    - assert (c < length idx)%nat by eauto using lookup_lt_Some.
      rewrite lookup_seqZ. split; lia. }
  intros r c Hr. split; [|apply Hfwd].
  intros Hlut.
  assert (Hr' : r ∈ idx) by by apply Hin.
  apply list_elem_of_lookup in Hr' as [c' Hc'].
  pose proof (Hfwd _ _ Hc') as Hlut'. rewrite Hlut in Hlut'.
  injection Hlut' as Heq. apply Nat2Z.inj in Heq. by subst.
Qed.

Lemma build_lut_bijection (centroids : array1 xfloat) (n : Z) lut :
  Z.of_nat (length centroids) = n -> build_lut centroids n = Ok lut ->
  bijection_on (length centroids) lut.
Proof.
  intros Hn Hlut.
  destruct (build_lut_spec centroids n Hn) as (lut' & Hlut' & Hlen & Hinv).
  rewrite Hlut in Hlut'. injection Hlut' as <-.
  pose proof (argsort_Permutation centroids) as Hperm.
  assert (Hilen : length (argsort centroids) = length centroids).
  { rewrite Hperm. apply length_seq. }
  assert (Hin : forall i, i ∈ argsort centroids <-> (i < length centroids)%nat).
  { intros i. rewrite Hperm, elem_of_seq. lia. }
  split; [exact Hlen|]. split; [|split].
  - intros r Hr. assert (Hr' : r ∈ argsort centroids) by by apply Hin.
    apply list_elem_of_lookup in Hr' as [c Hc]. exists c. split.
    + rewrite <- Hilen. eauto using lookup_lt_Some.
    + by apply Hinv.
  - intros c Hc. destruct (lookup_lt_is_Some_2 (argsort centroids) c) as [r Hr]; [lia|].
    assert (r < length centroids)%nat by (apply Hin; eauto using list_elem_of_lookup_2).
    exists r. split; [done|]. by apply Hinv.
  - intros r r' c Hr Hr'.
    assert (Hrl : (r < length centroids)%nat) by (rewrite <- Hlen; eauto using lookup_lt_Some).
    assert (Hrl' : (r' < length centroids)%nat) by (rewrite <- Hlen; eauto using lookup_lt_Some).
    destruct (Hin r) as [_ Hx]. specialize (Hx Hrl).
    apply list_elem_of_lookup in Hx as [j Hj].
    pose proof (proj2 (Hinv r j Hrl) Hj) as Hrj. rewrite Hr in Hrj. injection Hrj as ->.
    apply (Hinv r' j Hrl') in Hr'. rewrite Hj in Hr'. by injection Hr'.
Qed.

Lemma lift_inv {A} (r : result A) self a self' :
  lift r self = (Ok a, self') -> r = Ok a /\ self' = self.
Proof. unfold lift. intros H. by injection H as -> ->. Qed.

Lemma call_inv {A} (g : COSTS -> result A) self a self' :
  call g self = (Ok a, self') -> g self = Ok a /\ self' = self.
Proof. unfold call. intros H. by injection H as -> ->. Qed.

Lemma mapR_Forall2 {A B} (f : A -> result B) (l : list A) (l' : list B) :
  mapR f l = Ok l' -> Forall2 (fun a b => f a = Ok b) l l'.
Proof.
  revert l'. induction l as [|a l IH]; intros l' H; simpl in H.
  - injection H as <-. constructor.
  - destruct (f a) as [b|] eqn:Hb; [|done]. simpl in H.
    destruct (mapR f l) as [bs|] eqn:Hbs; [|done]. simpl in H.
    injection H as <-. constructor; auto.
Qed.

(** What a successful [_cluster] did. *)
Lemma cluster_inv n kw tm m self centroids classes self' :
  _cluster n kw tm m self = (Ok (centroids, classes), self') ->
  exists kw' clusterer points raw_labels centers n_slides capacity raw_classes lut,
    new_clusterer m n kw' = Ok clusterer
    /\ fit_predict clusterer points = Ok (raw_labels, centers)
    /\ reshape2 raw_labels n_slides capacity = Ok raw_classes
    /\ build_lut (concat centers) n = Ok lut
    /\ mapR (mapR (index_wrap lut)) raw_classes = Ok classes
    /\ centroids = omap (fun i => concat centers !! i) (argsort (concat centers)).
Proof.
  unfold _cluster. intros H.
  apply bind_inv in H as ([] & s1 & H1 & H). apply lift_inv in H1 as [_ ->].
  apply bind_inv in H as (clusterer & s2 & H2 & H). apply lift_inv in H2 as [H2 ->].
  apply bind_inv in H as (omega_rshp & s3 & H3 & H). apply call_inv in H3 as [_ ->].
  apply bind_inv in H as (omega_transform & s4 & H4 & H).
  apply bind_inv in H as ([raw_labels centers] & s5 & H5 & H).
  apply lift_inv in H5 as [H5 ->].
  apply bind_inv in H as (raw_classes & s6 & H6 & H). apply call_inv in H6 as [H6 ->].
  apply bind_inv in H as (lut & s7 & H7 & H). apply lift_inv in H7 as [H7 ->].
  apply bind_inv in H as (classes' & s8 & H8 & H). apply lift_inv in H8 as [H8 ->].
  unfold method_ret in H. injection H as <- <- <-.
  destruct (_n_slides s4) as [n_slides|]; [|done].
  destruct (_svd_rank_pre_allocate s4) as [capacity|]; [|done]. simpl in H6.
  eexists _, clusterer, _, raw_labels, centers, n_slides, capacity, raw_classes, lut.
  simpl in *. eauto 10.
Qed.


Definition toy_clustered : COSTS :=
  snd (cluster_omega 1 None (Some "absolute") toy_clustering toy_fitted).

Lemma toy_cluster_ok :
  cluster_omega 1 None (Some "absolute") toy_clustering toy_fitted = (Ok tt, toy_clustered).
Proof. vm_compute. reflexivity. Qed.

Lemma toy_clustering_one_centroid kw' clusterer points labels centers :
  new_clusterer toy_clustering 1 kw' = Ok clusterer ->
  fit_predict clusterer points = Ok (labels, centers) ->
  Z.of_nat (length (concat centers)) = 1.
Proof.
  intros Hnew Hfit. simpl in Hnew. injection Hnew as <-.
  simpl in Hfit. injection Hfit as _ <-. reflexivity.
Qed.

(** A clustering class that deals the points round to the [n] clusters
    and reports the first [n] of four centres, which are not in order. *)
Definition band_centers : array2 xfloat :=
  [[Fin 3%R]; [Fin 1%R]; [Fin 2%R]; [Fin 4%R]].

Definition band_clustering : ClusterMethod :=
  {| attributes := [("fit_predict", true)];
     new_clusterer := fun n _ =>
       Ok {| fit_predict := fun points =>
               Ok (imap (fun i _ => Z.of_nat i `mod` n) points,
                   take (Z.to_nat n) band_centers) |} |}.

(** The comparisons that sorting the four centres can make. *)
Lemma band_order :
  (Rleb 1 2 = true /\ Rleb 1 3 = true /\ Rleb 1 4 = true
   /\ Rleb 2 3 = true /\ Rleb 2 4 = true /\ Rleb 3 4 = true)
  /\ (Rleb 2 1 = false /\ Rleb 3 1 = false /\ Rleb 4 1 = false
      /\ Rleb 3 2 = false /\ Rleb 4 2 = false /\ Rleb 4 3 = false).
Proof.
  split; repeat split; first [apply Rleb_true; lra | apply Rleb_false; lra].
Qed.

(** Evaluation up to the comparisons of real numbers, which [band_order]
    settles. *)
Ltac band_compute :=
  let H := fresh in
  destruct band_order
    as ((?H & ?H & ?H & ?H & ?H & ?H) & (?H & ?H & ?H & ?H & ?H & ?H));
  repeat (cbv -[Rleb IZR];
          repeat match goal with
                 | E : Rleb _ _ = _ |- _ => rewrite E
                 end).

Definition band_clustered : COSTS :=
  snd (cluster_omega 3 None (Some "absolute") band_clustering toy_fitted).

Lemma band_cluster_run :
  fst (cluster_omega 3 None (Some "absolute") band_clustering toy_fitted) = Ok tt
  /\ _cluster_centroids band_clustered = Some [Fin 1%R; Fin 2%R; Fin 3%R]
  /\ _omega_classes band_clustered = Some [[2; 0]; [1; 2]; [0; 1]].
Proof. unfold band_clustered. band_compute. auto. Qed.

Lemma band_cluster_ok :
  cluster_omega 3 None (Some "absolute") band_clustering toy_fitted = (Ok tt, band_clustered).
Proof.
  destruct band_cluster_run as [H _]. unfold band_clustered.
  destruct (cluster_omega 3 None (Some "absolute") band_clustering toy_fitted) as [r s].
  simpl in H. by subst r.
Qed.

Lemma band_clustering_count (n : Z) kw' clusterer points labels centers :
  0 <= n <= 4 ->
  new_clusterer band_clustering n kw' = Ok clusterer ->
  fit_predict clusterer points = Ok (labels, centers) ->
  Z.of_nat (length (concat centers)) = n.
Proof.
  intros Hn Hnew Hfit. simpl in Hnew. injection Hnew as <-.
  simpl in Hfit. injection Hfit as _ <-.
  assert (Hcases : n = 0 \/ n = 1 \/ n = 2 \/ n = 3 \/ n = 4) by lia.
  destruct Hcases as [->|[->|[->|[->| ->]]]]; reflexivity.
Qed.

(** ** Zero padding beyond the fitted rank *)

Lemma update_inv (f : COSTS -> COSTS) self (a : unit) self' :
  update f self = (Ok a, self') -> self' = f self.
Proof. unfold update. intros H. by injection H as _ <-. Qed.

Lemma read_inv {A} (g : COSTS -> A) self a self' :
  read g self = (Ok a, self') -> a = g self /\ self' = self.
Proof. unfold read. intros H. by injection H as <- <-. Qed.

Lemma the_inv {A} what (o : option A) a : the what o = Ok a -> o = Some a.
Proof. destruct o; simpl; [|done]. by intros [= ->]. Qed.

Lemma row_at_inv {A} (l : list A) k r : row_at l k = Ok r -> l !! Z.to_nat k = Some r.
Proof. unfold row_at. destruct (l !! Z.to_nat k); [|done]. by intros [= ->]. Qed.

(** Take a successful chain of binds apart, one call at a time. *)
Ltac method_inv H :=
  repeat (let a := fresh "a" in
          let s := fresh "s" in
          let Hm := fresh "Hm" in
          apply bind_inv in H as (a & s & Hm & H);
          first [ apply lift_inv in Hm as [Hm ->]
                | apply call_inv in Hm as [Hm ->]
                | apply update_inv in Hm as ->
                | apply read_inv in Hm as [-> ->]
                | idtac ]).

(** [row[:width] = src] leaves the cells from [width] on as they were. *)
Lemma assign_prefix_tail {A} (row : list A) (width : Z) (src row' : list A) :
  assign_prefix row width src = Ok row' -> 0 <= width ->
  length row' = length row
  /\ forall j, width <= Z.of_nat j -> row' !! j = row !! j.
Proof.
  unfold assign_prefix. intros H Hw.
  destruct (broadcast_to _ src) as [new|] eqn:Hnew; [|done]. simpl in H.
  injection H as <-.
  assert (Hlen : length new = length (apply_slice (Slice None (Some width)) row)).
  { unfold broadcast_to in Hnew.
    destruct (Nat.eqb_spec (length src) (length (apply_slice (Slice None (Some width)) row))).
    - by injection Hnew as <-.
    - destruct src as [|x [|]]; try done. injection Hnew as <-.
      by rewrite length_replicate. }
  split; [by apply replace_slice_length|].
  intros j Hj. unfold replace_slice, apply_slice in *.
  unfold slice_bounds, clip_bound in *. simpl in *.
  destruct (Z.ltb_spec width 0); [lia|].
  rewrite Z.sub_0_r in *. rewrite length_take, length_drop in Hlen. simpl in Hlen.
  rewrite lookup_app_r by (rewrite Hlen; lia).
  rewrite lookup_drop. f_equal. lia.
Qed.

Lemma assign_block_tail {A} (block : list (list A)) (width : Z)
    (src block' : list (list A)) :
  assign_block block width src = Ok block' -> 0 <= width ->
  length block' = length block
  /\ forall i j, width <= Z.of_nat j ->
       (block' !! i ≫= fun row => row !! j) = (block !! i ≫= fun row => row !! j).
Proof.
  unfold assign_block. intros H Hw.
  destruct (broadcast_to _ src) as [rows|] eqn:Hrows; [|done]. simpl in H.
  assert (Hlen : length rows = length block).
  { unfold broadcast_to in Hrows.
    destruct (Nat.eqb_spec (length src) (length block)).
    - by injection Hrows as <-.
    - destruct src as [|x [|]]; try done. injection Hrows as <-.
      by rewrite length_replicate. }
  apply mapR_Forall2 in H.
  assert (Hl : length (zip block rows) = length block').
  { by eapply Forall2_length. }
  rewrite length_zip_with, Hlen, Nat.min_id in Hl.
  split; [done|]. intros i j Hj.
  destruct (block !! i) as [row|] eqn:Hrow.
  - destruct (lookup_lt_is_Some_2 rows i) as [srow Hsrow].
    { rewrite Hlen. eauto using lookup_lt_Some. }
    destruct (lookup_lt_is_Some_2 block' i) as [row' Hrow'].
    { rewrite <- Hl. eauto using lookup_lt_Some. }
    rewrite Hrow'. simpl.
    assert (Hz : zip block rows !! i = Some (row, srow)).
    { apply lookup_zip_with_Some. eauto. }
    pose proof (Forall2_lookup_lr _ _ _ _ _ _ H Hz Hrow') as Hassign. simpl in Hassign.
    by apply assign_prefix_tail in Hassign as [_ ->].
  - apply lookup_ge_None in Hrow. rewrite Hl in Hrow.
    apply lookup_ge_None in Hrow. by rewrite Hrow.
Qed.

(** The rows of window [k] in the three result arrays. *)
Definition window_rows (self : COSTS) (k : nat)
  : option (list xcomplex) * option (list xcomplex) * option (list (list xcomplex)) :=
  (_omega_array self ≫= (fun a => a !! k),
   _amplitudes_array self ≫= (fun a => a !! k),
   _modes_array self ≫= (fun a => a !! k)).

Definition omega_slot (self : COSTS) (k j : nat) : option xcomplex :=
  _omega_array self ≫= fun a => a !! k ≫= fun row => row !! j.
Definition amplitudes_slot (self : COSTS) (k j : nat) : option xcomplex :=
  _amplitudes_array self ≫= fun a => a !! k ≫= fun row => row !! j.
Definition modes_slot (self : COSTS) (k i j : nat) : option xcomplex :=
  _modes_array self ≫= fun a => a !! k ≫= fun block => block !! i ≫= fun row => row !! j.

Lemma fit_window_assign_inv k o c otw (self self' : COSTS) :
  fit_window_assign k o c otw self = (Ok tt, self') ->
  exists (M : list (list (list xcomplex))) (Om Am : list (list xcomplex))
         block row arow block' row' arow',
    _modes_array self = Some M /\ _omega_array self = Some Om
    /\ _amplitudes_array self = Some Am
    /\ M !! Z.to_nat k = Some block /\ Om !! Z.to_nat k = Some row
    /\ Am !! Z.to_nat k = Some arow
    /\ assign_block block (shape1 (modes o)) (modes o) = Ok block'
    /\ assign_prefix row (Z.of_nat (length (eigs o))) (eigs o) = Ok row'
    /\ assign_prefix arow (Z.of_nat (length (eigs o))) (amplitudes o) = Ok arow'
    /\ _modes_array self' = Some (<[Z.to_nat k := block']> M)
    /\ _omega_array self' = Some (<[Z.to_nat k := row']> Om)
    /\ _amplitudes_array self' = Some (<[Z.to_nat k := arow']> Am).
Proof.
  unfold fit_window_assign. intros H. method_inv H.
  apply update_inv in H as ->. simpl in *.
  apply the_inv in Hm, Hm3, Hm7.
  apply row_at_inv in Hm0, Hm4, Hm8.
  exists a, a3, a7, a0, a4, a8, a1, a5, a9. simpl. auto 20.
Qed.

Lemma fit_window_solve_pure sv data time kern o k :
  preserves (fun self => self) (fit_window_solve sv data time kern o k).
Proof. unfold fit_window_solve. preserves_auto. Qed.

Lemma fit_window_reseed_inv o (self : COSTS) o' self' :
  fit_window_reseed o self = (Ok o', self') ->
  self' = self /\ eigs o' = eigs o /\ modes o' = modes o /\ amplitudes o' = amplitudes o.
Proof.
  unfold fit_window_reseed, method_bind, read, method_ret. cbv beta iota.
  destruct (_global_svd self); cbn; [intros H; inversion H; subst; auto|].
  destruct (_use_last_freq self); cbn; [intros H; inversion H; subst; auto|].
  destruct (_reset_alpha_init self); cbn; intros H; inversion H; subst; auto.
Qed.

(** An iteration of the loop: the solver ran, and its result was written
    to row [k]. *)
Lemma fit_window_inv sv data time kern o k (self : COSTS) o' self' :
  fit_window sv data time kern o k self = (Ok o', self') ->
  exists fitted c otw,
    fit_window_assign k fitted c otw self = (Ok tt, self')
    /\ eigs o' = eigs fitted /\ modes o' = modes fitted
    /\ amplitudes o' = amplitudes fitted.
Proof.
  unfold fit_window. intros H.
  apply bind_inv in H as ([[fitted c] otw] & s1 & Hsolve & H).
  pose proof (preserves_eq _ _ _ _ _ (fit_window_solve_pure _ _ _ _ _ _) Hsolve) as Hs.
  simpl in Hs. subst s1.
  apply bind_inv in H as ([] & s2 & Hassign & H).
  apply fit_window_reseed_inv in H as (-> & He & Hmo & Ha).
  exists fitted, c, otw. auto.
Qed.

(** The rows of the other windows are not touched. *)
Lemma fit_window_other_rows sv data time kern o k (self : COSTS) o' self' (k' : nat) :
  fit_window sv data time kern o k self = (Ok o', self') ->
  k' <> Z.to_nat k -> window_rows self' k' = window_rows self k'.
Proof.
  intros H Hne. apply fit_window_inv in H as (fitted & c & otw & H & _).
  apply fit_window_assign_inv in H
    as (M & Om & Am & block & row & arow & block' & row' & arow'
        & HM & HOm & HAm & _ & _ & _ & _ & _ & _ & HM' & HOm' & HAm').
  unfold window_rows. rewrite HM, HOm, HAm, HM', HOm', HAm'. simpl.
  assert (Hne' : Z.to_nat k <> k') by congruence.
  by rewrite !list_lookup_insert_ne by exact Hne'.
Qed.

(** In the row of the window, the cells from the fitted rank on are not
    touched. *)
Lemma fit_window_beyond_rank sv data time kern o k (self : COSTS) o' self' :
  fit_window sv data time kern o k self = (Ok o', self') ->
  (forall j, (length (eigs o') <= j)%nat ->
     omega_slot self' (Z.to_nat k) j = omega_slot self (Z.to_nat k) j
     /\ amplitudes_slot self' (Z.to_nat k) j = amplitudes_slot self (Z.to_nat k) j)
  /\ (forall i j, shape1 (modes o') <= Z.of_nat j ->
        modes_slot self' (Z.to_nat k) i j = modes_slot self (Z.to_nat k) i j).
Proof.
  intros H. apply fit_window_inv in H as (fitted & c & otw & H & -> & -> & _).
  apply fit_window_assign_inv in H
    as (M & Om & Am & block & row & arow & block' & row' & arow'
        & HM & HOm & HAm & Hb & Hr & Ha & Hab & Har & Haa & HM' & HOm' & HAm').
  assert (Hshape : 0 <= shape1 (modes fitted)).
  { unfold shape1. destruct (modes fitted); lia. }
  apply assign_prefix_tail in Har as [Hrl Hrt]; [|lia].
  apply assign_prefix_tail in Haa as [Hal Hat]; [|lia].
  apply assign_block_tail in Hab as [Hbl Hbt]; [|done].
  unfold omega_slot, amplitudes_slot, modes_slot.
  rewrite HM, HOm, HAm, HM', HOm', HAm'. simpl.
  rewrite !list_lookup_insert_eq by eauto using lookup_lt_Some.
  rewrite Hb, Hr, Ha. simpl. split.
  - intros j Hj. split; [apply Hrt|apply Hat]; lia.
  - intros i j Hj. by apply Hbt.
Qed.

Lemma for_each_app_inv {A B} (body : A -> B -> method A) l1 l2 a (self : COSTS) a' self' :
  for_each body a (l1 ++ l2) self = (Ok a', self') ->
  exists a1 s1, for_each body a l1 self = (Ok a1, s1)
                /\ for_each body a1 l2 s1 = (Ok a', self').
Proof.
  revert a self. induction l1 as [|b l1 IH]; intros a self H; simpl in *.
  - eauto.
  - apply bind_inv in H as (a0 & s0 & Hb & H).
    destruct (IH _ _ H) as (a1 & s1 & H1 & H2).
    exists a1, s1. split; [|exact H2].
    unfold method_bind. rewrite Hb. exact H1.
Qed.

Lemma for_each_app {A B} (body : A -> B -> method A) l1 l2 a (self : COSTS) a1 s1 :
  for_each body a l1 self = (Ok a1, s1) ->
  for_each body a (l1 ++ l2) self = for_each body a1 l2 s1.
Proof.
  revert a self. induction l1 as [|b l1 IH]; intros a self H; simpl in *.
  - unfold method_ret in H. by injection H as -> ->.
  - apply bind_inv in H as (a0 & s0 & Hb & H).
    unfold method_bind at 1. rewrite Hb. by apply IH.
Qed.

Lemma fit_loop_other_rows sv data time kern (l : list Z) o (self : COSTS) o' self' k :
  for_each (fit_window sv data time kern) o l self = (Ok o', self') ->
  (forall x, x ∈ l -> k <> Z.to_nat x) ->
  window_rows self' k = window_rows self k.
Proof.
  revert o self. induction l as [|x l IH]; intros o self H Hne; simpl in H.
  - unfold method_ret in H. by injection H as _ <-.
  - apply bind_inv in H as (o1 & s1 & Hx & H).
    rewrite (IH _ _ H) by (intros y Hy; apply Hne; by apply list_elem_of_further).
    eapply fit_window_other_rows; [exact Hx|]. apply Hne, list_elem_of_here.
Qed.

Lemma slots_of_rows (a b : COSTS) (k : nat) :
  window_rows a k = window_rows b k ->
  (forall j, omega_slot a k j = omega_slot b k j
             /\ amplitudes_slot a k j = amplitudes_slot b k j)
  /\ (forall i j, modes_slot a k i j = modes_slot b k i j).
Proof.
  unfold window_rows, omega_slot, amplitudes_slot, modes_slot. intros H.
  injection H as Ho Ha Hm.
  split.
  - intros j. split.
    + destruct (_omega_array a), (_omega_array b); simpl in *;
        [by rewrite Ho|by rewrite Ho|by rewrite <- Ho|done].
    + destruct (_amplitudes_array a), (_amplitudes_array b); simpl in *;
        [by rewrite Ha|by rewrite Ha|by rewrite <- Ha|done].
  - intros i j. destruct (_modes_array a), (_modes_array b); simpl in *;
      [by rewrite Hm|by rewrite Hm|by rewrite <- Hm|done].
Qed.

(** The arrays right after the pre-allocation: zeros at full capacity. *)
Lemma fit_preallocate_zeros (self self' : COSTS) :
  fit_preallocate self = (Ok tt, self') ->
  exists n nv cap,
    _n_slides self = Some n /\ _n_data_vars self = Some nv
    /\ _svd_rank_pre_allocate self = Some cap
    /\ 0 <= n /\ 0 <= nv /\ 0 <= cap
    /\ _omega_array self' = Some (replicate (Z.to_nat n) (replicate (Z.to_nat cap) czero))
    /\ _amplitudes_array self'
       = Some (replicate (Z.to_nat n) (replicate (Z.to_nat cap) czero))
    /\ _modes_array self'
       = Some (replicate (Z.to_nat n)
                 (replicate (Z.to_nat nv) (replicate (Z.to_nat cap) czero))).
Proof.
  unfold fit_preallocate. intros H. method_inv H.
  apply update_inv in H as ->. simpl in *.
  apply the_inv in Hm, Hm0, Hm1, Hm5.
  unfold np_full in *.
  destruct (Z.ltb_spec a 0); [done|]. destruct (Z.ltb_spec a1 0); [done|].
  destruct (Z.ltb_spec a5 0); [done|]. destruct (Z.ltb_spec a0 0); [done|].
  simplify_eq. exists a, a1, a5. auto 10.
Qed.

(** [fit] stopped after window [k]: the solver object that fitted it. *)
Definition fit_through (sv : Solver) (data : array2 xfloat) (time : array1 xfloat)
    (window_length step_size : Z) (corner_sharpness : option R) (k : Z)
  : method BOPDMD :=
  let* _ := fit_plan_windows (product_below sv) (shape1 data) (Z.of_nat (length data))
              (Z.of_nat (length time)) window_length step_size in
  let* _ := fit_rank_policy sv data in
  let* _ := fit_preallocate in
  let* setup := fit_solver_setup sv corner_sharpness in
  for_each (fit_window sv data time (snd setup)) (fst setup) (arange (k + 1)).

Definition capacity_view (self : COSTS) :=
  (_n_slides self, _n_data_vars self, _svd_rank_pre_allocate self).

Lemma fit_solver_setup_keeps_arrays sv cs :
  preserves (fun s => (capacity_view s, _omega_array s, _amplitudes_array s, _modes_array s))
    (fit_solver_setup sv cs).
Proof. unfold fit_solver_setup. preserves_auto. Qed.

Lemma fit_preallocate_keeps_capacity : preserves capacity_view fit_preallocate.
Proof. unfold fit_preallocate. preserves_auto. Qed.

Lemma fit_window_keeps_capacity sv data time kern o k :
  preserves capacity_view (fit_window sv data time kern o k).
Proof.
  unfold fit_window, fit_window_solve, fit_window_assign, fit_window_reseed.
  preserves_auto.
Qed.

(** C7.  After a successful [fit], for every window [k] and every rank
    slot [j] below the capacity [svd_rank_pre_allocate] and at or beyond the
    rank fitted for window [k] (the number of eigenvalues, respectively of
    mode columns, of the solver that fitted it), the entries [k, j] of
    [omega_array] and [amplitudes_array] and the entries [k, i, j] of
    [modes_array] are exactly zero. *)
Theorem C7_zero_padding sv data time L S cs (self self' : COSTS) :
  fit sv data time L S cs self = (Ok tt, self') ->
  exists n nv cap,
    _n_slides self' = Some n /\ _n_data_vars self' = Some nv
    /\ _svd_rank_pre_allocate self' = Some cap
    /\ forall k, 0 <= k < n ->
       exists o,
         fst (fit_through sv data time L S cs k self) = Ok o
         /\ (forall j, (length (eigs o) <= j)%nat -> Z.of_nat j < cap ->
               omega_slot self' (Z.to_nat k) j = Some czero
               /\ amplitudes_slot self' (Z.to_nat k) j = Some czero)
         /\ (forall i j, Z.of_nat i < nv -> shape1 (modes o) <= Z.of_nat j < cap ->
               modes_slot self' (Z.to_nat k) i j = Some czero).
Proof.
  intros Hfit.
  apply fit_inv in Hfit as (s1 & s2 & s3 & s4 & setup & o' & H1 & H2 & H3 & H4 & H5).
  destruct (fit_preallocate_zeros _ _ H3)
    as (n & nv & cap & Hn & Hnv & Hcap & Hn0 & Hnv0 & Hcap0 & Hom & Ham & Hmo).
  pose proof (preserves_eq _ _ _ _ _ fit_preallocate_keeps_capacity H3) as Hc3.
  pose proof (preserves_eq _ _ _ _ _ (fit_solver_setup_keeps_arrays _ _) H4) as Hc4.
  cbv beta in Hc4.
  pose proof (f_equal (fun t => fst (fst (fst t))) Hc4) as Hcv4.
  pose proof (f_equal (fun t => snd (fst (fst t))) Hc4) as Hom4.
  pose proof (f_equal (fun t => snd (fst t)) Hc4) as Ham4.
  pose proof (f_equal snd Hc4) as Hmo4. clear Hc4. simpl in Hcv4, Hom4, Ham4, Hmo4.
  rewrite Hc3 in Hcv4. unfold capacity_view in Hcv4. rewrite Hn, Hnv, Hcap in Hcv4.
  injection Hcv4 as Hn4 Hnv4 Hcap4.
  rewrite Hom in Hom4. rewrite Ham in Ham4. rewrite Hmo in Hmo4.
  unfold fit_loop in H5.
  apply bind_inv in H5 as (n' & s5 & Hcall & H5). apply call_inv in Hcall as [Hcall ->].
  rewrite Hn4 in Hcall. simpl in Hcall. injection Hcall as <-.
  pose proof (preserves_eq _ _ _ _ _
                (preserves_for_each capacity_view _ (arange n)
                   (fun a b => fit_window_keeps_capacity sv data time (snd setup) a b)
                   (fst setup)) H5) as Hc5.
  unfold capacity_view in Hc5. rewrite Hn4, Hnv4, Hcap4 in Hc5.
  injection Hc5 as Hn5 Hnv5 Hcap5.
  exists n, nv, cap. split; [exact Hn5|]. split; [exact Hnv5|]. split; [exact Hcap5|].
  intros k Hk.
  assert (Hsplit : arange n = arange k ++ [k] ++ seqZ (k + 1) (n - (k + 1))).
  { unfold arange. replace n with (k + (1 + (n - (k + 1)))) at 1 by lia.
    rewrite seqZ_app by lia. f_equal. rewrite seqZ_app by lia. reflexivity. }
  rewrite Hsplit in H5.
  apply for_each_app_inv in H5 as (oa & sa & Ha & H5).
  apply for_each_app_inv in H5 as (ok & sb & Hb & Hrest).
  simpl in Hb. apply bind_inv in Hb as (ok' & sb' & Hb & Hret).
  unfold method_ret in Hret. injection Hret as -> ->.
  exists ok. split; [|].
  - unfold fit_through, method_bind at 1. rewrite H1.
    unfold method_bind at 1. rewrite H2.
    unfold method_bind at 1. rewrite H3.
    unfold method_bind at 1. rewrite H4.
    replace (arange (k + 1)) with (arange k ++ [k]).
    + rewrite (for_each_app _ _ _ _ _ _ _ Ha). simpl.
      unfold method_bind. rewrite Hb. reflexivity.
    + unfold arange. rewrite (seqZ_app 0 k 1) by lia. reflexivity.
  - assert (Hrows_a : window_rows sa (Z.to_nat k) = window_rows s4 (Z.to_nat k)).
    { eapply fit_loop_other_rows; [exact Ha|].
      intros x Hx. apply elem_of_seqZ in Hx. lia. }
    assert (Hrows_b : window_rows self' (Z.to_nat k) = window_rows sb (Z.to_nat k)).
    { eapply fit_loop_other_rows; [exact Hrest|].
      intros x Hx. apply elem_of_seqZ in Hx. lia. }
    destruct (slots_of_rows _ _ _ Hrows_a) as [Hsa Hsa'].
    destruct (slots_of_rows _ _ _ Hrows_b) as [Hsb Hsb'].
    destruct (fit_window_beyond_rank _ _ _ _ _ _ _ _ _ Hb) as [Hw Hw'].
    split.
    + intros j Hj Hjc.
      destruct (Hsb j) as [-> ->]. destruct (Hw j Hj) as [-> ->].
      destruct (Hsa j) as [-> ->].
      unfold omega_slot, amplitudes_slot. rewrite Hom4, Ham4. simpl.
      rewrite !lookup_replicate_2 by lia. simpl.
      by rewrite !lookup_replicate_2 by lia.
    + intros i j Hi Hj.
      rewrite Hsb', (Hw' i j) by lia. rewrite Hsa'.
      unfold modes_slot. rewrite Hmo4. simpl.
      rewrite lookup_replicate_2 by lia. simpl.
      rewrite lookup_replicate_2 by lia. simpl.
      by rewrite lookup_replicate_2 by lia.
Qed.

Lemma C7_zero_padding_witness :
  fit toy_solver toy_data toy_time 2 1 None toy_object = (Ok tt, toy_fitted)
  /\ exists n nv cap,
       _n_slides toy_fitted = Some n /\ _n_data_vars toy_fitted = Some nv
       /\ _svd_rank_pre_allocate toy_fitted = Some cap
       /\ forall k, 0 <= k < n ->
          exists o,
            fst (fit_through toy_solver toy_data toy_time 2 1 None k toy_object) = Ok o
            /\ (forall j, (length (eigs o) <= j)%nat -> Z.of_nat j < cap ->
                  omega_slot toy_fitted (Z.to_nat k) j = Some czero
                  /\ amplitudes_slot toy_fitted (Z.to_nat k) j = Some czero)
            /\ (forall i j, Z.of_nat i < nv -> shape1 (modes o) <= Z.of_nat j < cap ->
                  modes_slot toy_fitted (Z.to_nat k) i j = Some czero).
Proof.
  split; [exact toy_fit_ok|].
  exact (C7_zero_padding toy_solver toy_data toy_time 2 1 None toy_object toy_fitted
           toy_fit_ok).
Defined.

(** On the small run: capacity 2, one mode fitted, so slot 1 of every
    window is zero. *)
Example toy_fit_padding :
  _svd_rank_pre_allocate toy_fitted = Some 2
  /\ omega_slot toy_fitted 0 1 = Some czero
  /\ omega_slot toy_fitted 2 0 = Some (Cx fzero (Fin 1%R)).
Proof. vm_compute. auto. Qed.

(** ** Dictionaries *)

Lemma dict_get_None (d : pydict) (k : string) :
  dict_get d k = None <-> k ∉ map fst d.
Proof.
  induction d as [|[k' v] d IH]; simpl.
  - split; [intros _; apply not_elem_of_nil|done].
  - destruct (String.eqb_spec k' k) as [->|Hne].
    + split; [done|]. intros H. exfalso. apply H, list_elem_of_here.
    + rewrite IH, not_elem_of_cons. split; [intros ?; split; congruence|tauto].
Qed.

Lemma dict_get_app (d1 d2 : pydict) (k : string) :
  dict_get (d1 ++ d2) k
  = match dict_get d1 k with Some v => Some v | None => dict_get d2 k end.
Proof.
  induction d1 as [|[k' v] d1 IH]; simpl; [done|].
  by destruct (String.eqb k' k).
Qed.

Lemma dict_set_fresh (d : pydict) (k : string) (v : pyval) :
  dict_get d k = None -> dict_set d k v = d ++ [(k, v)].
Proof.
  induction d as [|[k' v'] d IH]; simpl; [done|].
  destruct (String.eqb k' k); [done|]. intros H. by rewrite IH.
Qed.

Lemma dict_set_last (d : pydict) (k : string) (v v' : pyval) :
  dict_get d k = None -> dict_set (d ++ [(k, v)]) k v' = d ++ [(k, v')].
Proof.
  induction d as [|[k0 v0] d IH]; simpl.
  - by rewrite String.eqb_refl.
  - destruct (String.eqb k0 k); [done|]. intros H. by rewrite IH.
Qed.

(** ** Attribute names *)

Lemma prefixed_eqb (k1 k2 : string) :
  String.eqb ("pydmd_kwargs__" +:+ k1) ("pydmd_kwargs__" +:+ k2) = String.eqb k1 k2.
Proof. reflexivity. Qed.

Lemma prefixed_contains (k : string) :
  contains ("pydmd_kwargs__" +:+ k) "pydmd_kwargs" = true.
Proof. reflexivity. Qed.

Lemma str_replace_absent (old new s : string) :
  contains s old = false -> str_replace_from old new 0 s = s.
Proof.
  induction s as [|c s IH]; [done|]. intros H.
  change (String.prefix old (String c s) || contains s old = false) in H.
  apply orb_false_iff in H as [Hp Hs].
  change (str_replace_from old new 0 (String c s))
    with (if String.prefix old (String c s)
          then new +:+ str_replace_from old new (String.length old - 1) s
          else String c (str_replace_from old new 0 s)).
  rewrite Hp. by rewrite IH.
Qed.

Lemma prefix_append (p k : string) : String.prefix p (p +:+ k) = true.
Proof.
  induction p as [|c p IH]; simpl.
  - by destruct k.
  - destruct (Ascii.ascii_dec c c); [exact IH|done].
Qed.

Lemma prefixed_replace (k : string) :
  contains k "pydmd_kwargs__" = false ->
  str_replace ("pydmd_kwargs__" +:+ k) "pydmd_kwargs__" "" = k.
Proof.
  intros H. unfold str_replace.
  change (str_replace_from "pydmd_kwargs__" "" 0 ("pydmd_kwargs__" +:+ k))
    with (if String.prefix "pydmd_kwargs__" ("pydmd_kwargs__" +:+ k)
          then str_replace_from "pydmd_kwargs__" "" 0 k
          else String "p"%char (str_replace_from "pydmd_kwargs__" "" 0 ("ydmd_kwargs__" +:+ k))).
  rewrite prefix_append. by apply str_replace_absent.
Qed.

(** ** The round trip through a dataset *)

(** An option as [to_xarray] stores it. *)
Definition stored_option (kv : string * pyval) : string * pyval :=
  ("pydmd_kwargs__" +:+ fst kv, _xarray_sanitize (snd kv)).

(** An option as [from_xarray] reads it back, when that does not raise. *)
Definition read_back (kv : string * pyval) : result (string * pyval) :=
  let v := _xarray_unsanitize (_xarray_sanitize (snd kv)) in
  if String.eqb (fst kv) "eig_constraints" then s ← py_set v; Ok (fst kv, s)
  else Ok (fst kv, v).

Lemma dataset_attrs_no_option (self : COSTS) (k : string) :
  dict_get (dataset_attrs self) ("pydmd_kwargs__" +:+ k) = None.
Proof. reflexivity. Qed.

Lemma dict_get_stored (kw : pydict) (k : string) :
  dict_get (map stored_option kw) ("pydmd_kwargs__" +:+ k)
  = _xarray_sanitize <$> dict_get kw k.
Proof.
  induction kw as [|[k' v] kw IH]; [done|].
  change (dict_get (map stored_option ((k', v) :: kw)) ("pydmd_kwargs__" +:+ k))
    with (if String.eqb ("pydmd_kwargs__" +:+ k') ("pydmd_kwargs__" +:+ k)
          then Some (_xarray_sanitize v)
          else dict_get (map stored_option kw) ("pydmd_kwargs__" +:+ k)).
  rewrite prefixed_eqb, IH. simpl. by destruct (String.eqb k' k).
Qed.

Lemma stored_attrs (d : pydict) (kw : pydict) :
  NoDup (map fst kw) ->
  (forall k, k ∈ map fst kw -> dict_get d ("pydmd_kwargs__" +:+ k) = None) ->
  foldl (fun d kv => dict_set d ("pydmd_kwargs__" +:+ fst kv) (_xarray_sanitize (snd kv)))
    d kw
  = d ++ map stored_option kw.
Proof.
  revert d. induction kw as [|[k v] kw IH]; intros d Hnd Hd.
  - simpl. by rewrite app_nil_r.
  - change (map fst ((k, v) :: kw)) with (k :: map fst kw) in Hnd, Hd.
    apply NoDup_cons in Hnd as [Hk Hnd].
    change (foldl ?f d ((k, v) :: kw))
      with (foldl f (dict_set d ("pydmd_kwargs__" +:+ k) (_xarray_sanitize v)) kw).
    rewrite dict_set_fresh by apply Hd, list_elem_of_here.
    rewrite IH; [by rewrite <- app_assoc|done|].
    intros k' Hk'. rewrite dict_get_app, Hd by by apply list_elem_of_further.
    change (dict_get [("pydmd_kwargs__" +:+ k, _xarray_sanitize v)] ("pydmd_kwargs__" +:+ k'))
      with (if String.eqb ("pydmd_kwargs__" +:+ k) ("pydmd_kwargs__" +:+ k')
            then Some (_xarray_sanitize v) else None).
    rewrite prefixed_eqb.
    destruct (String.eqb_spec k k'); [|done]. by subst k'.
Qed.

(** The data variables and coordinates of a dataset. *)
Definition dataset_data (ds : Dataset) :=
  (ds_omega ds, ds_omega_classes ds, ds_amplitudes ds, ds_modes ds,
   ds_window_means ds, ds_cluster_centroids ds, ds_time ds).

Lemma store_options_fold (kw : pydict) (ds : Dataset) :
  let stored :=
    foldl (fun ds kv =>
             set_attrs (dict_set (ds_attrs ds) ("pydmd_kwargs__" +:+ fst kv)
                          (_xarray_sanitize (snd kv))) ds) ds kw in
  dataset_data stored = dataset_data ds
  /\ ds_attrs stored
     = foldl (fun d kv =>
                dict_set d ("pydmd_kwargs__" +:+ fst kv) (_xarray_sanitize (snd kv)))
         (ds_attrs ds) kw.
Proof.
  revert ds. induction kw as [|kv kw IH]; intros ds; [done|].
  cbn [foldl]. destruct (IH (set_attrs (dict_set (ds_attrs ds)
                               ("pydmd_kwargs__" +:+ fst kv)
                               (_xarray_sanitize (snd kv))) ds)) as [Hd Ha].
  cbv zeta. split; [rewrite Hd|rewrite Ha]; reflexivity.
Qed.

Lemma to_xarray_inv (self : COSTS) (ds : Dataset) :
  to_xarray self = Ok ds -> NoDup (map fst (_pydmd_kwargs self)) ->
  (_omega_array self, _omega_classes self, _amplitudes_array self, _modes_array self,
   _window_means_array self, _cluster_centroids self, _time_array self)
  = (Some (ds_omega ds), Some (ds_omega_classes ds), Some (ds_amplitudes ds),
     Some (ds_modes ds), Some (ds_window_means ds), Some (ds_cluster_centroids ds),
     Some (ds_time ds))
  /\ ds_attrs ds = dataset_attrs self ++ map stored_option (_pydmd_kwargs self).
Proof.
  unfold to_xarray. intros H Hnd.
  destruct (_omega_array self) as [om|]; [|done].
  destruct (_omega_classes self) as [oc|]; [|done].
  destruct (_amplitudes_array self) as [am|]; [|done].
  destruct (_modes_array self) as [mo|]; [|done].
  destruct (_window_means_array self) as [wm|]; [|done].
  destruct (_cluster_centroids self) as [cc|]; [|done].
  destruct (_time_array self) as [ta|]; [|done].
  destruct (the "arange" (_n_slides self)) as [n|]; [|done].
  destruct (the "arange" (_svd_rank self)) as [r|]; [|done].
  destruct (the "arange" (_n_data_vars self)) as [nv|]; [|done].
  destruct (the "arange" (_n_components self)) as [nc|]; [|done].
  destruct (the "arange" (_window_length self)) as [wl|]; [|done].
  cbn [mbind result_bind the_array] in H. cbv zeta in H.
  destruct (negb _) in H; [done|]. injection H as <-.
  match goal with
  | |- context [foldl ?f ?d0 (_pydmd_kwargs self)] =>
      destruct (store_options_fold (_pydmd_kwargs self) d0) as [Hd Ha]
  end.
  cbv zeta in Hd, Ha. unfold dataset_data in Hd. simpl in Hd, Ha.
  injection Hd as -> -> -> -> -> -> ->. split; [reflexivity|].
  rewrite Ha. apply stored_attrs; [done|]. intros k _. apply dataset_attrs_no_option.
Qed.

Lemma dict_get_elem (kw : pydict) (k : string) (v : pyval) :
  NoDup (map fst kw) -> (k, v) ∈ kw -> dict_get kw k = Some v.
Proof.
  induction kw as [|[k' v'] kw IH]; intros Hnd Hin.
  - by apply not_elem_of_nil in Hin.
  - change (map fst ((k', v') :: kw)) with (k' :: map fst kw) in Hnd.
    apply NoDup_cons in Hnd as [Hk Hnd]. simpl.
    apply elem_of_cons in Hin as [Heq|Hin].
    + injection Heq as <- <-. by rewrite String.eqb_refl.
    + destruct (String.eqb_spec k' k) as [->|_]; [|by apply IH].
      exfalso. apply Hk. apply list_elem_of_fmap. by exists (k, v).
Qed.

Lemma attr_fixed (ds : Dataset) (self : COSTS) (stored : pydict) name v :
  ds_attrs ds = dataset_attrs self ++ stored ->
  dict_get (dataset_attrs self) name = Some v ->
  attr ds name = Ok v.
Proof. intros Ha Hv. unfold attr. by rewrite Ha, dict_get_app, Hv. Qed.

Lemma attr_option (ds : Dataset) (self : COSTS) (k : string) (v : pyval) :
  ds_attrs ds = dataset_attrs self ++ map stored_option (_pydmd_kwargs self) ->
  NoDup (map fst (_pydmd_kwargs self)) -> (k, v) ∈ _pydmd_kwargs self ->
  attr ds ("pydmd_kwargs__" +:+ k) = Ok (_xarray_sanitize v).
Proof.
  intros Ha Hnd Hin. unfold attr.
  rewrite Ha, dict_get_app, dataset_attrs_no_option, dict_get_stored.
  by rewrite (dict_get_elem _ _ _ Hnd Hin).
Qed.

Lemma from_xarray_attr_skip (ds : Dataset) (name : string) (self : COSTS) :
  contains name "pydmd_kwargs" = false ->
  contains name "omega_transformation" = false ->
  from_xarray_attr ds tt name self = (Ok tt, self).
Proof. intros H1 H2. unfold from_xarray_attr. by rewrite H1, H2. Qed.

Lemma from_xarray_attr_option (ds : Dataset) (k : string) (v v' : pyval)
    (acc : pydict) (base : COSTS) :
  attr ds ("pydmd_kwargs__" +:+ k) = Ok (_xarray_sanitize v) ->
  contains k "pydmd_kwargs__" = false ->
  dict_get acc k = None ->
  read_back (k, v) = Ok (k, v') ->
  from_xarray_attr ds tt ("pydmd_kwargs__" +:+ k) (set_pydmd_kwargs acc base)
  = (Ok tt, set_pydmd_kwargs (acc ++ [(k, v')]) base).
Proof.
  intros Hattr Hk Hacc Hrb. unfold from_xarray_attr.
  rewrite prefixed_contains, (prefixed_replace k Hk).
  unfold method_bind, lift, update, call, method_ret. rewrite Hattr.
  cbn [_pydmd_kwargs set_pydmd_kwargs].
  rewrite (dict_set_fresh acc k _ Hacc).
  unfold read_back in Hrb. cbn [fst snd] in Hrb.
  destruct (String.eqb k "eig_constraints").
  - cbn [_pydmd_kwargs set_pydmd_kwargs]. rewrite dict_get_app, Hacc. cbn [dict_get]. rewrite String.eqb_refl.
    destruct (py_set _) as [s|]; [|done]. cbn in Hrb. injection Hrb as <-.
    cbn [_pydmd_kwargs set_pydmd_kwargs].
    by rewrite (dict_set_last acc k _ _ Hacc).
  - by injection Hrb as <-.
Qed.

Lemma read_back_key kv kv' : read_back kv = Ok kv' -> fst kv' = fst kv.
Proof.
  unfold read_back. destruct (String.eqb _ _).
  - destruct (py_set _); [|done]. by intros [= <-].
  - by intros [= <-].
Qed.

Lemma from_xarray_options (ds : Dataset) (kw kw' acc : pydict) (base : COSTS) :
  (forall k v, (k, v) ∈ kw ->
     attr ds ("pydmd_kwargs__" +:+ k) = Ok (_xarray_sanitize v)) ->
  NoDup (map fst acc ++ map fst kw) ->
  Forall (fun kv => contains (fst kv) "pydmd_kwargs__" = false) kw ->
  mapR read_back kw = Ok kw' ->
  for_each (from_xarray_attr ds) tt (map fst (map stored_option kw))
    (set_pydmd_kwargs acc base)
  = (Ok tt, set_pydmd_kwargs (acc ++ kw') base).
Proof.
  revert kw' acc. induction kw as [|[k v] kw IH]; intros kw' acc Hattr Hnd Hk Hrb.
  - simpl in Hrb. injection Hrb as <-. by rewrite app_nil_r.
  - change (mapR read_back ((k, v) :: kw))
      with (b ← read_back (k, v); bs ← mapR read_back kw; Ok (b :: bs)) in Hrb.
    destruct (read_back (k, v)) as [[k1 v1]|] eqn:Hrb1; [|done].
    destruct (mapR read_back kw) as [bs|] eqn:Hrbs; [|done].
    cbn in Hrb. injection Hrb as <-.
    pose proof (read_back_key _ _ Hrb1) as Hk1. cbn in Hk1. subst k1.
    apply Forall_cons in Hk as [Hk Hks].
    change (map fst ((k, v) :: kw)) with (k :: map fst kw) in Hnd.
    assert (Hfresh : dict_get acc k = None).
    { apply dict_get_None. intros Hin.
      apply NoDup_app in Hnd as (_ & Hdisj & _).
      apply (Hdisj k Hin), list_elem_of_here. }
    change (for_each ?body tt (map fst (map stored_option ((k, v) :: kw))) ?s)
      with (method_bind (body tt ("pydmd_kwargs__" +:+ k))
              (fun a' => for_each body a' (map fst (map stored_option kw))) s).
    unfold method_bind at 1.
    rewrite (from_xarray_attr_option ds k v v1 acc base); try done.
    + rewrite (IH bs (acc ++ [(k, v1)])); try done.
      * by rewrite <- app_assoc.
      * intros k' v' Hin. apply Hattr. by apply list_elem_of_further.
      * rewrite map_app. cbn [map fst]. rewrite <- app_assoc. exact Hnd.
    + apply Hattr, list_elem_of_here.
Qed.

Lemma transform_method_read_back (tm : option string) :
  tm <> Some "None" ->
  to_str (_xarray_unsanitize (_xarray_sanitize (of_str tm))) = Ok tm.
Proof.
  destruct tm as [s|]; [|done]. intros Hs. simpl.
  destruct (String.eqb_spec s "None") as [->|_]; [done|reflexivity].
Qed.

(** One step of the loop of [from_xarray] on a name that is no option and
    not the transformation. *)
Ltac skip_attr :=
  unfold method_bind at 1;
  rewrite from_xarray_attr_skip by reflexivity.

Lemma from_xarray_fixed (ds : Dataset) (self : COSTS) (stored : pydict) (s0 : COSTS) :
  ds_attrs ds = dataset_attrs self ++ stored ->
  _transform_method self <> Some "None" ->
  for_each (from_xarray_attr ds) tt (map fst (dataset_attrs self)) s0
  = (Ok tt, set_transform_method (_transform_method self) s0).
Proof.
  intros Ha Htm. cbn [map fst dataset_attrs for_each].
  do 2 skip_attr.
  unfold method_bind at 1.
  assert (Hstep : from_xarray_attr ds tt "omega_transformation" s0
                  = (Ok tt, set_transform_method (_transform_method self) s0)).
  { unfold from_xarray_attr.
    change (contains "omega_transformation" "pydmd_kwargs") with false.
    change (contains "omega_transformation" "omega_transformation") with true.
    cbv iota. unfold method_bind, lift, update.
    rewrite (attr_fixed ds self stored "omega_transformation" _ Ha eq_refl).
    by rewrite (transform_method_read_back _ Htm). }
  rewrite Hstep.
  do 10 skip_attr. reflexivity.
Qed.

(** The arrays and the scalar attributes that a dataset carries. *)
Definition numeric_arrays (self : COSTS) :=
  (_omega_array self, _omega_classes self, _amplitudes_array self, _modes_array self,
   _window_means_array self, _cluster_centroids self, _time_array self).

Definition stored_scalars (self : COSTS) :=
  (_svd_rank self, _svd_rank_pre_allocate self, _transform_method self,
   _n_slides self, _window_length self, _n_components self, _n_data_vars self,
   _n_time_steps self, _step_size self, _non_integer_n_slide self,
   _global_svd self, _relative_filter_length self, _kern_method self).

(** Whether [set()] takes what [from_xarray] finds for the option. *)
Definition set_accepts (v : pyval) : bool :=
  is_ok (py_set (_xarray_unsanitize (_xarray_sanitize v))).

(** What [from_xarray] leaves as [v'] under the key [k] of an option that
    held [v] when [to_xarray] stored it. *)
Definition option_read_back (k : string) (v v' : pyval) : Prop :=
  if String.eqb k "eig_constraints" then
    (exists s, v' = VSet s) /\ (forall s, v = VSet s -> v' = v)
  else
    match v with
    | VCallable name => v' = VStr ("Custom function " +:+ name)
    | VSet s => v' = VList (elements s)
    | VStr s => v' = if String.eqb s "None" then VNone else v
    | _ => v' = v
    end.

Lemma read_back_ok (kv : string * pyval) :
  (fst kv = "eig_constraints" -> set_accepts (snd kv) = true) ->
  exists v', read_back kv = Ok (fst kv, v').
Proof.
  destruct kv as [k v]. unfold read_back, set_accepts. cbn [fst snd]. intros H.
  destruct (String.eqb_spec k "eig_constraints") as [Hk|_]; [|eauto].
  specialize (H Hk). destruct (py_set _) as [s|]; [|discriminate H].
  cbn. eauto.
Qed.

Lemma read_back_all (kw : pydict) :
  (forall v, ("eig_constraints", v) ∈ kw -> set_accepts v = true) ->
  exists kw', mapR read_back kw = Ok kw'.
Proof.
  induction kw as [|[k v] kw IH]; intros H; [by exists []|].
  destruct (read_back_ok (k, v)) as [v' Hv'].
  { cbn [fst snd]. intros ->. apply H, list_elem_of_here. }
  destruct IH as [kw' Hkw'].
  { intros v0 Hin. apply H. by apply list_elem_of_further. }
  cbn [mapR]. rewrite Hv'. cbn. rewrite Hkw'. cbn. eauto.
Qed.

Lemma read_back_keys (kw kw' : pydict) :
  mapR read_back kw = Ok kw' -> map fst kw' = map fst kw.
Proof.
  revert kw'. induction kw as [|kv kw IH]; intros kw' H.
  - cbn in H. by injection H as <-.
  - cbn [mapR] in H.
    destruct (read_back kv) as [kv1|] eqn:H1; [|done].
    destruct (mapR read_back kw) as [bs|]; [|done].
    cbn in H. injection H as <-. cbn [map].
    by rewrite (read_back_key _ _ H1), (IH bs).
Qed.

Lemma read_back_lookup (kw kw' : pydict) (k : string) (v : pyval) :
  NoDup (map fst kw) -> mapR read_back kw = Ok kw' -> (k, v) ∈ kw ->
  exists v', read_back (k, v) = Ok (k, v') /\ dict_get kw' k = Some v'.
Proof.
  revert kw'. induction kw as [|[k0 v0] kw IH]; intros kw' Hnd H Hin.
  - by apply not_elem_of_nil in Hin.
  - cbn [mapR] in H.
    destruct (read_back (k0, v0)) as [[k1 v1]|] eqn:H1; [|done].
    destruct (mapR read_back kw) as [bs|] eqn:Hbs; [|done].
    cbn in H. injection H as <-.
    pose proof (read_back_key _ _ H1) as Hk1. cbn in Hk1. subst k1.
    change (map fst ((k0, v0) :: kw)) with (k0 :: map fst kw) in Hnd.
    apply NoDup_cons in Hnd as [Hk0 Hnd].
    apply elem_of_cons in Hin as [Heq|Hin].
    + injection Heq as -> ->. exists v1. split; [exact H1|].
      cbn [dict_get]. by rewrite String.eqb_refl.
    + destruct (IH bs Hnd eq_refl Hin) as (v' & Hv' & Hget).
      exists v'. split; [exact Hv'|]. cbn [dict_get].
      destruct (String.eqb_spec k0 k) as [->|_]; [|exact Hget].
      exfalso. apply Hk0. apply list_elem_of_fmap. by exists (k, v).
Qed.

Lemma read_back_option (k : string) (v v' : pyval) :
  read_back (k, v) = Ok (k, v') -> option_read_back k v v'.
Proof.
  unfold read_back, option_read_back. cbn [fst snd].
  destruct (String.eqb k "eig_constraints").
  - destruct (py_set _) as [s|] eqn:Hs; [|done]. cbn. intros [= <-]. split.
    + destruct (_xarray_unsanitize _) as [| | | | | | | |[|]]; try done;
        cbn in Hs; injection Hs as <-; eauto.
    + intros s0 ->. cbn in Hs. injection Hs as <-.
      by rewrite list_to_set_elements_L.
  - intros [= <-]. destruct v; try reflexivity.
Qed.

Lemma to_int_of_int (o : option Z) : to_int (of_int o) = Ok o.
Proof. by destruct o. Qed.

Lemma to_bool_of_bool (o : option bool) : to_bool (of_bool o) = Ok o.
Proof. by destruct o. Qed.

(** Loading a dataset built from [self] into any object: the fields are
    set, then the attributes are walked. *)
Lemma from_xarray_run (ds : Dataset) (self recv : COSTS) (kw' : pydict) :
  ds_attrs ds = dataset_attrs self ++ map stored_option (_pydmd_kwargs self) ->
  NoDup (map fst (_pydmd_kwargs self)) ->
  Forall (fun kv => contains (fst kv) "pydmd_kwargs__" = false) (_pydmd_kwargs self) ->
  _transform_method self <> Some "None" ->
  mapR read_back (_pydmd_kwargs self) = Ok kw' ->
  exists loaded,
    from_xarray ds recv = (Ok tt, loaded)
    /\ numeric_arrays loaded
       = (Some (ds_omega ds), Some (ds_omega_classes ds), Some (ds_amplitudes ds),
          Some (ds_modes ds), Some (ds_window_means ds), Some (ds_cluster_centroids ds),
          Some (ds_time ds))
    /\ stored_scalars loaded = stored_scalars self
    /\ _pydmd_kwargs loaded = kw'.
Proof.
  intros Ha Hnd Hkeys Htm Hrb. unfold from_xarray.
  rewrite (attr_fixed ds self _ "n_slides" _ Ha eq_refl).
  rewrite (attr_fixed ds self _ "svd_rank" _ Ha eq_refl).
  rewrite (attr_fixed ds self _ "n_data_vars" _ Ha eq_refl).
  rewrite (attr_fixed ds self _ "n_time_steps" _ Ha eq_refl).
  rewrite (attr_fixed ds self _ "num_frequency_bands" _ Ha eq_refl).
  rewrite (attr_fixed ds self _ "non_integer_n_slide" _ Ha eq_refl).
  rewrite (attr_fixed ds self _ "step_size" _ Ha eq_refl).
  rewrite (attr_fixed ds self _ "window_length" _ Ha eq_refl).
  rewrite (attr_fixed ds self _ "global_svd" _ Ha eq_refl).
  rewrite (attr_fixed ds self _ "relative_filter_length" _ Ha eq_refl).
  rewrite (attr_fixed ds self _ "kern_method" _ Ha eq_refl).
  rewrite (attr_fixed ds self _ "svd_rank_pre_allocate" _ Ha eq_refl).
  unfold method_bind at 1 2 3 4 5 6 7 8 9 10 11 12 13 14 15 16 17 18 19 20 21 22 23 24 25 26 27 28 29 30 31 32.
  cbn [update lift mbind result_bind to_int to_bool to_real to_bool_strict to_str_strict].
  rewrite !to_int_of_int, to_bool_of_bool. cbv iota.
  rewrite Ha, map_app.
  match goal with
  | |- context [for_each ?body tt (?l1 ++ ?l2) ?s] =>
      rewrite (for_each_app body l1 l2 tt s tt (set_transform_method (_transform_method self) s))
        by (eapply from_xarray_fixed; [exact Ha|exact Htm])
  end.
  match goal with
  | |- context [for_each ?body tt ?l (set_transform_method ?tm (set_pydmd_kwargs [] ?base))] =>
      change (for_each body tt l (set_transform_method tm (set_pydmd_kwargs [] base)))
        with (for_each body tt l (set_pydmd_kwargs [] (set_transform_method tm base)));
      rewrite (from_xarray_options ds (_pydmd_kwargs self) kw' []
                 (set_transform_method tm base))
  end.
  - eexists. split; [reflexivity|].
    unfold numeric_arrays, stored_scalars. cbn. done.
  - intros k v Hin. by apply (attr_option ds self).
  - exact Hnd.
  - exact Hkeys.
  - exact Hrb.
Qed.

(** The options that the claim calls scalar. *)
Definition scalar (v : pyval) : bool :=
  match v with
  | VNone | VBool _ | VInt _ | VFloat _ | VStr _ => true
  | _ => false
  end.

(** C6 (amended).  When [to_xarray] succeeds on an object whose options
    have distinct keys, none containing the attribute prefix
    [pydmd_kwargs__], whose transform method is not the string [None] and
    whose option [eig_constraints], if given, holds a value that [set()]
    accepts after the round through [_xarray_sanitize] and
    [_xarray_unsanitize], [from_xarray] on the dataset succeeds on any
    receiver and restores the seven numeric arrays and the stored scalars
    exactly, and the options under the same keys in the same order.  Under
    a key other than [eig_constraints], a scalar option ([None], a boolean,
    a number, a string) is read back equal unless it is the string [None],
    which is read back as [None]; an array or a list is read back equal, a
    set as the list of its elements, and a callable as the string
    [Custom function] followed by its name.  Under [eig_constraints] the
    value read back is a set, the stored one when that was a set. *)
Theorem C6_round_trip (self recv : COSTS) (ds : Dataset) :
  to_xarray self = Ok ds ->
  NoDup (map fst (_pydmd_kwargs self)) ->
  Forall (fun kv => contains (fst kv) "pydmd_kwargs__" = false) (_pydmd_kwargs self) ->
  _transform_method self <> Some "None" ->
  (forall v, ("eig_constraints", v) ∈ _pydmd_kwargs self -> set_accepts v = true) ->
  exists loaded,
    from_xarray ds recv = (Ok tt, loaded)
    /\ numeric_arrays loaded = numeric_arrays self
    /\ stored_scalars loaded = stored_scalars self
    /\ map fst (_pydmd_kwargs loaded) = map fst (_pydmd_kwargs self)
    /\ (forall k v, (k, v) ∈ _pydmd_kwargs self ->
          exists v', dict_get (_pydmd_kwargs loaded) k = Some v'
                     /\ option_read_back k v v')
    /\ (forall k v, (k, v) ∈ _pydmd_kwargs self -> k <> "eig_constraints" ->
          scalar v = true -> v <> VStr "None" ->
          dict_get (_pydmd_kwargs loaded) k = Some v)
    /\ (forall k, (k, VStr "None") ∈ _pydmd_kwargs self -> k <> "eig_constraints" ->
          dict_get (_pydmd_kwargs loaded) k = Some VNone)
    /\ (forall k name, (k, VCallable name) ∈ _pydmd_kwargs self ->
          k <> "eig_constraints" ->
          dict_get (_pydmd_kwargs loaded) k = Some (VStr ("Custom function " +:+ name))).
Proof.
  intros Hds Hnd Hkeys Htm Hset.
  destruct (to_xarray_inv self ds Hds Hnd) as [Harr Ha].
  destruct (read_back_all _ Hset) as [kw' Hkw'].
  destruct (from_xarray_run ds self recv kw' Ha Hnd Hkeys Htm Hkw')
    as (loaded & Hload & Hl1 & Hl2 & Hl3).
  assert (Hall : forall k v, (k, v) ∈ _pydmd_kwargs self ->
            exists v', dict_get (_pydmd_kwargs loaded) k = Some v'
                       /\ option_read_back k v v').
  { intros k v Hin. rewrite Hl3.
    destruct (read_back_lookup _ _ k v Hnd Hkw' Hin) as (v' & Hrb & Hget).
    exists v'. split; [exact Hget|]. by apply read_back_option. }
  exists loaded. split; [exact Hload|]. split.
  { rewrite Hl1. unfold numeric_arrays. by rewrite Harr. }
  split; [exact Hl2|]. split.
  { rewrite Hl3. by apply read_back_keys. }
  split; [exact Hall|]. split; [|split].
  - intros k v Hin Hk Hscalar Hv.
    destruct (Hall k v Hin) as (v' & -> & Hrb). f_equal.
    unfold option_read_back in Hrb.
    destruct (String.eqb_spec k "eig_constraints") as [|_]; [contradiction|].
    destruct v as [| | | |s| | | |]; try done.
    destruct (String.eqb_spec s "None") as [->|_]; [contradiction|done].
  - intros k Hin Hk.
    destruct (Hall k _ Hin) as (v' & -> & Hrb). f_equal.
    unfold option_read_back in Hrb.
    destruct (String.eqb_spec k "eig_constraints") as [|_]; [contradiction|].
    exact Hrb.
  - intros k name Hin Hk.
    destruct (Hall k _ Hin) as (v' & -> & Hrb). f_equal.
    unfold option_read_back in Hrb.
    destruct (String.eqb_spec k "eig_constraints") as [|_]; [contradiction|].
    exact Hrb.
Qed.

(** An object fitted and clustered with an option dictionary that holds a
    function, a set, a default and the string [None]. *)
Definition toy_options : pydict :=
  [("eig_sort", VStr "imag"); ("mode_prox", VCallable "soft_threshold");
   ("eig_constraints", VSet {["stable"]}); ("proj_basis", VNone);
   ("use_proj", VBool false); ("init_lambda", VStr "None")].

Definition toy_saved : COSTS := set_pydmd_kwargs toy_options toy_clustered.

Lemma toy_options_ok :
  NoDup (map fst toy_options)
  /\ Forall (fun kv => contains (fst kv) "pydmd_kwargs__" = false) toy_options
  /\ (forall v, ("eig_constraints", v) ∈ toy_options -> set_accepts v = true).
Proof.
  split; [|split].
  - cbn [map fst toy_options].
    repeat (apply NoDup_cons_2;
            [intros H; repeat (apply elem_of_cons in H as [H|H]; [discriminate H|]);
             by apply elem_of_nil in H|]).
    apply NoDup_nil_2.
  - repeat constructor.
  - intros v H. unfold toy_options in H.
    repeat (apply elem_of_cons in H as [H|H]; [by injection H as ->|]).
    by apply elem_of_nil in H.
Qed.

Lemma toy_saved_dataset : exists ds, to_xarray toy_saved = Ok ds.
Proof. vm_compute. eexists. reflexivity. Qed.

Lemma toy_saved_transform : _transform_method toy_saved <> Some "None".
Proof. vm_compute. discriminate. Qed.

Lemma C6_round_trip_witness :
  exists ds loaded,
    to_xarray toy_saved = Ok ds
    /\ from_xarray ds toy_object = (Ok tt, loaded)
    /\ numeric_arrays loaded = numeric_arrays toy_saved
    /\ stored_scalars loaded = stored_scalars toy_saved
    /\ map fst (_pydmd_kwargs loaded) = map fst toy_options
    /\ dict_get (_pydmd_kwargs loaded) "eig_sort" = Some (VStr "imag")
    /\ dict_get (_pydmd_kwargs loaded) "init_lambda" = Some VNone
    /\ dict_get (_pydmd_kwargs loaded) "mode_prox"
       = Some (VStr "Custom function soft_threshold").
Proof.
  destruct toy_saved_dataset as [ds Hds].
  destruct toy_options_ok as (Hnd & Hkeys & Hset).
  destruct (C6_round_trip toy_saved toy_object ds Hds Hnd Hkeys toy_saved_transform Hset)
    as (loaded & H1 & H2 & H3 & H4 & _ & H5 & H6 & H7).
  exists ds, loaded.
  split; [exact Hds|]. split; [exact H1|]. split; [exact H2|]. split; [exact H3|].
  split; [exact H4|]. split; [|split].
  - apply H5; [|discriminate|reflexivity|discriminate].
    apply list_elem_of_here.
  - apply H6; [|discriminate]. unfold toy_saved. cbn [_pydmd_kwargs set_pydmd_kwargs].
    unfold toy_options. do 5 apply list_elem_of_further. apply list_elem_of_here.
  - apply H7; [|discriminate]. unfold toy_saved. cbn [_pydmd_kwargs set_pydmd_kwargs].
    unfold toy_options. apply list_elem_of_further, list_elem_of_here.
Defined.

(** The claim as it is worded: saving succeeds, and loading the saved
    dataset into any object succeeds and gives back the arrays and every
    scalar option. *)
Definition round_trip_as_claimed (self : COSTS) : Prop :=
  exists ds, to_xarray self = Ok ds
    /\ forall recv, exists loaded,
         from_xarray ds recv = (Ok tt, loaded)
         /\ numeric_arrays loaded = numeric_arrays self
         /\ forall k v, (k, v) ∈ _pydmd_kwargs self -> scalar v = true ->
              dict_get (_pydmd_kwargs loaded) k = Some v.

(** Three objects, each fitted and clustered: one built with the option
    value ["None"], a string; one with [eig_constraints] left at [None];
    one fitted with local ranks, [global_svd = False] and [svd_rank = 0]. *)
Definition sentinel_init : COSTS :=
  __init__ (Some 2) true false false None (Some [("eig_sort", VStr "None")]) None
    false true None None None 2%R.

Definition unconstrained_init : COSTS :=
  __init__ (Some 2) true false false None (Some [("eig_constraints", VNone)]) None
    false true None None None 2%R.

Definition local_rank_init : COSTS :=
  __init__ (Some 0) false false false None None None false true None None None 2%R.

Definition fitted_and_clustered (init : COSTS) : COSTS :=
  snd (cluster_omega 1 None (Some "absolute") toy_clustering
         (snd (fit toy_solver toy_data toy_time 2 1 None init))).

Definition sentinel_object : COSTS := fitted_and_clustered sentinel_init.
Definition unconstrained_object : COSTS := fitted_and_clustered unconstrained_init.
Definition local_rank_object : COSTS := fitted_and_clustered local_rank_init.

Lemma fitted_and_clustered_ok :
  Forall (fun init =>
            fst (fit toy_solver toy_data toy_time 2 1 None init) = Ok tt
            /\ fst (cluster_omega 1 None (Some "absolute") toy_clustering
                      (snd (fit toy_solver toy_data toy_time 2 1 None init))) = Ok tt)
    [sentinel_init; unconstrained_init; local_rank_init].
Proof. repeat constructor; vm_compute; reflexivity. Qed.

Lemma sentinel_string_lost : ~ round_trip_as_claimed sentinel_object.
Proof.
  intros (ds & Hds & H).
  assert (Hkw : _pydmd_kwargs sentinel_object
                = [("eig_sort", VStr "None"); ("proj_basis", VArray [[Fin 1%R]]);
                   ("use_proj", VBool false)])
    by (vm_compute; reflexivity).
  assert (Hnd : NoDup (map fst (_pydmd_kwargs sentinel_object))).
  { rewrite Hkw. cbn [map fst].
    repeat (apply NoDup_cons_2;
            [intros Hin; repeat (apply elem_of_cons in Hin as [Hin|Hin]; [discriminate Hin|]);
             by apply elem_of_nil in Hin|]).
    apply NoDup_nil_2. }
  destruct (to_xarray_inv _ _ Hds Hnd) as [_ Ha].
  assert (Htm : _transform_method sentinel_object <> Some "None")
    by (vm_compute; discriminate).
  destruct (from_xarray_run ds sentinel_object toy_object
              [("eig_sort", VNone); ("proj_basis", VArray [[Fin 1%R]]);
               ("use_proj", VBool false)] Ha Hnd)
    as (loaded & Hload & _ & _ & Hl); [| exact Htm | |].
  - rewrite Hkw. repeat constructor.
  - rewrite Hkw. reflexivity.
  - destruct (H toy_object) as (loaded' & Hload' & _ & Hopt).
    rewrite Hload in Hload'. injection Hload' as <-.
    specialize (Hopt "eig_sort" (VStr "None")).
    rewrite Hkw, Hl in Hopt.
    specialize (Hopt (list_elem_of_here _ _) eq_refl). discriminate Hopt.
Qed.

Lemma unconstrained_load_raises :
  exists ds, to_xarray unconstrained_object = Ok ds
             /\ fst (from_xarray ds toy_object)
                = Raise (TypeError "object is not iterable").
Proof. vm_compute. eexists. split; reflexivity. Qed.

Lemma local_rank_save_raises :
  to_xarray local_rank_object = Raise (ValueError "conflicting sizes for dimension").
Proof. vm_compute. reflexivity. Qed.

(** C6 as the claim words it fails on each of the three: the string
    [None] comes back as [None]; [set(None)] makes [from_xarray] raise;
    and the coordinate [arange(0)] conflicts with arrays of width
    [svd_rank_pre_allocate], so that [to_xarray] raises. *)
Lemma C6_round_trip_fails :
  ~ round_trip_as_claimed sentinel_object
  /\ ~ round_trip_as_claimed unconstrained_object
  /\ ~ round_trip_as_claimed local_rank_object.
Proof.
  split; [exact sentinel_string_lost|]. split.
  - intros (ds & Hds & H).
    destruct unconstrained_load_raises as (ds' & Hds' & Hraise).
    rewrite Hds in Hds'. injection Hds' as <-.
    destruct (H toy_object) as (loaded & Hload & _).
    rewrite Hload in Hraise. discriminate Hraise.
  - intros (ds & Hds & _). rewrite local_rank_save_raises in Hds. discriminate Hds.
Qed.

(** ** Window slices on the small run *)

Lemma C3_window_indices_witness :
  (fit toy_solver toy_data toy_time 2 1 None toy_object = (Ok tt, toy_fitted)
   /\ 0 < 2 /\ 0 < 1)
  /\ exists n flag,
       _n_slides toy_fitted = Some n /\ _non_integer_n_slide toy_fitted = Some flag
       /\ forall k, 0 <= k < n ->
          if (k =? n - 1) && flag then
            get_window_indices k toy_fitted = Ok (Slice (Some (- 2)) None)
            /\ forall (series : list xfloat), length series = length toy_time ->
               apply_slice (Slice (Some (- 2)) None) series
               = drop (length series - Z.to_nat 2) series
          else
            get_window_indices k toy_fitted = Ok (Slice (Some (1 * k)) (Some (1 * k + 2)))
            /\ forall (series : list xfloat), length series = length toy_time ->
               apply_slice (Slice (Some (1 * k)) (Some (1 * k + 2))) series
               = take (Z.to_nat 2) (drop (Z.to_nat (1 * k)) series).
Proof.
  split; [split; [exact toy_fit_ok|lia]|].
  destruct (C3_window_indices toy_solver toy_data toy_time 2 1 None toy_object toy_fitted
              toy_fit_ok) as [H _]; [lia|lia|].
  exact H.
Defined.

(** * Further properties *)

(** ** Failures of [fit] before any window is fitted *)

(** What [fit] has assigned when it checks the two time extents. *)
Definition fit_shape_recorded (data : array2 xfloat) (L S : Z) (self : COSTS) : COSTS :=
  set_n_data_vars (Some (Z.of_nat (length data)))
    (set_n_time_steps (Some (shape1 data))
       (set_step_size (Some S) (set_window_length (Some L) self))).

(** X1.  When the data and the time vector have different numbers of time
    steps, [fit] raises the [ValueError] on the dimensions; the window
    length, the step, and the two extents of the data have been assigned by
    then, and nothing else. *)
Theorem fit_dimension_mismatch sv data time L S cs (self : COSTS) :
  shape1 data <> Z.of_nat (length time) ->
  fit sv data time L S cs self
  = (Raise (ValueError "Data and time dimensions do not align."),
     fit_shape_recorded data L S self).
Proof.
  intros Hne. unfold fit, fit_plan_windows, method_bind at 1.
  unfold method_bind, update, raise. simpl.
  destruct (Z.eqb_spec (shape1 data) (Z.of_nat (length time))) as [|_]; [done|].
  reflexivity.
Qed.

Lemma fit_dimension_mismatch_witness :
  fit toy_solver toy_data [Fin 0%R] 2 1 None toy_object
  = (Raise (ValueError "Data and time dimensions do not align."),
     fit_shape_recorded toy_data 2 1 toy_object).
Proof. apply fit_dimension_mismatch. simpl. lia. Defined.





(** X3.  A window length or a step of zero: the slide count divides by it
    and [fit] stops with [ZeroDivisionError]. *)
Theorem fit_zero_window_or_step sv data time L S cs (self : COSTS) :
  shape1 data = Z.of_nat (length time) -> L = 0 \/ S = 0 ->
  fit sv data time L S cs self = (Raise ZeroDivisionError, fit_shape_recorded data L S self).
Proof.
  intros HT H0. unfold fit, fit_plan_windows, method_bind at 1.
  unfold method_bind, update, raise, lift. simpl.
  rewrite HT, Z.eqb_refl. simpl. unfold _build_windows, fit_shape_recorded.
  rewrite HT.
  destruct (Z.eqb_spec L 0) as [|HL]; [reflexivity|].
  destruct H0 as [H0|H0]; [done|]. rewrite H0. reflexivity.
Qed.

Lemma fit_zero_window_or_step_witness :
  fit toy_solver toy_data toy_time 2 0 None toy_object
  = (Raise ZeroDivisionError, fit_shape_recorded toy_data 2 0 toy_object).
Proof. apply fit_zero_window_or_step; [reflexivity | right; reflexivity]. Defined.

(** ** The taper method and the rank guards of [fit] *)

Lemma bind_ok {A B} (m : method A) (k : A -> method B) (self : COSTS) a s1 :
  m self = (Ok a, s1) -> method_bind m k self = k a s1.
Proof. intros H. unfold method_bind. by rewrite H. Qed.

Lemma bind_raise {A B} (m : method A) (k : A -> method B) (self : COSTS) e s1 :
  m self = (Raise e, s1) -> method_bind m k self = (Raise e, s1).
Proof. intros H. unfold method_bind. by rewrite H. Qed.

Lemma fit_keeps_kern_method_until_setup sv data below T nv ts L S :
  preserves _kern_method
    (let* _ := fit_plan_windows below T nv ts L S in
     let* _ := fit_rank_policy sv data in
     fit_preallocate).
Proof. unfold fit_plan_windows, fit_rank_policy, _build_proj_basis, fit_preallocate.
  preserves_auto. Qed.

Lemma fit_solver_setup_inv sv cs (self : COSTS) setup self' :
  fit_solver_setup sv cs self = (Ok setup, self') ->
  exists L, _window_length self = Some L
            /\ calculate_lv_kern L cs (_kern_method self) = Ok (snd setup).
Proof.
  unfold fit_solver_setup. intros H. method_inv H.
  unfold method_ret in H. injection H as <- <-. simpl in *.
  destruct (_window_length self) as [L|]; [|done]. exists L. auto.
Qed.

(** X4.  With a taper method other than [kern] and [flat], [fit] never
    succeeds, whatever the data and the solver. *)
Theorem fit_unknown_kern_method sv data time L S cs (self : COSTS) :
  _kern_method self <> "kern" -> _kern_method self <> "flat" ->
  is_ok (fst (fit sv data time L S cs self)) = false.
Proof.
  intros Hk Hf.
  destruct (fit sv data time L S cs self) as [[[]|e] self'] eqn:Hfit; [|reflexivity].
  exfalso.
  apply fit_inv in Hfit as (s1 & s2 & s3 & s4 & setup & o & H1 & H2 & H3 & H4 & _).
  pose proof (fit_keeps_kern_method_until_setup sv data (product_below sv) (shape1 data)
                (Z.of_nat (length data)) (Z.of_nat (length time)) L S self) as Hp.
  unfold method_bind in Hp. rewrite H1, H2, H3 in Hp. simpl in Hp.
  apply fit_solver_setup_inv in H4 as (L' & _ & Hkern).
  unfold calculate_lv_kern in Hkern. rewrite Hp in Hkern.
  destruct (String.eqb_spec (_kern_method self) "kern"); [done|].
  destruct (String.eqb_spec (_kern_method self) "flat"); done.
Qed.

Lemma fit_unknown_kern_method_witness :
  is_ok (fst (fit toy_solver toy_data toy_time 2 1 None
                (set_kern_method "gauss" toy_object))) = false.
Proof. apply fit_unknown_kern_method; simpl; discriminate. Defined.

Lemma fit_rank_policy_local sv data (s : COSTS) (r : Z) :
  _global_svd s = false -> _svd_rank s = Some r -> 0 < r ->
  fit_rank_policy sv data s
  = if _force_even_eigs s && negb (r `mod` 2 =? 0) then
      (Raise (ValueError "svd_rank is odd, but force_even_eigs is True."), s)
    else match _n_data_vars s with
         | Some nv =>
             if nv <? r then
               (Raise (ValueError "Rank is larger than the data spatial dimension."), s)
             else match compute_rank sv data (Some r) with
                  | Ok r' => (Ok tt, set_svd_rank_pre_allocate (Some r') s)
                  | Raise e => (Raise e, s)
                  end
         | None => (Raise (TypeError "unsupported operand: NoneType for >"), s)
         end.
Proof.
  intros Hg Hr Hr0. unfold fit_rank_policy, method_bind, read, call, raise, lift, update.
  rewrite Hg, Hr. simpl. destruct (Z.ltb_spec 0 r); [|lia].
  destruct (_force_even_eigs s && negb (r `mod` 2 =? 0)); [reflexivity|].
  destruct (_n_data_vars s) as [nv|]; [|reflexivity]. simpl.
  destruct (nv <? r); [reflexivity|].
  destruct (compute_rank sv data (Some r)); reflexivity.
Qed.

(** X5.  Without a global SVD and with a positive rank, [fit] refuses an
    odd rank when even ranks are forced, and otherwise a rank above the
    number of data variables, each with its [ValueError], once the windows
    are planned. *)
Theorem fit_rank_guards sv data time L S cs (self : COSTS) (r : Z) :
  shape1 data = Z.of_nat (length time) -> 0 < L <= shape1 data -> 0 < S ->
  _global_svd self = false -> _svd_rank self = Some r -> 0 < r ->
  (_force_even_eigs self = true -> r `mod` 2 <> 0 ->
   fst (fit sv data time L S cs self)
   = Raise (ValueError "svd_rank is odd, but force_even_eigs is True."))
  /\ (_force_even_eigs self = false \/ r `mod` 2 = 0 -> Z.of_nat (length data) < r ->
      fst (fit sv data time L S cs self)
      = Raise (ValueError "Rank is larger than the data spatial dimension.")).
Proof.
  intros HT HL HS Hg Hr Hr0.
  assert (Hplan := fit_plan_windows_ok (product_below sv) (shape1 data) (Z.of_nat (length data)) L S self
                     ltac:(lia) ltac:(lia) ltac:(lia)).
  cbv zeta in Hplan.
  assert (Hpolicy : forall s, s = snd (fit_plan_windows (product_below sv) (shape1 data)
                                       (Z.of_nat (length data)) (shape1 data) L S self) ->
            fit_rank_policy sv data s
            = if _force_even_eigs self && negb (r `mod` 2 =? 0) then
                (Raise (ValueError "svd_rank is odd, but force_even_eigs is True."), s)
              else if Z.of_nat (length data) <? r then
                (Raise (ValueError "Rank is larger than the data spatial dimension."), s)
              else match compute_rank sv data (Some r) with
                   | Ok r' => (Ok tt, set_svd_rank_pre_allocate (Some r') s)
                   | Raise e => (Raise e, s)
                   end).
  { intros s ->. rewrite Hplan. unfold snd.
    match goal with
    | |- fit_rank_policy sv data ?s = _ =>
        rewrite (fit_rank_policy_local sv data s r Hg Hr Hr0)
    end.
    reflexivity. }
  unfold fit. rewrite <- HT. rewrite (bind_ok _ _ _ _ _ Hplan).
  split.
  - intros He Hodd. erewrite bind_raise; [reflexivity|].
    rewrite Hpolicy by (by rewrite Hplan). rewrite He.
    destruct (Z.eqb_spec (r `mod` 2) 0); [done|]. reflexivity.
  - intros He Hbig. erewrite bind_raise; [reflexivity|].
    rewrite Hpolicy by (by rewrite Hplan).
    assert (Hguard : _force_even_eigs self && negb (r `mod` 2 =? 0) = false).
    { destruct He as [->| ->]; [reflexivity|]. by rewrite andb_false_r. }
    rewrite Hguard.
    destruct (Z.ltb_spec (Z.of_nat (length data)) r); [|lia]. reflexivity.
Qed.

Lemma fit_rank_guards_witness :
  fst (fit toy_solver toy_data toy_time 2 1 None
         (set_svd_rank (Some 3) (set_global_svd false toy_object)))
  = Raise (ValueError "svd_rank is odd, but force_even_eigs is True.")
  /\ fst (fit toy_solver toy_data toy_time 2 1 None
            (set_svd_rank (Some 2) (set_global_svd false toy_object)))
     = Raise (ValueError "Rank is larger than the data spatial dimension.").
Proof.
  assert (Hshape : shape1 toy_data = 4) by reflexivity.
  split.
  - apply (fit_rank_guards toy_solver toy_data toy_time 2 1 None
             (set_svd_rank (Some 3) (set_global_svd false toy_object)) 3);
      first [reflexivity | rewrite Hshape; lia | lia | discriminate].
  - apply (fit_rank_guards toy_solver toy_data toy_time 2 1 None
             (set_svd_rank (Some 2) (set_global_svd false toy_object)) 2);
      first [reflexivity | rewrite Hshape; lia | lia | right; reflexivity
            | simpl; lia].
Defined.

(** X6.  Without a global SVD the rank must be a number: with [svd_rank]
    left at [None], the comparison of the rank with zero raises [TypeError]
    once the windows are planned. *)
Theorem fit_local_rank_missing sv data time L S cs (self : COSTS) :
  shape1 data = Z.of_nat (length time) -> 0 < L <= shape1 data -> 0 < S ->
  _global_svd self = false -> _svd_rank self = None ->
  exists msg, fst (fit sv data time L S cs self) = Raise (TypeError msg).
Proof.
  intros HT HL HS Hg Hr.
  assert (Hplan := fit_plan_windows_ok (product_below sv) (shape1 data) (Z.of_nat (length data)) L S self
                     ltac:(lia) ltac:(lia) ltac:(lia)).
  cbv zeta in Hplan.
  eexists. unfold fit. rewrite <- HT. rewrite (bind_ok _ _ _ _ _ Hplan).
  erewrite bind_raise; [reflexivity|].
  unfold fit_rank_policy. erewrite bind_ok; [|unfold read; reflexivity].
  change (_global_svd _) with (_global_svd self). rewrite Hg. cbv iota.
  erewrite bind_raise; [reflexivity|]. unfold call.
  change (_svd_rank _) with (_svd_rank self). rewrite Hr. reflexivity.
Qed.

Lemma fit_local_rank_missing_witness :
  exists msg,
    fst (fit toy_solver toy_data toy_time 2 1 None
           (__init__ None false false false None None None false true None None None 2%R))
    = Raise (TypeError msg).
Proof.
  apply fit_local_rank_missing;
    first [reflexivity | change (shape1 toy_data) with 4; lia | lia].
Defined.

(** ** The two kernels *)














(** ** The transformation of the eigenvalues *)

Definition supported_transform (tm : option string) : bool :=
  match tm with
  | Some m => String.eqb m "absolute" || String.eqb m "square_frequencies"
              || String.eqb m "log10" || String.eqb m "period"
  | None => false
  end.

Lemma transform_omega_unsupported_raises omega tm (self : COSTS) :
  supported_transform tm = false ->
  transform_omega omega tm self
  = (Raise (ValueError "Transform method not supported."), self).
Proof.
  unfold supported_transform, transform_omega. destruct tm as [m|]; [|reflexivity].
  intros H. apply orb_false_elim in H as [H Hp]. apply orb_false_elim in H as [H Hl].
  apply orb_false_elim in H as [Ha Hs]. rewrite Ha, Hs, Hl, Hp. reflexivity.
Qed.

(** X10.  A transform method other than the four supported names makes
    [transform_omega] raise [ValueError] and leaves the object untouched;
    [None], the default of [cluster_omega], is such a method, so a call of
    [cluster_omega] that does not name a transform method never succeeds and
    changes nothing. *)
Theorem transform_omega_unsupported omega tm n kw m (self : COSTS) :
  supported_transform tm = false ->
  transform_omega omega tm self
  = (Raise (ValueError "Transform method not supported."), self)
  /\ is_ok (fst (cluster_omega n kw None m self)) = false
  /\ snd (cluster_omega n kw None m self) = self.
Proof.
  intros H. split; [by apply transform_omega_unsupported_raises|].
  unfold cluster_omega, _cluster, method_bind, lift, call.
  repeat match goal with
         | |- context [transform_omega ?o None ?s] =>
             rewrite (transform_omega_unsupported_raises o None s eq_refl)
         | |- context [match ?x with Ok _ => _ | Raise _ => _ end] => destruct x
         end; auto.
Qed.

Lemma transform_omega_unsupported_witness :
  transform_omega [Cx fzero (Fin 1%R)] (Some "abs") toy_fitted
  = (Raise (ValueError "Transform method not supported."), toy_fitted)
  /\ is_ok (fst (cluster_omega 2 None None toy_clustering toy_fitted)) = false
  /\ snd (cluster_omega 2 None None toy_clustering toy_fitted) = toy_fitted.
Proof. apply transform_omega_unsupported. reflexivity. Defined.

(** X11.  [transform_omega] looks at the imaginary parts only: two arrays
    with the same imaginary parts have the same outcome, whatever the
    method; and a successful transform has one value per eigenvalue. *)
Theorem transform_omega_imag_only (a b : array1 xcomplex) tm (self : COSTS) :
  map im a = map im b ->
  transform_omega a tm self = transform_omega b tm self
  /\ forall out self', transform_omega a tm self = (Ok out, self') ->
       length out = length a.
Proof.
  intros Him.
  assert (E : forall g : xfloat -> xfloat,
             map (fun w => g (im w)) a = map (fun w => g (im w)) b).
  { intros g. rewrite <- (map_map im g a), <- (map_map im g b), Him. reflexivity. }
  pose proof (E xf_abs) as E1.
  pose proof (E (fun x => xf_mul x x)) as E2.
  pose proof (E (fun x => xf_log10 (xf_abs x))) as E3.
  pose proof (E (fun x => xf_div (Fin 1%R) (xf_abs x))) as E4.
  cbv beta in E1, E2, E3, E4.
  split.
  - unfold transform_omega. rewrite E1, E2, E3, E4. reflexivity.
  - intros out self'. unfold transform_omega, method_bind, update, lift, method_ret, raise.
    repeat match goal with
           | |- context [if ?c then _ else _] => destruct c
           | |- context [match ?x with Ok _ => _ | Raise _ => _ end] => destruct x
           end;
      intros [= <- <-] || intros [=]; rewrite ?length_map; reflexivity.
Qed.

Lemma transform_omega_imag_only_witness :
  transform_omega [Cx (Fin 5%R) (Fin 1%R)] (Some "period") toy_fitted
  = transform_omega [Cx fzero (Fin 1%R)] (Some "period") toy_fitted.
Proof.
  apply (transform_omega_imag_only [Cx (Fin 5%R) (Fin 1%R)] [Cx fzero (Fin 1%R)]).
  reflexivity.
Defined.

(** ** The seed built from the cluster centroids *)

Lemma length_np_repeat {A} (a : list A) (m : Z) (out : list A) :
  np_repeat a m = Ok out -> length out = (Z.to_nat m * length a)%nat.
Proof.
  unfold np_repeat. destruct (m <? 0); [done|]. intros [= <-].
  induction a as [|x a IH]; simpl; [lia|].
  rewrite length_app, length_replicate, IH. lia.
Qed.

Lemma length_np_tile {A} (a : list A) (m : Z) (out : list A) :
  np_tile a m = Ok out -> length out = (Z.to_nat m * length a)%nat.
Proof.
  unfold np_tile. destruct (m <? 0); [done|]. intros [= <-].
  induction (Z.to_nat m) as [|k IH]; simpl; [done|].
  rewrite length_app, IH. lia.
Qed.

Lemma broadcast_with_mismatch {A B C} (f : A -> B -> C) (a : list A) (b : list B) :
  length a <> length b -> (2 <= length a)%nat -> (2 <= length b)%nat ->
  broadcast_with f a b = Raise (ValueError "operands could not be broadcast together").
Proof.
  intros Hne Ha Hb. unfold broadcast_with.
  destruct (Nat.eqb_spec (length a) (length b)); [done|].
  destruct a as [|x [|x' a]]; simpl in Ha; [lia|lia|].
  destruct b as [|y [|y' b]]; simpl in Hb; [lia|lia|]. reflexivity.
Qed.

(** X12.  The seed from the centroids, for [initialize_artificially] without
    a user seed and [int(svd_rank / n_components) >= 1]: each centroid is
    repeated that many times and the signs [1, -1] are tiled that many
    times, so with two centroids the seed has [2 * int(svd_rank /
    n_components)] entries, and with three or more the two vectors cannot be
    multiplied and [_build_initialization] raises [ValueError]. *)
Theorem build_initialization_centroids (self : COSTS) (cs : array1 xfloat) (r n : Z) :
  _initialize_artificially self = true -> _init_alpha self = None ->
  _cluster_centroids self = Some cs ->
  _svd_rank self = Some r -> _n_components self = Some n -> n <> 0 ->
  let m := Qtrunc (inject_Z r / inject_Z n) in
  1 <= m ->
  (length cs = 2%nat ->
   exists seed, _build_initialization self = Ok (Some seed)
                /\ length seed = (2 * Z.to_nat m)%nat)
  /\ ((3 <= length cs)%nat ->
      _build_initialization self
      = Raise (ValueError "operands could not be broadcast together")).
Proof.
  intros Hart Hseed Hcs Hr Hn Hn0 m Hm.
  unfold _build_initialization. rewrite Hart, Hseed, Hcs, Hr, Hn. simpl.
  unfold int_div. destruct (Z.eqb_spec n 0) as [|_]; [done|]. simpl. fold m.
  destruct (np_repeat _ m) as [rep|e] eqn:Hrep;
    [|unfold np_repeat in Hrep; destruct (Z.ltb_spec m 0); [lia|done]].
  destruct (np_tile [xc_of_Z 1; xc_of_Z (-1)] m) as [signs|e] eqn:Htile;
    [|unfold np_tile in Htile; destruct (Z.ltb_spec m 0); [lia|done]].
  apply length_np_repeat in Hrep. apply length_np_tile in Htile.
  rewrite length_map in Hrep. simpl in Htile. simpl.
  split.
  - intros H2. rewrite H2 in Hrep. unfold broadcast_with.
    destruct (Nat.eqb_spec (length rep) (length signs)) as [_|]; [|lia].
    simpl. eexists. split; [reflexivity|].
    rewrite length_zip_with. lia.
  - intros H3. rewrite broadcast_with_mismatch; [reflexivity|nia|nia|nia].
Qed.

(** Three centroids on the object of the small run, for a rank of 6. *)
Definition three_centroids : COSTS :=
  set_n_components (Some 3)
    (set_svd_rank (Some 6)
       (set_cluster_centroids (Some [Fin 1%R; Fin 4%R; Fin 9%R])
          (__init__ (Some 6) false true false None None None false true None (Some 3)
             None 2%R))).

Lemma build_initialization_centroids_witness :
  _build_initialization three_centroids
  = Raise (ValueError "operands could not be broadcast together").
Proof.
  destruct (build_initialization_centroids three_centroids
              [Fin 1%R; Fin 4%R; Fin 9%R] 6 3 eq_refl eq_refl eq_refl eq_refl eq_refl)
    as [_ H]; [lia | vm_compute; intros Hgt; discriminate Hgt |].
  apply H. simpl. lia.
Defined.

(** ** The constructor *)

Lemma dict_get_set (d : pydict) (k k' : string) (v : pyval) :
  dict_get (dict_set d k v) k' = if String.eqb k k' then Some v else dict_get d k'.
Proof.
  induction d as [|[k0 v0] d IH]; simpl.
  - reflexivity.
  - destruct (String.eqb_spec k0 k) as [->|Hne]; simpl.
    + destruct (String.eqb k k'); reflexivity.
    + rewrite IH. destruct (String.eqb_spec k0 k') as [->|]; [|reflexivity].
      destruct (String.eqb_spec k k'); [congruence|reflexivity].
Qed.

(** The options that [__init__] hands to the solver by default. *)
Definition default_options : pydict :=
  [("eig_sort", VStr "imag"); ("proj_basis", VNone); ("use_proj", VBool false)].

(** X13.  The options stored by the constructor: the defaults when none are
    given; otherwise every option of the caller is kept and each of
    [eig_sort], [proj_basis] and [use_proj] that the caller left out gets
    its default. *)
Theorem init_options svd_rank global_svd art last seed (kw : option pydict) centroids
    reset even max_rank n_components kern rfl (k : string) :
  let self := __init__ svd_rank global_svd art last seed kw centroids reset even
                max_rank n_components kern rfl in
  dict_get (_pydmd_kwargs self) k
  = match kw with
    | None => dict_get default_options k
    | Some kw =>
        match dict_get kw k with
        | Some v => Some v
        | None => dict_get default_options k
        end
    end.
Proof.
  destruct kw as [kw|]; [|destruct kern; reflexivity].
  cbv zeta.
  assert (Hkw : _pydmd_kwargs
                  (__init__ svd_rank global_svd art last seed (Some kw) centroids reset
                     even max_rank n_components kern rfl)
                = dict_set
                    (dict_set
                       (dict_set kw "eig_sort" (dict_get_default kw "eig_sort" (VStr "imag")))
                       "proj_basis"
                       (dict_get_default
                          (dict_set kw "eig_sort"
                             (dict_get_default kw "eig_sort" (VStr "imag")))
                          "proj_basis" VNone))
                    "use_proj"
                    (dict_get_default
                       (dict_set
                          (dict_set kw "eig_sort"
                             (dict_get_default kw "eig_sort" (VStr "imag")))
                          "proj_basis"
                          (dict_get_default
                             (dict_set kw "eig_sort"
                                (dict_get_default kw "eig_sort" (VStr "imag")))
                             "proj_basis" VNone))
                       "use_proj" (VBool false)))
    by (destruct kern; reflexivity).
  rewrite Hkw. unfold dict_get_default. rewrite !dict_get_set.
  change (String.eqb "proj_basis" "use_proj") with false.
  change (String.eqb "eig_sort" "use_proj") with false.
  change (String.eqb "eig_sort" "proj_basis") with false.
  cbv iota.
  destruct (String.eqb_spec "use_proj" k) as [<-|Hu].
  { change (String.eqb "eig_sort" "use_proj") with false.
    change (String.eqb "proj_basis" "use_proj") with false.
    change (dict_get default_options "use_proj") with (Some (VBool false)).
    destruct (dict_get kw "use_proj"); reflexivity. }
  destruct (String.eqb_spec "proj_basis" k) as [<-|Hp].
  { change (String.eqb "eig_sort" "proj_basis") with false.
    change (dict_get default_options "proj_basis") with (Some VNone).
    destruct (dict_get kw "proj_basis"); reflexivity. }
  destruct (String.eqb_spec "eig_sort" k) as [<-|He].
  { change (dict_get default_options "eig_sort") with (Some (VStr "imag")).
    destruct (dict_get kw "eig_sort"); reflexivity. }
  assert (Hd : dict_get default_options k = None).
  { unfold default_options, dict_get.
    rewrite (proj2 (String.eqb_neq _ _) Hu), (proj2 (String.eqb_neq _ _) Hp),
      (proj2 (String.eqb_neq _ _) He). reflexivity. }
  rewrite Hd. destruct (dict_get kw k); reflexivity.
Qed.

(** X14.  The constructor drops its [cluster_centroids] argument: the object
    is the same with and without it, so a fresh object built with
    [initialize_artificially] and centroids, but no user seed, has no seed
    at all. *)
Theorem init_ignores_centroids svd_rank global_svd art last seed kw
    (centroids : option (array1 xfloat)) reset even max_rank n_components kern rfl :
  __init__ svd_rank global_svd art last seed kw centroids reset even max_rank
    n_components kern rfl
  = __init__ svd_rank global_svd art last seed kw None reset even max_rank
      n_components kern rfl
  /\ _build_initialization
       (__init__ svd_rank global_svd true last None kw centroids reset even max_rank
          n_components kern rfl) = Ok None.
Proof.
  split.
  - destruct kw, kern; reflexivity.
  - destruct kw, kern; reflexivity.
Qed.

(** X15.  A fresh object is not fitted: whatever the constructor was given,
    [get_window_indices] raises [TypeError], [to_xarray] fails, and
    [cluster_omega] fails without changing the object when the clustering
    class has [fit_predict]. *)
Theorem unfitted_object svd_rank global_svd art last seed kw centroids
    reset even max_rank n_components kern rfl :
  let self := __init__ svd_rank global_svd art last seed kw centroids reset even
                max_rank n_components kern rfl in
  (forall k, exists msg, get_window_indices k self = Raise (TypeError msg))
  /\ is_ok (to_xarray self) = false
  /\ forall n ckw tm m,
       is_ok (fst (cluster_omega n ckw tm m self)) = false
       /\ snd (cluster_omega n ckw tm m self) = self.
Proof.
  intros self.
  assert (Hom : _omega_array self = None) by (unfold self; destruct kw, kern; reflexivity).
  assert (Hst : _step_size self = None) by (unfold self; destruct kw, kern; reflexivity).
  split; [|split].
  - intros k. unfold get_window_indices. rewrite Hst. simpl. eauto.
  - unfold to_xarray. rewrite Hom. reflexivity.
  - intros n ckw tm m. unfold cluster_omega, _cluster, method_bind, lift, call.
    rewrite Hom. simpl.
    repeat match goal with
           | |- context [match ?x with Ok _ => _ | Raise _ => _ end] => destruct x
           end; auto.
Qed.

(** ** Attribute values *)

(** X16.  [_xarray_sanitize] never returns [None], a set or a callable, and
    sanitising twice is sanitising once; [_xarray_unsanitize] undoes it
    exactly on the values that are not a set, not a callable and not the
    string [None]. *)
Theorem xarray_sanitize_round_trip (v : pyval) :
  match _xarray_sanitize v with
  | VNone | VSet _ | VCallable _ => False
  | _ => True
  end
  /\ _xarray_sanitize (_xarray_sanitize v) = _xarray_sanitize v
  /\ (_xarray_unsanitize (_xarray_sanitize v) = v
      <-> match v with
          | VSet _ | VCallable _ => False
          | VStr s => s <> "None"
          | _ => True
          end).
Proof.
  split; [destruct v; exact I|]. split; [destruct v; reflexivity|].
  destruct v as [| | | |s| | | |]; simpl; try (split; [done|reflexivity]);
    try (split; [discriminate|done]).
  destruct (String.eqb_spec s "None") as [->|Hs].
  - split; [discriminate|done].
  - split; [done|reflexivity].
Qed.

(** What [from_xarray] does not read from the dataset. *)
Definition not_stored (self : COSTS) :=
  (_initialize_artificially self, _use_last_freq self, _init_alpha self,
   _force_even_eigs self, _max_rank self, _reset_alpha_init self,
   _omega_label self, _hist_kwargs self).

(** X17.  [from_xarray] leaves the seed settings, [force_even_eigs],
    [max_rank] and the plotting fields of the receiving object as they
    were, whether it succeeds or not: a loaded object keeps them from the
    receiver, not from the object that was saved. *)
Theorem from_xarray_keeps_receiver (ds : Dataset) (recv : COSTS) :
  not_stored (snd (from_xarray ds recv)) = not_stored recv.
Proof.
  assert (H : preserves not_stored (from_xarray ds)).
  { unfold from_xarray, from_xarray_attr. preserves_auto. }
  apply H.
Qed.

(** ** The sweep over the number of bands *)

(** X18.  When the sweep returns, its value is one of the candidates: a
    member of the range it was given, or, with the default range, a number
    from [max (svd_rank // 4, 2)] to [svd_rank // 2]. *)
Theorem sweep_result_in_range score range tm m ckw (self self' : COSTS) (n : Z) :
  cluster_hyperparameter_sweep score range tm m ckw self = (Ok n, self') ->
  match range with
  | Some r => n ∈ r
  | None => exists rank, _svd_rank self = Some rank
                         /\ Z.max (rank `div` 4) 2 <= n <= rank `div` 2
  end.
Proof.
  unfold cluster_hyperparameter_sweep. intros H.
  apply bind_inv in H as (r & s1 & Hr & H).
  apply bind_inv in H as (omega & s2 & _ & H).
  apply bind_inv in H as (tr & s3 & _ & H).
  apply bind_inv in H as (sc & s4 & _ & H).
  apply bind_inv in H as (best & s5 & _ & H).
  apply lift_inv in H as [H _]. apply row_at_inv in H.
  apply list_elem_of_lookup_2 in H.
  destruct range as [r0|].
  - unfold method_ret in Hr. by injection Hr as <- _.
  - apply bind_inv in Hr as (rank & s0 & Hrank & Hr).
    apply call_inv in Hrank as [Hrank ->]. apply the_inv in Hrank.
    unfold method_ret in Hr. injection Hr as <- _.
    exists rank. split; [done|]. apply elem_of_seqZ in H.
    lia.
Qed.

(** A score that tells the candidates apart: the number of bands in use,
    less one. *)
Definition band_score (points : array2 xfloat) (labels : array2 Z) : result xfloat :=
  Ok (Fin (IZR (foldr Z.max 0 (concat labels)))).

(** A solver that reports rank 8, and the run it gives. *)
Definition wide_solver : Solver :=
  {| product_below := binary64_below;
     compute_rank := fun _ _ => Ok 8;
     compute_svd := compute_svd toy_solver;
     bopdmd_new := bopdmd_new toy_solver;
     bopdmd_fit := bopdmd_fit toy_solver |}.

Definition wide_fitted : COSTS := snd (fit wide_solver toy_data toy_time 2 1 None toy_object).

Lemma wide_fit_ok :
  fit wide_solver toy_data toy_time 2 1 None toy_object = (Ok tt, wide_fitted).
Proof. vm_compute. reflexivity. Qed.

Lemma band_sweep_runs :
  fst (cluster_hyperparameter_sweep band_score (Some [2; 3]) (Some "absolute")
         band_clustering None toy_fitted) = Ok 3
  /\ fst (cluster_hyperparameter_sweep band_score None (Some "absolute")
            band_clustering None wide_fitted) = Ok 4.
Proof. band_compute. auto. Qed.

Lemma sweep_result_in_range_witness :
  (exists self',
     cluster_hyperparameter_sweep band_score (Some [2; 3]) (Some "absolute")
       band_clustering None toy_fitted = (Ok 3, self')
     /\ 3 ∈ [2; 3])
  /\ (exists self',
        cluster_hyperparameter_sweep band_score None (Some "absolute")
          band_clustering None wide_fitted = (Ok 4, self')
        /\ exists rank, _svd_rank wide_fitted = Some rank
                        /\ Z.max (rank `div` 4) 2 <= 4 <= rank `div` 2).
Proof.
  destruct band_sweep_runs as [H1 H2]. split.
  - destruct (cluster_hyperparameter_sweep band_score (Some [2; 3]) (Some "absolute")
                band_clustering None toy_fitted) as [r self'] eqn:H.
    simpl in H1. subst r. exists self'. split; [reflexivity|].
    exact (sweep_result_in_range _ _ _ _ _ _ _ _ H).
  - destruct (cluster_hyperparameter_sweep band_score None (Some "absolute")
                band_clustering None wide_fitted) as [r self'] eqn:H.
    simpl in H2. subst r. exists self'. split; [reflexivity|].
    exact (sweep_result_in_range _ _ _ _ _ _ _ _ H).
Defined.

(** X19.  With the default range and a rank of at most 3 there is no
    candidate, and the sweep never returns a value. *)
Theorem sweep_small_rank score tm m ckw (self : COSTS) (rank : Z) :
  _svd_rank self = Some rank -> rank <= 3 ->
  is_ok (fst (cluster_hyperparameter_sweep score None tm m ckw self)) = false.
Proof.
  intros Hrank Hsmall.
  destruct (cluster_hyperparameter_sweep score None tm m ckw self) as [[n|e] self'] eqn:H;
    [|reflexivity].
  exfalso. unfold cluster_hyperparameter_sweep in H.
  apply bind_inv in H as (r & s1 & Hr & H).
  apply bind_inv in H as (omega & s2 & _ & H).
  apply bind_inv in H as (tr & s3 & _ & H).
  apply bind_inv in H as (sc & s4 & _ & H).
  apply bind_inv in H as (best & s5 & _ & H).
  apply lift_inv in H as [H _]. apply row_at_inv in H.
  apply list_elem_of_lookup_2 in H.
  apply bind_inv in Hr as (rank' & s0 & Hrank' & Hr).
  apply call_inv in Hrank' as [Hrank' ->]. apply the_inv in Hrank'.
  unfold method_ret in Hr. injection Hr as <- _.
  rewrite Hrank in Hrank'. injection Hrank' as <-.
  apply elem_of_seqZ in H.
  assert (rank `div` 2 < 2) by (apply Z.div_lt_upper_bound; lia). lia.
Qed.

Lemma sweep_small_rank_witness :
  is_ok (fst (cluster_hyperparameter_sweep (fun _ _ => Ok (Fin 1%R)) None
                (Some "absolute") toy_clustering None toy_fitted)) = false.
Proof. apply (sweep_small_rank _ _ _ _ toy_fitted 2); [reflexivity|lia]. Defined.

(** ** The shapes of the result arrays *)

(** The row lengths of the five arrays that [fit] allocates. *)
Definition shapes (self : COSTS) :=
  (map length <$> _omega_array self, map length <$> _amplitudes_array self,
   map (map length) <$> _modes_array self, map length <$> _window_means_array self,
   map length <$> _time_array self).

Lemma broadcast_to_length {A} (n : nat) (src out : list A) :
  broadcast_to n src = Ok out -> length out = n.
Proof.
  unfold broadcast_to. destruct (Nat.eqb_spec (length src) n).
  - by intros [= <-].
  - destruct src as [|x [|]]; try done. intros [= <-]. by rewrite length_replicate.
Qed.

Lemma assign_prefix_length {A} (row : list A) (width : Z) (src row' : list A) :
  assign_prefix row width src = Ok row' -> length row' = length row.
Proof.
  unfold assign_prefix. intros H.
  destruct (broadcast_to _ src) as [new|] eqn:Hnew; [|done]. simpl in H.
  injection H as <-. apply replace_slice_length. by apply broadcast_to_length in Hnew.
Qed.

Lemma assign_block_shape {A} (block : list (list A)) (width : Z)
    (src block' : list (list A)) :
  assign_block block width src = Ok block' -> map length block' = map length block.
Proof.
  unfold assign_block. intros H.
  destruct (broadcast_to _ src) as [rows|] eqn:Hrows; [|done]. simpl in H.
  apply broadcast_to_length in Hrows. apply mapR_Forall2 in H.
  revert rows block' Hrows H. induction block as [|row block IH]; intros rows block' Hrows H.
  - destruct rows; [|done]. by inversion H.
  - destruct rows as [|srow rows]; [done|]. simpl in H.
    inversion H as [|? row' ? rest Hrow Hrest]; subst. simpl.
    apply assign_prefix_length in Hrow. rewrite Hrow. f_equal.
    apply (IH rows); [by injection Hrows|done].
Qed.

Lemma insert_same_image {A B} (f : A -> B) (l : list A) (k : nat) (x x' : A) :
  l !! k = Some x -> f x' = f x -> map f (<[k := x']> l) = map f l.
Proof.
  intros Hk Hf. change (map f) with (fmap (M := list) f).
  rewrite list_fmap_insert. apply list_insert_id.
  by rewrite list_lookup_fmap, Hk, Hf.
Qed.

Lemma fit_window_assign_shapes k o c otw (self self' : COSTS) :
  fit_window_assign k o c otw self = (Ok tt, self') -> shapes self' = shapes self.
Proof.
  unfold fit_window_assign. intros H. method_inv H.
  apply update_inv in H as ->. simpl in *.
  apply the_inv in Hm, Hm3, Hm7, Hm11, Hm15.
  apply row_at_inv in Hm0, Hm4, Hm8, Hm12, Hm16.
  apply assign_block_shape in Hm1. apply assign_prefix_length in Hm5, Hm9.
  apply broadcast_to_length in Hm13, Hm17.
  unfold shapes. simpl. rewrite Hm, Hm3, Hm7, Hm11, Hm15. simpl.
  rewrite (insert_same_image length a3 _ a4 a5 Hm4 Hm5).
  rewrite (insert_same_image length a7 _ a8 a9 Hm8 Hm9).
  rewrite (insert_same_image (map length) a _ a0 a1 Hm0 Hm1).
  rewrite (insert_same_image length a11 _ a12 a13 Hm12 Hm13).
  rewrite (insert_same_image length a15 _ a16 a17 Hm16 Hm17).
  reflexivity.
Qed.

Lemma for_each_keeps {X A B} (f : COSTS -> X) (body : A -> B -> method A) (l : list B) :
  (forall a b s a' s', body a b s = (Ok a', s') -> f s' = f s) ->
  forall a s a' s', for_each body a l s = (Ok a', s') -> f s' = f s.
Proof.
  intros Hbody. induction l as [|b l IH]; intros a s a' s' H; simpl in H.
  - unfold method_ret in H. by injection H as _ <-.
  - apply bind_inv in H as (a1 & s1 & Hb & H).
    rewrite (IH _ _ _ _ H). eauto.
Qed.

Lemma fit_window_shapes sv data time kern o k (self : COSTS) o' self' :
  fit_window sv data time kern o k self = (Ok o', self') -> shapes self' = shapes self.
Proof.
  intros H. apply fit_window_inv in H as (fitted & c & otw & H & _).
  by apply fit_window_assign_shapes in H.
Qed.

Lemma map_replicate {A B} (f : A -> B) (n : nat) (x : A) :
  map f (replicate n x) = replicate n (f x).
Proof. induction n as [|n IH]; simpl; [done|]. by rewrite IH. Qed.

Lemma fit_preallocate_shapes (self self' : COSTS) :
  fit_preallocate self = (Ok tt, self') ->
  exists n nv cap L,
    _n_slides self = Some n /\ _n_data_vars self = Some nv
    /\ _svd_rank_pre_allocate self = Some cap /\ _window_length self = Some L
    /\ 0 <= n /\ 0 <= nv /\ 0 <= cap /\ 0 <= L
    /\ shapes self'
       = (Some (replicate (Z.to_nat n) (Z.to_nat cap)),
          Some (replicate (Z.to_nat n) (Z.to_nat cap)),
          Some (replicate (Z.to_nat n) (replicate (Z.to_nat nv) (Z.to_nat cap))),
          Some (replicate (Z.to_nat n) (Z.to_nat nv)),
          Some (replicate (Z.to_nat n) (Z.to_nat L))).
Proof.
  unfold fit_preallocate. intros H. method_inv H.
  apply update_inv in H as ->. simpl in *.
  apply the_inv in Hm, Hm0, Hm1, Hm5.
  unfold np_full in *.
  destruct (Z.ltb_spec a 0); [done|]. destruct (Z.ltb_spec a1 0); [done|].
  destruct (Z.ltb_spec a5 0); [done|]. destruct (Z.ltb_spec a0 0); [done|].
  simplify_eq. exists a, a1, a5, a0.
  repeat (split; [assumption|]).
  unfold shapes. simpl.
  rewrite !map_replicate, !length_replicate. reflexivity.
Qed.

Lemma fit_solver_setup_shapes sv cs :
  preserves (fun s => (shapes s, capacity_view s, _window_length s))
    (fit_solver_setup sv cs).
Proof. unfold fit_solver_setup. preserves_auto. Qed.

Lemma fit_window_keeps_length sv data time kern o k :
  preserves (fun s => (capacity_view s, _window_length s))
    (fit_window sv data time kern o k).
Proof.
  unfold fit_window, fit_window_solve, fit_window_assign, fit_window_reseed.
  preserves_auto.
Qed.

(** The shapes that the result arrays keep through the windows. *)
Lemma fit_shapes sv data time L S cs (self self' : COSTS) :
  fit sv data time L S cs self = (Ok tt, self') ->
  exists n nv cap : nat,
    _n_slides self' = Some (Z.of_nat n) /\ _n_data_vars self' = Some (Z.of_nat nv)
    /\ _svd_rank_pre_allocate self' = Some (Z.of_nat cap)
    /\ shapes self'
       = (Some (replicate n cap), Some (replicate n cap),
          Some (replicate n (replicate nv cap)), Some (replicate n nv),
          Some (replicate n (Z.to_nat L))).
Proof.
  intros Hfit.
  pose proof (fit_geometry _ _ _ _ _ _ _ _ Hfit) as (_ & _ & _ & _ & Hgeo).
  apply fit_inv in Hfit as (s1 & s2 & s3 & s4 & setup & o' & H1 & H2 & H3 & H4 & H5).
  destruct (fit_preallocate_shapes _ _ H3)
    as (n & nv & cap & L' & Hn & Hnv & Hcap & HL & Hn0 & Hnv0 & Hcap0 & HL0 & Hsh).
  pose proof (preserves_eq _ _ _ _ _ fit_preallocate_keeps_capacity H3) as Hc3.
  pose proof (preserves_eq _ _ _ _ _ fit_preallocate_geometry H3) as Hg3.
  pose proof (preserves_eq _ _ _ _ _ (fit_solver_setup_shapes _ _) H4) as Hc4.
  cbv beta in Hc4.
  unfold fit_loop in H5.
  apply bind_inv in H5 as (n' & s5 & Hcall & H5). apply call_inv in Hcall as [_ ->].
  pose proof (for_each_keeps shapes _ _
                (fun a b s a' s' => fit_window_shapes sv data time (snd setup) a b s a' s')
                _ _ _ _ H5) as Hs5.
  pose proof (preserves_eq _ _ _ _ _
                (preserves_for_each (fun s => (capacity_view s, _window_length s)) _
                   (arange n')
                   (fun a b => fit_window_keeps_length sv data time (snd setup) a b)
                   (fst setup)) H5) as Hc5.
  cbv beta in Hc5.
  assert (Hcv : capacity_view self' = capacity_view s2)
    by congruence.
  assert (Hsh' : shapes self' = shapes s3) by congruence.
  unfold capacity_view in Hcv. rewrite Hn, Hnv, Hcap in Hcv.
  injection Hcv as Hn' Hnv' Hcap'.
  assert (HL' : L' = L).
  { unfold geometry in Hgeo. injection Hgeo as HwL _ _ _ _ _.
    assert (_window_length self' = _window_length s2).
    { transitivity (_window_length s3); [congruence|].
      exact (f_equal (fun g => fst (fst (fst (fst (fst g))))) Hg3). }
    congruence. }
  subst L'.
  exists (Z.to_nat n), (Z.to_nat nv), (Z.to_nat cap).
  rewrite !Z2Nat.id by assumption. rewrite Hsh', Hsh. auto.
Qed.

(** X20.  After a successful [fit] the five result arrays have the shapes
    they were allocated with: [omega_array] and [amplitudes_array] are
    [n_slides] rows of [svd_rank_pre_allocate] entries, [modes_array] is
    [n_slides] blocks of [n_data_vars] rows of [svd_rank_pre_allocate]
    entries, [window_means_array] is [n_slides] by [n_data_vars] and
    [time_array] is [n_slides] by the window length. *)
Theorem fit_array_shapes sv data time L S cs (self self' : COSTS) :
  fit sv data time L S cs self = (Ok tt, self') ->
  exists n nv cap : nat,
    _n_slides self' = Some (Z.of_nat n) /\ _n_data_vars self' = Some (Z.of_nat nv)
    /\ _svd_rank_pre_allocate self' = Some (Z.of_nat cap)
    /\ shapes self'
       = (Some (replicate n cap), Some (replicate n cap),
          Some (replicate n (replicate nv cap)), Some (replicate n nv),
          Some (replicate n (Z.to_nat L))).
Proof. exact (fit_shapes sv data time L S cs self self'). Qed.

Lemma fit_array_shapes_witness :
  exists n nv cap : nat,
    _n_slides toy_fitted = Some (Z.of_nat n) /\ _n_data_vars toy_fitted = Some (Z.of_nat nv)
    /\ _svd_rank_pre_allocate toy_fitted = Some (Z.of_nat cap)
    /\ shapes toy_fitted
       = (Some (replicate n cap), Some (replicate n cap),
          Some (replicate n (replicate nv cap)), Some (replicate n nv),
          Some (replicate n (Z.to_nat 2))).
Proof.
  exact (fit_array_shapes toy_solver toy_data toy_time 2 1 None toy_object toy_fitted
           toy_fit_ok).
Defined.

(** ** Periods *)

Lemma mapR_length {A B} (f : A -> result B) (l : list A) (l' : list B) :
  mapR f l = Ok l' -> length l' = length l.
Proof. intros H. apply mapR_Forall2 in H. symmetry. by eapply Forall2_length. Qed.

Lemma mapR_rows_shape {A B} (f : A -> result B) (a : list (list A)) (b : list (list B)) :
  mapR (mapR f) a = Ok b -> map length b = map length a.
Proof.
  intros H. apply mapR_Forall2 in H.
  induction H as [|row row' a b Hrow _ IH]; simpl; [done|].
  apply mapR_length in Hrow. by rewrite Hrow, IH.
Qed.

Lemma chunks_shape {A} (n m : nat) (l : list A) :
  length l = (n * m)%nat -> map length (chunks n m l) = replicate n m.
Proof.
  revert l. induction n as [|n IH]; intros l Hl; simpl; [done|].
  rewrite length_take, IH by (rewrite length_drop; lia). f_equal. lia.
Qed.

Lemma reshape2_shape {A} (l : list A) (n m : Z) (a : list (list A)) :
  0 <= n -> 0 <= m -> reshape2 l n m = Ok a ->
  map length a = replicate (Z.to_nat n) (Z.to_nat m).
Proof.
  intros Hn Hm. unfold reshape2.
  destruct (Z.leb_spec 0 n); [|lia]. destruct (Z.leb_spec 0 m); [|lia]. simpl.
  destruct (Z.eqb_spec (Z.of_nat (length l)) (n * m)) as [Hl|]; [|done].
  intros [= <-]. apply chunks_shape. nia.
Qed.

Lemma cluster_omega_classes n kw tm m (self self' : COSTS) :
  cluster_omega n kw tm m self = (Ok tt, self') ->
  exists (raw : list Z) ns cap (raw_classes classes : list (list Z)),
    _n_slides self = Some ns /\ _svd_rank_pre_allocate self = Some cap
    /\ reshape2 raw ns cap = Ok raw_classes
    /\ map length classes = map length raw_classes
    /\ _omega_classes self' = Some classes
    /\ _omega_array self' = _omega_array self.
Proof.
  intros H.
  assert (Hkeep : preserves (fun s => (_omega_array s, capacity_view s))
                    (cluster_omega n kw tm m)).
  { unfold cluster_omega, _cluster, transform_omega. preserves_auto. }
  pose proof (preserves_eq _ _ _ _ _ Hkeep H) as Hk. cbv beta in Hk.
  unfold cluster_omega in H.
  apply bind_inv in H as ([centroids classes] & s1 & Hc & H).
  unfold method_bind, update in H. simpl in H. injection H as <-.
  unfold _cluster in Hc.
  apply bind_inv in Hc as ([] & s2 & H1 & Hc). apply lift_inv in H1 as [_ ->].
  apply bind_inv in Hc as (clusterer & s3 & H2 & Hc). apply lift_inv in H2 as [_ ->].
  apply bind_inv in Hc as (omega_rshp & s4 & H3 & Hc). apply call_inv in H3 as [_ ->].
  apply bind_inv in Hc as (omega_transform & s5 & H4 & Hc).
  assert (Hv : capacity_view s5 = capacity_view self).
  { assert (Hp : preserves capacity_view (transform_omega omega_rshp tm))
      by (unfold transform_omega; preserves_auto).
    exact (preserves_eq _ _ _ _ _ Hp H4). }
  apply bind_inv in Hc as ([raw_labels centers] & s6 & H5 & Hc).
  apply lift_inv in H5 as [_ ->].
  apply bind_inv in Hc as (raw_classes & s7 & H6 & Hc). apply call_inv in H6 as [H6 ->].
  apply bind_inv in Hc as (lut & s8 & _ & Hc).
  apply bind_inv in Hc as (classes' & s9 & H8 & Hc). apply lift_inv in H8 as [H8 _].
  unfold method_ret in Hc. injection Hc as _ <- _.
  unfold capacity_view in Hv. injection Hv as Hns _ Hcap.
  rewrite Hns, Hcap in H6.
  destruct (_n_slides self) as [ns|]; [|done].
  destruct (_svd_rank_pre_allocate self) as [cap|]; [|done]. simpl in H6.
  exists raw_labels, ns, cap, raw_classes, classes'.
  split; [done|]. split; [done|]. split; [exact H6|].
  split; [by apply mapR_rows_shape in H8|]. split; [reflexivity|].
  simpl. exact (f_equal fst Hk).
Qed.

Lemma masked_row_length {A} (row : list A) (crow : list Z) :
  length row = length crow ->
  length (map fst (filter (fun p => snd p = true) (zip row (map (fun c => 0 <? c) crow))))
  = length (filter (fun c => 0 < c) crow).
Proof.
  revert crow. induction row as [|x row IH]; intros [|c crow] Hl; try done.
  simpl in *. rewrite !filter_cons. simpl.
  destruct (Z.ltb_spec 0 c).
  - rewrite decide_True by done. rewrite decide_True by done. simpl.
    f_equal. apply IH. lia.
  - rewrite decide_False by done. rewrite decide_False by lia. apply IH. lia.
Qed.

Lemma boolean_mask_positive {A} (a : list (list A)) (classes : list (list Z)) :
  map length a = map length classes ->
  exists out, boolean_mask a (map (map (fun c => 0 <? c)) classes) = Ok out
              /\ length out = length (filter (fun c => 0 < c) (concat classes)).
Proof.
  intros Hshape. unfold boolean_mask.
  rewrite decide_True.
  2:{ rewrite Hshape, map_map. apply map_ext. intros row. by rewrite length_map. }
  eexists. split; [reflexivity|].
  revert classes Hshape. induction a as [|row a IH]; intros [|crow classes] Hs; try done.
  simpl in *. injection Hs as Hrow Hs.
  rewrite length_app, filter_app, length_app, masked_row_length by done.
  f_equal. by apply IH.
Qed.

(** X21.  [periods] raises the [ValueError] of the unfitted object when
    there are no eigenvalues and [TypeError] when they have not been
    clustered; after a successful [fit] and a successful [cluster_omega] it
    returns one period for every eigenvalue slot, padding included, whose
    band is above band 0. *)
Theorem periods_outcomes sv data time L S cs n kw tm m (self fitted clustered : COSTS) :
  (_omega_array self = None ->
   periods self = Raise (ValueError "The object must be fit first."))
  /\ (fit sv data time L S cs self = (Ok tt, fitted) ->
      (_omega_classes fitted = None -> exists msg, periods fitted = Raise (TypeError msg))
      /\ (cluster_omega n kw tm m fitted = (Ok tt, clustered) ->
          exists classes out,
            _omega_classes clustered = Some classes
            /\ periods clustered = Ok out
            /\ length out = length (filter (fun c => 0 < c) (concat classes)))).
Proof.
  split.
  - intros Hnone. unfold periods. by rewrite Hnone.
  - intros Hfit.
    destruct (fit_shapes _ _ _ _ _ _ _ _ Hfit)
      as (ns & nv & cap & Hns & _ & Hcap & Hshape).
    unfold shapes in Hshape. injection Hshape as Hom _ _ _ _.
    destruct (_omega_array fitted) as [omega|] eqn:Homega; [|done].
    simpl in Hom. injection Hom as Hom.
    split.
    + intros Hcl. unfold periods. rewrite Homega, Hcl. simpl. eauto.
    + intros Hclu.
      apply cluster_omega_classes in Hclu
        as (raw & ns' & cap' & raw_classes & classes & Hns' & Hcap' & Hre & Hlen & Hcls & Hsame).
      rewrite Hns in Hns'. rewrite Hcap in Hcap'.
      injection Hns' as <-. injection Hcap' as <-.
      apply reshape2_shape in Hre; [|lia|lia]. rewrite !Nat2Z.id in Hre.
      destruct (boolean_mask_positive omega classes) as (sel & Hsel & Hcount);
        [congruence|].
      exists classes, (map (fun f => xf_div (Fin (2 * PI)) f)
                         (map (fun w => xf_abs (im w)) sel)).
      split; [exact Hcls|]. split.
      * unfold periods. rewrite Hsame, Homega, Hcls. simpl. rewrite Hsel. reflexivity.
      * by rewrite !length_map.
Qed.

Lemma periods_outcomes_witness :
  exists classes out,
    _omega_classes band_clustered = Some classes
    /\ classes = [[2; 0]; [1; 2]; [0; 1]]
    /\ periods band_clustered = Ok out
    /\ length out = length (filter (fun c => 0 < c) (concat classes))
    /\ length out = 4%nat.
Proof.
  destruct (periods_outcomes toy_solver toy_data toy_time 2 1 None 3 None
              (Some "absolute") band_clustering toy_object toy_fitted band_clustered)
    as [_ H].
  destruct (H toy_fit_ok) as [_ H'].
  destruct (H' band_cluster_ok) as (classes & out & Hc & Hout & Hlen).
  destruct band_cluster_run as (_ & _ & Hcls). rewrite Hcls in Hc. injection Hc as <-.
  exists [[2; 0]; [1; 2]; [0; 1]], out.
  split; [exact Hcls|]. split; [reflexivity|]. split; [exact Hout|].
  split; [exact Hlen|]. rewrite Hlen. reflexivity.
Defined.

(** ** The windows and the time axis *)

(** Time step [t] lies in the slice [s] of a series of [T] samples. *)
Definition in_slice (s : slice) (T t : Z) : Prop :=
  fst (slice_bounds s T) <= t < snd (slice_bounds s T).


(** X22.  After a successful [fit] with a step that does not exceed the
    window length, every time step of the series lies in the slice of at
    least one window. *)
Theorem windows_cover_series sv data time L S cs (self self' : COSTS) (t : Z) :
  fit sv data time L S cs self = (Ok tt, self') ->
  0 < L -> 0 < S <= L -> 0 <= t < Z.of_nat (length time) ->
  exists n k s,
    _n_slides self' = Some n /\ 0 <= k < n
    /\ get_window_indices k self' = Ok s
    /\ in_slice s (Z.of_nat (length time)) t.
Proof.
  intros Hfit HL HS Ht.
  destruct (fit_geometry _ _ _ _ _ _ _ _ Hfit) as (_ & _ & HLT & _ & Hgeo).
  set (T := Z.of_nat (length time)) in *.
  pose proof (int_of_product_range (product_below sv) T L) as HTs.
  set (Ts := int_of_product (product_below sv) T L) in *.
  set (n0 := (Ts - L) `div` S + 1) in *.
  set (extra := 0 <? T - (S * (n0 - 1) + L)) in *.
  unfold geometry in Hgeo. injection Hgeo as HwL HsS _ _ Hn Hflag.
  destruct (slide_count_bounds Ts T L S ltac:(lia) HLT HTs) as (_ & Hn1 & Hexact & Hreach).
  fold n0 in Hn1, Hexact, Hreach. fold extra in Hn1, Hexact.
  pose proof (div_bounds t S ltac:(lia)) as Hqt.
  assert (Hcase : (extra = true /\ T - L <= t) \/ (1 <= n0 /\ t < S * (n0 - 1) + L)).
  { destruct extra eqn:He.
    - destruct (Z.le_gt_cases (T - L) t); [by left|right]. split; [|lia].
      unfold n0. assert (0 <= (Ts - L) `div` S) by (apply Z.div_pos; lia). lia.
    - right. destruct (Hexact eq_refl) as [_ Hx]. lia. }
  destruct Hcase as [[He Hout]|[Hn0 Hin]].
  - exists (n0 + 1), n0, (Slice (Some (- L)) None).
    split; [by rewrite Hn, He|].
    assert (0 <= n0).
    { unfold n0. assert (-1 <= (Ts - L) `div` S); [|lia].
      apply Z.div_le_lower_bound; lia. }
    split; [lia|]. split.
    + rewrite (get_window_indices_eq self' L S _ n0 extra HwL HsS Hn Hflag).
      rewrite He. destruct (Z.eqb_spec n0 (n0 + 1 - 1)); [reflexivity|lia].
    + unfold in_slice, slice_bounds, clip_bound. simpl.
      destruct (Z.ltb_spec (- L) 0); [|lia]. nia.
  - set (k := Z.min (t `div` S) (n0 - 1)).
    assert (Hk0 : 0 <= k).
    { unfold k. assert (0 <= t `div` S) by (apply Z.div_pos; lia). lia. }
    assert (Hkn : k <= n0 - 1) by (unfold k; lia).
    assert (Hkt : S * k <= t < S * k + L).
    { unfold k. destruct (Z.min_spec (t `div` S) (n0 - 1)) as [[_ ->]|[Hle ->]].
      - lia.
      - assert (S * (n0 - 1) <= S * (t `div` S))
          by (apply Z.mul_le_mono_nonneg_l; lia).
        lia. }
    exists (if extra then n0 + 1 else n0), k,
      (Slice (Some (S * k)) (Some (S * k + L))).
    split; [exact Hn|]. split; [destruct extra; lia|]. split.
    + rewrite (get_window_indices_eq self' L S _ k extra HwL HsS Hn Hflag).
      destruct extra eqn:He.
      * destruct (Z.eqb_spec k (n0 + 1 - 1)); [lia|]. reflexivity.
      * by rewrite andb_false_r.
    + assert (S * k + L <= T) by nia.
      unfold in_slice, slice_bounds, clip_bound. simpl.
      destruct (Z.ltb_spec (S * k) 0); [lia|].
      destruct (Z.ltb_spec (S * k + L) 0); [lia|]. lia.
Qed.

Lemma windows_cover_series_witness :
  exists n k s,
    _n_slides toy_fitted = Some n /\ 0 <= k < n
    /\ get_window_indices k toy_fitted = Ok s
    /\ in_slice s (Z.of_nat (length toy_time)) 3.
Proof.
  apply (windows_cover_series toy_solver toy_data toy_time 2 1 None toy_object toy_fitted 3
           toy_fit_ok); simpl; lia.
Defined.

(** X23.  With a step larger than the window length there are gaps: when
    the series has at least [S + L] samples, time step [L] lies in the
    slice of no window, so its total weight in the reconstruction stays
    zero. *)
Theorem windows_leave_gap sv data time L S cs (self self' : COSTS) :
  fit sv data time L S cs self = (Ok tt, self') ->
  0 < L < S -> S + L <= Z.of_nat (length time) ->
  exists n, _n_slides self' = Some n
            /\ forall k, 0 <= k < n ->
                 exists s, get_window_indices k self' = Ok s
                           /\ ~ in_slice s (Z.of_nat (length time)) L.
Proof.
  intros Hfit HL HT.
  destruct (fit_geometry _ _ _ _ _ _ _ _ Hfit) as (_ & _ & HLT & _ & Hgeo).
  set (T := Z.of_nat (length time)) in *.
  set (n0 := (int_of_product (product_below sv) T L - L) `div` S + 1) in *.
  set (extra := 0 <? T - (S * (n0 - 1) + L)) in *.
  unfold geometry in Hgeo. injection Hgeo as HwL HsS _ _ Hn Hflag.
  exists (if extra then n0 + 1 else n0). split; [exact Hn|]. intros k Hk.
  rewrite (get_window_indices_eq self' L S _ k extra HwL HsS Hn Hflag).
  eexists. split; [reflexivity|].
  unfold in_slice, slice_bounds, clip_bound.
  destruct ((k =? (if extra then n0 + 1 else n0) - 1) && extra); simpl.
  - destruct (Z.ltb_spec (- L) 0); [|lia]. lia.
  - destruct (Z.ltb_spec (S * k) 0); [nia|].
    destruct (Z.ltb_spec (S * k + L) 0); [nia|].
    destruct (Z.eq_dec k 0) as [->|]; [lia|]. nia.
Qed.

(** A run with windows of one sample every other sample. *)
Definition toy_sparse : COSTS := snd (fit toy_solver toy_data toy_time 1 2 None toy_object).

Lemma toy_sparse_ok :
  fit toy_solver toy_data toy_time 1 2 None toy_object = (Ok tt, toy_sparse).
Proof. vm_compute. reflexivity. Qed.

Lemma windows_leave_gap_witness :
  exists n, _n_slides toy_sparse = Some n
            /\ forall k, 0 <= k < n ->
                 exists s, get_window_indices k toy_sparse = Ok s
                           /\ ~ in_slice s (Z.of_nat (length toy_time)) 1.
Proof.
  apply (windows_leave_gap toy_solver toy_data toy_time 1 2 None toy_object toy_sparse
           toy_sparse_ok); simpl; lia.
Defined.

(** ** Band ids *)

(** X24.  When the clustering capability returns [n_components] centroids,
    every band id that a successful [cluster_omega] stores lies between 0
    and [n_components - 1], whatever raw labels the capability returned. *)
Theorem cluster_classes_in_range n kw tm m (self self' : COSTS) :
  (forall kw' clusterer points labels centers,
     new_clusterer m n kw' = Ok clusterer ->
     fit_predict clusterer points = Ok (labels, centers) ->
     Z.of_nat (length (concat centers)) = n) ->
  cluster_omega n kw tm m self = (Ok tt, self') ->
  exists classes,
    _omega_classes self' = Some classes
    /\ Forall (Forall (fun c => 0 <= c < n)) classes.
Proof.
  intros Hcount H. unfold cluster_omega in H.
  apply bind_inv in H as ([centroids classes] & s1 & Hc & H).
  unfold method_bind, update in H. simpl in H. injection H as <-.
  apply cluster_inv in Hc
    as (kw' & clusterer & points & raw_labels & centers & n_slides & capacity
        & raw_classes & lut & Hnew & Hfit & _ & Hlut & Hmap & _).
  pose proof (Hcount _ _ _ _ _ Hnew Hfit) as Hn.
  pose proof (build_lut_bijection _ _ _ Hn Hlut) as (Hlen & Hto & _ & _).
  exists classes. split; [reflexivity|].
  apply mapR_Forall2 in Hmap.
  induction Hmap as [|row row' rows rows' Hrow _ IH]; constructor; [|exact IH].
  apply mapR_Forall2 in Hrow. clear IH.
  induction Hrow as [|raw new r r' Hw _ IH]; constructor; [|exact IH].
  unfold index_wrap in Hw.
  destruct ((0 <=? _) && (_ <? _)) eqn:Hb; [|done].
  apply row_at_inv in Hw. apply andb_true_iff in Hb as [Hb1 Hb2].
  apply Z.leb_le in Hb1. apply Z.ltb_lt in Hb2.
  destruct (Hto (Z.to_nat (if raw <? 0 then raw + Z.of_nat (length lut) else raw)))
    as (c & Hc & Hlook); [lia|].
  rewrite Hw in Hlook. injection Hlook as ->. lia.
Qed.

Lemma cluster_classes_in_range_witness :
  exists classes,
    _omega_classes band_clustered = Some classes
    /\ classes = [[2; 0]; [1; 2]; [0; 1]]
    /\ Forall (Forall (fun c => 0 <= c < 3)) classes.
Proof.
  destruct (cluster_classes_in_range 3 None (Some "absolute") band_clustering toy_fitted
              band_clustered
              (fun kw' c p l cs => band_clustering_count 3 kw' c p l cs ltac:(lia))
              band_cluster_ok)
    as (classes & Hc & Hall).
  exists classes. split; [exact Hc|]. split; [|exact Hall].
  destruct band_cluster_run as (_ & _ & Hcls). rewrite Hcls in Hc. by injection Hc as <-.
Defined.

(** ** The rank and the projection basis *)

Lemma fit_rank_policy_global sv data (s s' : COSTS) :
  _global_svd s = true -> fit_rank_policy sv data s = (Ok tt, s') ->
  exists r1 r2 u,
    compute_rank sv data (_svd_rank s) = Ok r1
    /\ compute_svd sv data (_svd_rank s) = Ok u
    /\ compute_rank sv data (Some r1) = Ok r2
    /\ _svd_rank s' = Some r2 /\ _svd_rank_pre_allocate s' = Some r2
    /\ _pydmd_kwargs s'
       = dict_set (dict_set (_pydmd_kwargs s) "proj_basis" (VArray u)) "use_proj"
           (dict_get_default (dict_set (_pydmd_kwargs s) "proj_basis" (VArray u))
              "use_proj" (VBool false)).
Proof.
  intros Hg H. unfold fit_rank_policy in H.
  apply bind_inv in H as (g & s0 & Hr & H). apply read_inv in Hr as [-> ->].
  rewrite Hg in H.
  apply bind_inv in H as (r0 & s0 & Hr & H). apply read_inv in Hr as [-> ->].
  apply bind_inv in H as (u & s1 & Hu & H). unfold _build_proj_basis in Hu.
  apply bind_inv in Hu as (r1 & s0 & Hr1 & Hu). apply lift_inv in Hr1 as [Hr1 ->].
  apply bind_inv in Hu as ([] & s0 & Hs & Hu). apply update_inv in Hs as ->.
  apply lift_inv in Hu as [Hu ->].
  apply bind_inv in H as ([] & s0 & Hs & H). apply update_inv in Hs as ->.
  apply bind_inv in H as ([] & s0 & Hs & H). apply update_inv in Hs as ->.
  apply bind_inv in H as (r1' & s0 & Hr & H). apply read_inv in Hr as [-> ->].
  apply bind_inv in H as (r2 & s0 & Hr2 & H). apply lift_inv in Hr2 as [Hr2 ->].
  apply bind_inv in H as ([] & s0 & Hs & H). apply update_inv in Hs as ->.
  apply update_inv in H as ->.
  exists r1, r2, u. simpl in *. auto 10.
Qed.

Lemma fit_rank_policy_rank sv data (s s' : COSTS) :
  fit_rank_policy sv data s = (Ok tt, s') -> is_Some (_svd_rank s').
Proof.
  intros H. destruct (_global_svd s) eqn:Hg.
  - apply (fit_rank_policy_global _ _ _ _ Hg) in H as (r1 & r2 & u & _ & _ & _ & Hr & _).
    by rewrite Hr.
  - assert (Hkeep : preserves (fun c => (_global_svd c, _svd_rank c))
                      (let* svd_rank := call (fun self => the ">" (_svd_rank self)) in
                       method_ret svd_rank)) by preserves_auto.
    unfold fit_rank_policy in H.
    apply bind_inv in H as (g & s0 & Hr & H). apply read_inv in Hr as [-> ->].
    rewrite Hg in H.
    apply bind_inv in H as (r & s0 & Hr & H). apply call_inv in Hr as [Hr ->].
    apply the_inv in Hr.
    assert (Hp : forall m : method unit,
               m = (if 0 <? r then
                      let* force_even_eigs := read _force_even_eigs in
                      if force_even_eigs && negb (r `mod` 2 =? 0) then
                        raise (ValueError "svd_rank is odd, but force_even_eigs is True.")
                      else
                        let* n_data_vars := call (fun self => the ">" (_n_data_vars self)) in
                        if n_data_vars <? r then
                          raise (ValueError "Rank is larger than the data spatial dimension.")
                        else
                          let* r := lift (compute_rank sv data (Some r)) in
                          update (set_svd_rank_pre_allocate (Some r))
                    else
                      let* max_rank := read _max_rank in
                      match max_rank with
                      | Some m => update (set_svd_rank_pre_allocate (Some m))
                      | None =>
                          let* n_data_vars := read _n_data_vars in
                          update (set_svd_rank_pre_allocate n_data_vars)
                      end) ->
               preserves _svd_rank m).
    { intros m0 ->. preserves_auto. }
    rewrite (preserves_eq _ _ _ _ _ (Hp _ eq_refl) H), Hr. eauto.
Qed.

Lemma fit_tail_keeps_rank sv data time cs :
  preserves (fun s => (_svd_rank s, _svd_rank_pre_allocate s, _pydmd_kwargs s))
    (let* _ := fit_preallocate in
     let* setup := fit_solver_setup sv cs in
     let* _ := fit_loop sv data time (snd setup) (fst setup) in
     method_ret tt).
Proof.
  unfold fit_preallocate, fit_solver_setup, fit_loop, fit_window, fit_window_solve,
    fit_window_assign, fit_window_reseed.
  preserves_auto.
Qed.

(** X25.  With a global SVD, a successful [fit] has computed the rank twice,
    the second time from the first result, stores that second rank both as
    [svd_rank] and as the capacity [svd_rank_pre_allocate], and keeps the
    global basis under [proj_basis] in the options, with [use_proj]
    present. *)
Theorem fit_global_rank sv data time L S cs (self self' : COSTS) :
  _global_svd self = true ->
  fit sv data time L S cs self = (Ok tt, self') ->
  exists r1 r2 u,
    compute_rank sv data (_svd_rank self) = Ok r1
    /\ compute_svd sv data (_svd_rank self) = Ok u
    /\ compute_rank sv data (Some r1) = Ok r2
    /\ _svd_rank self' = Some r2 /\ _svd_rank_pre_allocate self' = Some r2
    /\ dict_get (_pydmd_kwargs self') "proj_basis" = Some (VArray u)
    /\ is_Some (dict_get (_pydmd_kwargs self') "use_proj").
Proof.
  intros Hg Hfit. unfold fit in Hfit.
  apply bind_inv in Hfit as ([] & s1 & H1 & Hfit).
  apply bind_inv in Hfit as ([] & s2 & H2 & Hfit).
  assert (Hplan : preserves (fun s => (_global_svd s, _svd_rank s, _pydmd_kwargs s))
                    (fit_plan_windows (product_below sv) (shape1 data) (Z.of_nat (length data))
                       (Z.of_nat (length time)) L S))
    by (unfold fit_plan_windows; preserves_auto).
  pose proof (preserves_eq _ _ _ _ _ Hplan H1) as Hp. cbv beta in Hp.
  injection Hp as Hg1 Hr1 Hk1. rewrite Hg in Hg1.
  apply (fit_rank_policy_global _ _ _ _ Hg1) in H2
    as (r1 & r2 & u & Hc1 & Hu & Hc2 & Hrank & Hcap & Hkw).
  pose proof (preserves_eq _ _ _ _ _ (fit_tail_keeps_rank sv data time cs) Hfit) as Ht.
  cbv beta in Ht. injection Ht as Hrank' Hcap' Hkw'.
  exists r1, r2, u. rewrite <- Hr1. split; [done|]. split; [done|]. split; [done|].
  rewrite Hrank', Hcap', Hkw', Hkw. split; [done|]. split; [done|].
  rewrite !dict_get_set.
  change (String.eqb "use_proj" "proj_basis") with false.
  change (String.eqb "proj_basis" "proj_basis") with true.
  change (String.eqb "use_proj" "use_proj") with true. cbv iota. eauto.
Qed.

Lemma fit_global_rank_witness :
  exists r1 r2 u,
    compute_rank toy_solver toy_data (_svd_rank toy_object) = Ok r1
    /\ compute_svd toy_solver toy_data (_svd_rank toy_object) = Ok u
    /\ compute_rank toy_solver toy_data (Some r1) = Ok r2
    /\ _svd_rank toy_fitted = Some r2 /\ _svd_rank_pre_allocate toy_fitted = Some r2
    /\ dict_get (_pydmd_kwargs toy_fitted) "proj_basis" = Some (VArray u)
    /\ is_Some (dict_get (_pydmd_kwargs toy_fitted) "use_proj").
Proof.
  exact (fit_global_rank toy_solver toy_data toy_time 2 1 None toy_object toy_fitted
           eq_refl toy_fit_ok).
Defined.

(** ** Saving a fitted and clustered object *)

(** What [to_xarray] needs besides the clustering results. *)
Definition saved_inputs (self : COSTS) :=
  (_omega_array self, _amplitudes_array self, _modes_array self,
   _window_means_array self, _time_array self, _n_slides self, _svd_rank self,
   _n_data_vars self, _window_length self).

Lemma cluster_omega_sets n kw tm m (self self' : COSTS) :
  cluster_omega n kw tm m self = (Ok tt, self') ->
  saved_inputs self' = saved_inputs self
  /\ is_Some (_cluster_centroids self') /\ is_Some (_omega_classes self')
  /\ _n_components self' = Some n /\ _transform_method self' = tm.
Proof.
  intros H.
  assert (Hkeep : preserves saved_inputs (cluster_omega n kw tm m)).
  { unfold cluster_omega, _cluster, transform_omega. preserves_auto. }
  split; [exact (preserves_eq _ _ _ _ _ Hkeep H)|].
  unfold cluster_omega in H.
  apply bind_inv in H as ([centroids classes] & s1 & _ & H).
  unfold method_bind, update in H. simpl in H. injection H as <-. simpl. eauto.
Qed.

Lemma fit_global_rank_capacity sv data time L S cs (self self' : COSTS) :
  _global_svd self = true ->
  fit sv data time L S cs self = (Ok tt, self') ->
  exists r, _svd_rank self' = Some r /\ _svd_rank_pre_allocate self' = Some r.
Proof.
  intros Hg Hfit. unfold fit in Hfit.
  apply bind_inv in Hfit as ([] & s1 & H1 & Hfit).
  apply bind_inv in Hfit as ([] & s2 & H2 & Hfit).
  assert (Hplan : preserves _global_svd
                    (fit_plan_windows (product_below sv) (shape1 data) (Z.of_nat (length data))
                       (Z.of_nat (length time)) L S))
    by (unfold fit_plan_windows; preserves_auto).
  pose proof (preserves_eq _ _ _ _ _ Hplan H1) as Hg1. rewrite Hg in Hg1.
  apply (fit_rank_policy_global _ _ _ _ Hg1) in H2
    as (r1 & r2 & u & _ & _ & _ & Hrank & Hcap & _).
  pose proof (preserves_eq _ _ _ _ _ (fit_tail_keeps_rank sv data time cs) Hfit) as Ht.
  cbv beta in Ht. injection Ht as Hrank' Hcap' _.
  exists r2. by rewrite Hrank', Hcap'.
Qed.

Lemma cluster_omega_centroid_count n kw tm m (self self' : COSTS) :
  (forall kw' clusterer points labels centers,
     new_clusterer m n kw' = Ok clusterer ->
     fit_predict clusterer points = Ok (labels, centers) ->
     Z.of_nat (length (concat centers)) = n) ->
  cluster_omega n kw tm m self = (Ok tt, self') ->
  exists cc, _cluster_centroids self' = Some cc /\ Z.of_nat (length cc) = n.
Proof.
  intros Hcount H. unfold cluster_omega in H.
  apply bind_inv in H as ([centroids classes] & s1 & Hc & H).
  unfold method_bind, update in H. simpl in H. injection H as <-.
  apply cluster_inv in Hc
    as (kw' & clusterer & points & raw_labels & centers & n_slides & capacity
        & raw_classes & lut & Hnew & Hfit & _ & _ & _ & ->).
  eexists. split; [reflexivity|].
  destruct (argsort_sorted (concat centers)) as [_ Hperm].
  rewrite (Permutation_length Hperm). eauto.
Qed.

Lemma length_arange (n : Z) : length (arange n) = Z.to_nat n.
Proof. unfold arange. apply length_seqZ. Qed.

(** [to_xarray] on an object whose arrays have the extents that the
    coordinates announce. *)
Lemma to_xarray_ok (self : COSTS) omega oc amp modes means cc times
    (ns rank nv nc wl : Z) :
  _omega_array self = Some omega -> _omega_classes self = Some oc ->
  _amplitudes_array self = Some amp -> _modes_array self = Some modes ->
  _window_means_array self = Some means -> _cluster_centroids self = Some cc ->
  _time_array self = Some times ->
  _n_slides self = Some ns -> _svd_rank self = Some rank ->
  _n_data_vars self = Some nv -> _n_components self = Some nc ->
  _window_length self = Some wl ->
  map length omega = replicate (Z.to_nat ns) (Z.to_nat rank) ->
  map length oc = replicate (Z.to_nat ns) (Z.to_nat rank) ->
  map length amp = replicate (Z.to_nat ns) (Z.to_nat rank) ->
  map (map length) modes
  = replicate (Z.to_nat ns) (replicate (Z.to_nat nv) (Z.to_nat rank)) ->
  map length means = replicate (Z.to_nat ns) (Z.to_nat nv) ->
  length cc = Z.to_nat nc ->
  map length times = replicate (Z.to_nat ns) (Z.to_nat wl) ->
  exists ds,
    to_xarray self = Ok ds
    /\ dataset_data ds = (omega, oc, amp, modes, means, cc, times)
    /\ ds_slide ds = arange ns.
Proof.
  intros Eo Eoc Ea Em Ew Ecc Et Hns Hrank Hnv Hnc HwL So Soc Sa Sm Sw Scc St.
  unfold to_xarray.
  rewrite Eo, Eoc, Ea, Em, Ew, Ecc, Et, Hns, Hrank, Hnv, Hnc, HwL.
  cbn [the_array the mbind result_bind]. cbv zeta.
  rewrite !length_arange. unfold has_shape2, has_shape3.
  rewrite !bool_decide_eq_true_2 by assumption. cbn [andb negb].
  eexists. split; [reflexivity|].
  match goal with
  | |- context [foldl ?f ?d0 (_pydmd_kwargs self)] =>
      destruct (store_options_fold (_pydmd_kwargs self) d0) as [Hd _]
  end.
  cbv zeta in Hd. split; [exact Hd|].
  clear. induction (_pydmd_kwargs self) as [|kv l IH] using rev_ind; [reflexivity|].
  rewrite foldl_app. simpl. exact IH.
Qed.

(** X26.  A successful [fit] with a global SVD, followed by a successful
    [cluster_omega] whose clustering capability returns [n_components]
    centroids, leaves an object that [to_xarray] accepts: every dimension
    has one size.  The dataset holds the arrays of the fit, and its
    [slide] coordinate counts the windows. *)
Theorem to_xarray_after_clustering sv data time L S cs n kw tm m
    (self fitted clustered : COSTS) :
  _global_svd self = true ->
  (forall kw' clusterer points labels centers,
     new_clusterer m n kw' = Ok clusterer ->
     fit_predict clusterer points = Ok (labels, centers) ->
     Z.of_nat (length (concat centers)) = n) ->
  fit sv data time L S cs self = (Ok tt, fitted) ->
  cluster_omega n kw tm m fitted = (Ok tt, clustered) ->
  exists ds n_slides,
    to_xarray clustered = Ok ds
    /\ _omega_array fitted = Some (ds_omega ds)
    /\ _amplitudes_array fitted = Some (ds_amplitudes ds)
    /\ _modes_array fitted = Some (ds_modes ds)
    /\ _time_array fitted = Some (ds_time ds)
    /\ _n_slides fitted = Some n_slides /\ ds_slide ds = arange n_slides.
Proof.
  intros Hg Hcount Hfit Hclu.
  destruct (fit_shapes _ _ _ _ _ _ _ _ Hfit)
    as (ns & nv & cap & Hns & Hnv & Hcap & Hshape).
  pose proof (fit_geometry _ _ _ _ _ _ _ _ Hfit) as (_ & _ & _ & _ & Hgeo).
  unfold geometry in Hgeo. injection Hgeo as HwL _ _ _ _ _.
  destruct (fit_global_rank_capacity _ _ _ _ _ _ _ _ Hg Hfit) as (r & Hrank & Hcap').
  rewrite Hcap in Hcap'. injection Hcap' as <-.
  unfold shapes in Hshape. injection Hshape as Ho Ha Hm Hw Ht.
  destruct (_omega_array fitted) as [omega|] eqn:Eo; [|done].
  destruct (_amplitudes_array fitted) as [amp|] eqn:Ea; [|done].
  destruct (_modes_array fitted) as [modes|] eqn:Em; [|done].
  destruct (_window_means_array fitted) as [means|] eqn:Ew; [|done].
  destruct (_time_array fitted) as [times|] eqn:Et; [|done].
  cbn in Ho, Ha, Hm, Hw, Ht.
  injection Ho as Ho. injection Ha as Ha. injection Hm as Hm.
  injection Hw as Hw. injection Ht as Ht.
  destruct (cluster_omega_classes _ _ _ _ _ _ Hclu)
    as (raw & ns' & cap' & raw_classes & classes & Hns2 & Hcap2 & Hre & Hlen & Hoc & _).
  rewrite Hns in Hns2. rewrite Hcap in Hcap2.
  injection Hns2 as <-. injection Hcap2 as <-.
  apply reshape2_shape in Hre; [|lia|lia].
  destruct (cluster_omega_centroid_count _ _ _ _ _ _ Hcount Hclu) as (cc & Hcc & Hlencc).
  apply cluster_omega_sets in Hclu as (Hin & _ & _ & Hnc & _).
  unfold saved_inputs in Hin. rewrite Eo, Ea, Em, Ew, Et, Hns, Hrank, Hnv, HwL in Hin.
  injection Hin as Eo' Ea' Em' Ew' Et' Hns' Hrank' Hnv' HwL'.
  destruct (to_xarray_ok clustered omega classes amp modes means cc times
              (Z.of_nat ns) (Z.of_nat cap) (Z.of_nat nv) n L)
    as (ds & Hds & Hdata & Hslide); try assumption;
    rewrite ?Nat2Z.id; try assumption.
  - rewrite Hlen, Hre. by rewrite !Nat2Z.id.
  - lia.
  - unfold dataset_data in Hdata. injection Hdata as <- _ <- <- _ _ <-.
    exists ds, (Z.of_nat ns). auto 10.
Qed.

Lemma to_xarray_after_clustering_witness :
  exists ds n_slides,
    to_xarray band_clustered = Ok ds
    /\ _omega_array toy_fitted = Some (ds_omega ds)
    /\ _amplitudes_array toy_fitted = Some (ds_amplitudes ds)
    /\ _modes_array toy_fitted = Some (ds_modes ds)
    /\ _time_array toy_fitted = Some (ds_time ds)
    /\ _n_slides toy_fitted = Some n_slides /\ ds_slide ds = arange n_slides.
Proof.
  exact (to_xarray_after_clustering toy_solver toy_data toy_time 2 1 None 3 None
           (Some "absolute") band_clustering toy_object toy_fitted band_clustered
           eq_refl
           (fun kw' c p l cs => band_clustering_count 3 kw' c p l cs ltac:(lia))
           toy_fit_ok band_cluster_ok).
Defined.

(** ** The time stamps and the means of the windows *)

Lemma get_window_indices_geometry (a b : COSTS) (k : Z) :
  geometry a = geometry b -> get_window_indices k a = get_window_indices k b.
Proof.
  unfold geometry. intros [= HL HS _ _ Hn Hf].
  unfold get_window_indices. by rewrite HL, HS, Hn, Hf.
Qed.

Lemma fit_window_solve_inv sv data time kern o k (s s' : COSTS) o' c otw :
  fit_window_solve sv data time kern o k s = (Ok (o', c, otw), s') ->
  exists sl, get_window_indices k s = Ok sl
             /\ otw = apply_slice sl time
             /\ c = map np_mean (map (apply_slice sl) data).
Proof.
  unfold fit_window_solve. intros H.
  apply bind_inv in H as (sl & s0 & Hsl & H). apply call_inv in Hsl as [Hsl ->].
  apply bind_inv in H as (t0 & s0 & Ht0 & H). apply lift_inv in Ht0 as [Ht0 ->].
  apply bind_inv in H as (dw & s0 & Hdw & H). apply lift_inv in Hdw as [Hdw ->].
  apply bind_inv in H as (g & s0 & Hg & H). apply read_inv in Hg as [-> ->].
  apply bind_inv in H as (o1 & s1 & Ho1 & H).
  apply bind_inv in H as (o2 & s2 & Ho2 & H). apply lift_inv in Ho2 as [Ho2 ->].
  unfold method_ret in H. injection H as _ <- <- _.
  exists sl. auto.
Qed.

Lemma fit_window_side_rows sv data time kern o k (s s' : COSTS) o' :
  fit_window sv data time kern o k s = (Ok o', s') ->
  exists sl (T M : list (list xfloat)) row mrow row' mrow',
    get_window_indices k s = Ok sl
    /\ _time_array s = Some T /\ _window_means_array s = Some M
    /\ T !! Z.to_nat k = Some row /\ M !! Z.to_nat k = Some mrow
    /\ broadcast_to (length row) (apply_slice sl time) = Ok row'
    /\ broadcast_to (length mrow) (map np_mean (map (apply_slice sl) data)) = Ok mrow'
    /\ _time_array s' = Some (<[Z.to_nat k := row']> T)
    /\ _window_means_array s' = Some (<[Z.to_nat k := mrow']> M).
Proof.
  unfold fit_window. intros H.
  apply bind_inv in H as ([[fitted c] otw] & s1 & Hsolve & H).
  pose proof (preserves_eq _ _ _ _ _ (fit_window_solve_pure _ _ _ _ _ _) Hsolve) as Hs.
  simpl in Hs. subst s1.
  apply fit_window_solve_inv in Hsolve as (sl & Hsl & -> & ->).
  apply bind_inv in H as ([] & s2 & Hassign & H).
  apply fit_window_reseed_inv in H as (-> & _).
  simpl in Hassign. unfold fit_window_assign in Hassign. method_inv Hassign.
  apply update_inv in Hassign as ->. simpl in *.
  apply the_inv in Hm11, Hm15. apply row_at_inv in Hm12, Hm16.
  exists sl, a15, a11, a16, a12, a17, a13. auto 10.
Qed.

Lemma broadcast_to_same {A} (src out : list A) :
  broadcast_to (length src) src = Ok out -> out = src.
Proof. unfold broadcast_to. rewrite Nat.eqb_refl. by intros [= <-]. Qed.

(** The rows of window [k] in the time and the mean arrays. *)
Definition side_rows (self : COSTS) (k : nat) :=
  (_time_array self ≫= (fun a => a !! k), _window_means_array self ≫= (fun a => a !! k)).

Lemma fit_loop_other_side_rows sv data time kern (l : list Z) o (self : COSTS) o' self' k :
  for_each (fit_window sv data time kern) o l self = (Ok o', self') ->
  (forall x, x ∈ l -> k <> Z.to_nat x) ->
  side_rows self' k = side_rows self k.
Proof.
  revert o self. induction l as [|x l IH]; intros o self H Hne; simpl in H.
  - unfold method_ret in H. by injection H as _ <-.
  - apply bind_inv in H as (o1 & s1 & Hx & H).
    rewrite (IH _ _ H) by (intros y Hy; apply Hne; by apply list_elem_of_further).
    apply fit_window_side_rows in Hx
      as (sl & T & M & row & mrow & row' & mrow' & _ & HT & HM & _ & _ & _ & _ & HT' & HM').
    unfold side_rows. rewrite HT, HM, HT', HM'. simpl.
    assert (Hx : Z.to_nat x <> k)
      by (intros E; apply (Hne x (list_elem_of_here _ _)); by symmetry).
    by rewrite !list_lookup_insert_ne by exact Hx.
Qed.

Lemma window_slice_length {A} (Ts T L S n0 k : Z) (flag : bool) (series : list A) :
  0 < L <= T -> 0 < S -> T - 1 <= Ts <= T -> n0 = (Ts - L) `div` S + 1 ->
  flag = (0 <? T - (S * (n0 - 1) + L)) ->
  0 <= k < (if flag then n0 + 1 else n0) -> Z.of_nat (length series) = T ->
  length (apply_slice
            (if (k =? (if flag then n0 + 1 else n0) - 1) && flag
             then Slice (Some (- L)) None
             else Slice (Some (S * k)) (Some (S * k + L))) series)
  = Z.to_nat L.
Proof.
  intros HL HS HTs -> -> Hk Hlen.
  set (n0 := (Ts - L) `div` S + 1) in *.
  set (flag := 0 <? T - (S * (n0 - 1) + L)) in *.
  destruct ((k =? (if flag then n0 + 1 else n0) - 1) && flag) eqn:Hlast.
  - rewrite apply_slice_tail by lia. rewrite length_drop. lia.
  - assert (Hkn : 0 <= k < n0).
    { destruct flag; [|lia]. rewrite andb_true_r in Hlast.
      apply Z.eqb_neq in Hlast. lia. }
    pose proof (step_window_fits Ts T L S k HS ltac:(lia) Hkn) as Hfits.
    rewrite apply_slice_range by nia.
    rewrite length_take, length_drop. nia.
Qed.

(** X27.  After a successful [fit], row [k] of [time_array] holds the time
    stamps that the slice of window [k] selects from the time vector, and
    row [k] of [window_means_array] the mean of every data variable over
    that slice: no later window overwrites them. *)
Theorem fit_records_windows sv data time L S cs (self self' : COSTS) :
  fit sv data time L S cs self = (Ok tt, self') -> 0 < L -> 0 < S ->
  exists n, _n_slides self' = Some n
            /\ forall k, 0 <= k < n ->
                 exists sl,
                   get_window_indices k self' = Ok sl
                   /\ side_rows self' (Z.to_nat k)
                      = (Some (apply_slice sl time),
                         Some (map np_mean (map (apply_slice sl) data))).
Proof.
  intros Hfit HL HS.
  pose proof (fit_geometry _ _ _ _ _ _ _ _ Hfit) as (_ & _ & HLT & _ & Hgeo).
  pose proof Hfit as Hinv.
  apply fit_inv in Hinv as (s1 & s2 & s3 & s4 & setup & o' & H1 & H2 & H3 & H4 & H5).
  destruct (fit_preallocate_shapes _ _ H3)
    as (n & nv & cap & L' & Hn & Hnv & Hcap & HL' & Hn0 & Hnv0 & Hcap0 & HL0 & Hsh).
  pose proof (preserves_eq _ _ _ _ _ (fit_solver_setup_shapes _ _) H4) as Hc4.
  cbv beta in Hc4.
  pose proof (f_equal (fun t => fst (fst t)) Hc4) as Hsh4. cbv beta in Hsh4.
  unfold fst in Hsh4. clear Hc4.
  pose proof (preserves_eq _ _ _ _ _ fit_preallocate_geometry H3) as Hg3.
  pose proof (preserves_eq _ _ _ _ _ (fit_solver_setup_geometry _ _) H4) as Hg4.
  pose proof (preserves_eq _ _ _ _ _ (fit_loop_geometry _ _ _ _ _) H5) as Hg5.
  assert (Hgs2 : geometry s2 = geometry self') by congruence.
  set (T := Z.of_nat (length time)) in *.
  pose proof (int_of_product_range (product_below sv) T L) as Hprod.
  set (Ts := int_of_product (product_below sv) T L) in *.
  set (n0 := (Ts - L) `div` S + 1) in *.
  set (extra := 0 <? T - (S * (n0 - 1) + L)) in *.
  unfold geometry in Hgeo. injection Hgeo as HwL HsS _ Hnvs Hns Hflag.
  pose proof Hgs2 as Hfields. unfold geometry in Hfields.
  injection Hfields as EL _ _ Env En _.
  assert (n = if extra then n0 + 1 else n0) as -> by congruence.
  assert (nv = Z.of_nat (length data)) as -> by congruence.
  assert (L' = L) as -> by congruence.
  exists (if extra then n0 + 1 else n0). split; [exact Hns|]. intros k Hk.
  unfold fit_loop in H5.
  apply bind_inv in H5 as (n' & s5 & Hcall & H5). apply call_inv in Hcall as [Hcall ->].
  assert (Hn' : n' = if extra then n0 + 1 else n0).
  { pose proof (f_equal (fun g => snd (fst g)) (eq_trans Hg4 Hg3)) as E. simpl in E.
    rewrite E, Hn in Hcall. simpl in Hcall. by injection Hcall. }
  subst n'.
  assert (Hsplit : arange (if extra then n0 + 1 else n0)
                   = arange k ++ [k]
                     ++ seqZ (k + 1) ((if extra then n0 + 1 else n0) - (k + 1))).
  { unfold arange.
    replace (if extra then n0 + 1 else n0)
      with (k + (1 + ((if extra then n0 + 1 else n0) - (k + 1)))) at 1 by lia.
    rewrite seqZ_app by lia. f_equal. rewrite seqZ_app by lia. reflexivity. }
  rewrite Hsplit in H5.
  apply for_each_app_inv in H5 as (oa & sa & Ha & H5).
  apply for_each_app_inv in H5 as (ob & sb & Hb & Hrest).
  simpl in Hb. apply bind_inv in Hb as (ob' & sb' & Hb & Hret).
  unfold method_ret in Hret. injection Hret as -> ->.
  assert (Hga : geometry sa = geometry self').
  { pose proof (preserves_eq _ _ _ _ _
                  (preserves_for_each geometry _ (arange k)
                     (fun a b => fit_window_geometry sv data time (snd setup) a b)
                     (fst setup)) Ha) as E.
    congruence. }
  assert (Hsa : shapes sa = shapes s3).
  { rewrite (for_each_keeps shapes _ _
               (fun a b s a' s' => fit_window_shapes sv data time (snd setup) a b s a' s')
               _ _ _ _ Ha). exact Hsh4. }
  apply fit_window_side_rows in Hb
    as (sl & Tm & M & row & mrow & row' & mrow' & Hsl & HT & HM & Hrow & Hmrow
        & Hrow' & Hmrow' & HT' & HM').
  rewrite (get_window_indices_geometry sa self' k Hga) in Hsl.
  exists sl. split; [exact Hsl|].
  rewrite (fit_loop_other_side_rows _ _ _ _ _ _ _ _ _ (Z.to_nat k) Hrest)
    by (intros x Hx; apply elem_of_seqZ in Hx; lia).
  unfold side_rows. rewrite HT', HM'. simpl.
  rewrite !list_lookup_insert_eq by eauto using lookup_lt_Some.
  rewrite Hsh in Hsa. unfold shapes in Hsa. rewrite HT, HM in Hsa. simpl in Hsa.
  injection Hsa as _ _ _ HMs HTs.
  assert (Hlrow : length row = Z.to_nat L).
  { pose proof (f_equal (fun l => l !! Z.to_nat k) HTs) as E. simpl in E.
    change (map length Tm) with (length <$> Tm) in E.
    rewrite list_lookup_fmap, Hrow in E. simpl in E.
    rewrite lookup_replicate_2 in E by lia. by injection E. }
  assert (Hlmrow : length mrow = length data).
  { pose proof (f_equal (fun l => l !! Z.to_nat k) HMs) as E. simpl in E.
    change (map length M) with (length <$> M) in E.
    rewrite list_lookup_fmap, Hmrow in E. simpl in E.
    rewrite lookup_replicate_2 in E by lia. injection E as E. lia. }
  assert (Hsl' : sl = if (k =? (if extra then n0 + 1 else n0) - 1) && extra
                      then Slice (Some (- L)) None
                      else Slice (Some (S * k)) (Some (S * k + L))).
  { rewrite (get_window_indices_eq self' L S _ k extra HwL HsS Hns Hflag) in Hsl.
    by injection Hsl. }
  assert (Hlsl : length (apply_slice sl time) = Z.to_nat L).
  { rewrite Hsl'. apply (window_slice_length Ts T L S n0 k extra); try done; lia. }
  rewrite <- Hlsl in Hlrow. rewrite Hlrow in Hrow'. apply broadcast_to_same in Hrow'.
  assert (Hlc : length (map np_mean (map (apply_slice sl) data)) = length data)
    by (by rewrite !length_map).
  rewrite <- Hlc in Hlmrow. rewrite Hlmrow in Hmrow'. apply broadcast_to_same in Hmrow'.
  by rewrite Hrow', Hmrow'.
Qed.

Lemma fit_records_windows_witness :
  exists n, _n_slides toy_fitted = Some n
            /\ forall k, 0 <= k < n ->
                 exists sl,
                   get_window_indices k toy_fitted = Ok sl
                   /\ side_rows toy_fitted (Z.to_nat k)
                      = (Some (apply_slice sl toy_time),
                         Some (map np_mean (map (apply_slice sl) toy_data))).
Proof.
  apply (fit_records_windows toy_solver toy_data toy_time 2 1 None toy_object toy_fitted
           toy_fit_ok); lia.
Defined.
